(** * Debug_Agent: a shallow embedding of the heuristic analysis and repair stack

    The development follows the Python sources:
    - [src/core/models.py]: the enumerations and the records
      ([SeverityLevel], [IssueType], [ComplexityLevel], [TestType],
      [AnalysisResult], [TestCase], [TestResults], [RepairResult],
      [AnalysisContext])
    - [src/core/constants.py]: [Constants]
    - [src/core/base_agent.py]: [BaseAgent]
    - [src/agents/static_analysis_agent.py]: [SecurityAnalyzer],
      [QualityAnalyzer], [PerformanceAnalyzer], [ComplexityAnalyzer],
      [StaticAnalysisAgent]
    - [src/agents/test_driven_repair_agent.py]: [TestGenerator],
      [TestRunner], the four repair strategies, [TestDrivenRepairAgent]
    - [src/agents/coordinator_agent.py]: [CoordinatorAgent]
    - [src/core/config.py]: [AgentConfig], [ConfigManager], [Config]; the
      values a configuration file can hold are in [Json]
    - [src/memory/memory_manager.py]: [MemoryManager]

    Conventions of the embedding.
    - Python [str] is [string]; the text is taken to be ASCII, so [lower],
      [isspace] and the regular-expression classes have their ASCII reading.
    - Python [int] is [Z]; Python [float] is a primitive binary64 [float].
    - A Python [dict] whose entries hold values of any type (a result map)
      is an association list in insertion order ([dict]); a dictionary whose
      values have one type (the metadata of an issue, the success rates, the
      files by path) is a [gmap].
    - An exception is a value of [exception]; code that may raise returns a
      [result].
    - Wall-clock readings ([time.time()], [datetime.now()]) do not influence
      control flow; entries that only hold such a reading are left out.
    - The standard-library parser ([ast.parse] followed by [ast.walk]) and the
      file system ([os.path.exists], [open]) are parameters of the model. *)

From Stdlib Require Import Ascii Floats ZArith DecimalString.
From stdpp Require Import gmap strings list.

Set Warnings "-inexact-float,-register-all".
Set Default Proof Using "Type".

(* ===================================================================== *)
(** * Part I: definitions *)
(* ===================================================================== *)

(** ** Fragments of the Python runtime *)
Module Py.

Definition nl : ascii := "010"%char.
Definition dquote : ascii := "034"%char.
Definition squote : ascii := "039"%char.

(** [s.split('\n')]: never empty, one more piece than there are newlines. *)
Fixpoint split_nl (s : string) : list string :=
  match s with
  | EmptyString => [EmptyString]
  | String c rest =>
      if Ascii.eqb c nl then EmptyString :: split_nl rest
      else match split_nl rest with
           | [] => [String c EmptyString]
           | l :: ls => String c l :: ls
           end
  end.

(** [sep.join(pieces)] *)
Fixpoint join (sep : string) (pieces : list string) : string :=
  match pieces with
  | [] => EmptyString
  | p :: ps =>
      match ps with
      | [] => p
      | _ :: _ => p +:+ sep +:+ join sep ps
      end
  end.

Definition join_nl : list string -> string := join (String nl EmptyString).

Definition lower_char (c : ascii) : ascii :=
  let n := nat_of_ascii c in
  if (65 <=? n)%nat && (n <=? 90)%nat then ascii_of_nat (n + 32) else c.

(** [s.lower()] *)
Fixpoint lower (s : string) : string :=
  match s with
  | EmptyString => EmptyString
  | String c r => String (lower_char c) (lower r)
  end.

(** [sub in s] *)
Fixpoint contains (sub s : string) : bool :=
  String.prefix sub s
  || match s with
     | EmptyString => false
     | String _ r => contains sub r
     end.

(** [c.isspace()] on ASCII: TAB..CR, FS..US and the blank. *)
Definition isspace (c : ascii) : bool :=
  let n := nat_of_ascii c in
  ((9 <=? n)%nat && (n <=? 13)%nat) || ((28 <=? n)%nat && (n <=? 32)%nat).

(** The class [\w] on ASCII. *)
Definition isword (c : ascii) : bool :=
  let n := nat_of_ascii c in
  ((48 <=? n)%nat && (n <=? 57)%nat) || ((65 <=? n)%nat && (n <=? 90)%nat)
  || ((97 <=? n)%nat && (n <=? 122)%nat) || (n =? 95)%nat.

Definition isquote (c : ascii) : bool := Ascii.eqb c dquote || Ascii.eqb c squote.

(** [s.lstrip()] *)
Fixpoint lstrip (s : string) : string :=
  match s with
  | EmptyString => EmptyString
  | String c r => if isspace c then lstrip r else s
  end.

(** [s.rstrip()] *)
Fixpoint rstrip (s : string) : string :=
  match s with
  | EmptyString => EmptyString
  | String c r =>
      match rstrip r with
      | EmptyString => if isspace c then EmptyString else String c EmptyString
      | String _ _ as r' => String c r'
      end
  end.

(** [s.strip()] *)
Definition strip (s : string) : string := rstrip (lstrip s).

(** [s[:n]] and [s[n:]] for a literal [n >= 0] *)
Fixpoint str_take (n : nat) (s : string) : string :=
  match n, s with
  | S k, String c r => String c (str_take k r)
  | _, _ => EmptyString
  end.

Fixpoint str_drop (n : nat) (s : string) : string :=
  match n, s with
  | S k, String _ r => str_drop k r
  | _, _ => s
  end.

(** [c * n] for a one-character string [c] *)
Fixpoint str_repeat (c : ascii) (n : nat) : string :=
  match n with
  | O => EmptyString
  | S k => String c (str_repeat c k)
  end.

(** The longest prefix of [s] whose characters satisfy [p], and the rest. *)
Fixpoint span (p : ascii -> bool) (s : string) : string * string :=
  match s with
  | EmptyString => (EmptyString, EmptyString)
  | String c r =>
      if p c then let '(a, b) := span p r in (String c a, b)
      else (EmptyString, s)
  end.

(** [str(n)] for an [int] *)
Definition str_of_Z (z : Z) : string := NilZero.string_of_int (Z.to_int z).
Definition str_of_nat (n : nat) : string := str_of_Z (Z.of_nat n).

(** [float(n)] for an [int]: the nearest float, a tie going to the even
    one.  Python raises an [OverflowError] where no finite float is near
    enough (from 2^1024 - 2^970 on); the conversion here gives an infinity
    there. *)
Definition float_of_Z (z : Z) : float :=
  SF2Prim (SpecFloat.binary_normalize FloatOps.prec FloatOps.emax z 0 false).

(** [l[i]], with Python's negative indices; [None] is [IndexError]. *)
Definition getitem {A} (l : list A) (i : Z) : option A :=
  let len := Z.of_nat (length l) in
  if (0 <=? i)%Z && (i <? len)%Z then l !! Z.to_nat i
  else if (- len <=? i)%Z && (i <? 0)%Z then l !! Z.to_nat (len + i)
  else None.

(** [l[i] = v] *)
Definition setitem {A} (l : list A) (i : Z) (v : A) : option (list A) :=
  let len := Z.of_nat (length l) in
  if (0 <=? i)%Z && (i <? len)%Z then Some (<[Z.to_nat i := v]> l)
  else if (- len <=? i)%Z && (i <? 0)%Z then Some (<[Z.to_nat (len + i) := v]> l)
  else None.

(** A slice bound brought into [0, len]. *)
Definition clamp (len i : Z) : Z :=
  if (i <? 0)%Z then Z.max (i + len) 0 else Z.min i len.

(** [l[start:stop] = new] *)
Definition slice_assign {A} (l : list A) (start stop : Z) (new : list A) : list A :=
  let len := Z.of_nat (length l) in
  let lo := clamp len start in
  let hi := Z.max lo (clamp len stop) in
  take (Z.to_nat lo) l ++ new ++ drop (Z.to_nat hi) l.

(** [l[:stop]] *)
Definition slice_to {A} (l : list A) (stop : Z) : list A :=
  take (Z.to_nat (clamp (Z.of_nat (length l)) stop)) l.

(** [enumerate(l, start)] *)
Fixpoint enumerate {A} (start : Z) (l : list A) : list (Z * A) :=
  match l with
  | [] => []
  | x :: xs => (start, x) :: enumerate (start + 1) xs
  end.

(** [sum(xs)] over floats: the accumulator starts at the integer 0 and the
    terms are added from left to right (CPython up to 3.11, the versions
    [setup.py] lists). *)
Definition sum_float (xs : list float) : float :=
  fold_left PrimFloat.add xs 0%float.

(** Exceptions the modelled code can meet. *)
Inductive exception :=
| AttributeError (msg : string)
| TypeError (msg : string)
| IndexError (msg : string)
| ZeroDivisionError (msg : string)
| KeyError (msg : string)
| ValueError (msg : string)
| SyntaxError (msg : string)
| OtherException (cls msg : string)
| AnalysisException (msg : string) (file_path : option string).

(** [str(e)] *)
Definition str_of_exception (e : exception) : string :=
  match e with
  | AttributeError m | TypeError m | IndexError m | ZeroDivisionError m
  | KeyError m | ValueError m | SyntaxError m | OtherException _ m
  | AnalysisException m _ => m
  end.

(** [e.__class__.__name__] *)
Definition class_name (e : exception) : string :=
  match e with
  | AttributeError _ => "AttributeError"
  | TypeError _ => "TypeError"
  | IndexError _ => "IndexError"
  | ZeroDivisionError _ => "ZeroDivisionError"
  | KeyError _ => "KeyError"
  | ValueError _ => "ValueError"
  | SyntaxError _ => "SyntaxError"
  | OtherException c _ => c
  | AnalysisException _ _ => "AnalysisException"
  end.

(** The outcome of code that may raise. *)
Inductive result (A : Type) :=
| Ok (a : A)
| Raise (e : exception).
Arguments Ok {A} a.
Arguments Raise {A} e.

Definition bind {A B} (r : result A) (k : A -> result B) : result B :=
  match r with
  | Ok a => k a
  | Raise e => Raise e
  end.

End Py.

Notation "'try!' x := e 'in' k" := (Py.bind e (fun x => k))
  (at level 10, x pattern, e at level 200, k at level 200, only parsing).

(** ** [core/models.py]: enumerations *)

Module SeverityLevel.
Inductive t := LOW | MEDIUM | HIGH | CRITICAL.
Definition value (s : t) : string :=
  match s with
  | LOW => "low" | MEDIUM => "medium" | HIGH => "high" | CRITICAL => "critical"
  end.
End SeverityLevel.

Module IssueType.
Inductive t := SECURITY | QUALITY | PERFORMANCE | LOGIC | STYLE.
Definition value (i : t) : string :=
  match i with
  | SECURITY => "security" | QUALITY => "quality" | PERFORMANCE => "performance"
  | LOGIC => "logic" | STYLE => "style"
  end.
End IssueType.

Module ComplexityLevel.
Inductive t := LOW | MEDIUM | HIGH | VERY_HIGH.
Definition value (c : t) : Z :=
  match c with
  | LOW => 1 | MEDIUM => 2 | HIGH => 3 | VERY_HIGH => 4
  end.
End ComplexityLevel.

Module TestType.
Inductive t := UNIT | INTEGRATION | FUNCTIONAL.
Definition value (k : t) : string :=
  match k with
  | UNIT => "unit" | INTEGRATION => "integration" | FUNCTIONAL => "functional"
  end.
End TestType.

(** ** [core/models.py]: issue records *)

Module AnalysisResult.

(** The dataclass an issue record is an instance of, with the fields that
    class adds to [AnalysisResult].  The analyzers pass integers for
    [threshold_value] and [actual_value]. *)
Inductive subclass :=
| Base
| SecurityIssue (cwe_id vulnerability_type attack_vector : option string)
| QualityIssue (quality_metric : string) (threshold_value actual_value : Z)
| PerformanceIssue (performance_metric : string)
    (impact_level : SeverityLevel.t) (optimization_suggestion : string).

(** [metadata] is a [Dict[str, Any]]; the sources only ever read
    [str(metadata.get(key, ''))], so each value is kept as the text [str]
    gives for it. *)
Record t := {
  file_path : option string;
  line_number : Z;
  issue_type : IssueType.t;
  severity : SeverityLevel.t;
  description : string;
  suggestion : string;
  confidence : float;
  rule_id : option string;
  metadata : gmap string string;
  class : subclass
}.

(** [hasattr(issue, 'quality_metric')] together with the attribute's value *)
Definition quality_metric (i : t) : option string :=
  match class i with
  | QualityIssue m _ _ => Some m
  | _ => None
  end.

Definition vulnerability_type (i : t) : option string :=
  match class i with
  | SecurityIssue _ v _ => v
  | _ => None
  end.

End AnalysisResult.

(** ** Python values of type [Any] *)

Inductive pyval :=
| PNone
| PBool (b : bool)
| PInt (z : Z)
| PFloat (f : float)
| PStr (s : string)
| PList (l : list pyval)
| PDict (d : list (string * pyval))
| PIssue (i : AnalysisResult.t).

(** A dictionary with string keys, in insertion order. *)
Abbreviation dict := (list (string * pyval)).

Module Dict.

(** [d.get(k)] *)
Fixpoint get (k : string) (d : dict) : option pyval :=
  match d with
  | [] => None
  | (k', v) :: rest => if String.eqb k k' then Some v else get k rest
  end.

(** [d.get(k, default)] *)
Definition get_default (k : string) (default : pyval) (d : dict) : pyval :=
  match get k d with
  | Some v => v
  | None => default
  end.

(** [d[k]] *)
Definition subscript (k : string) (d : dict) : Py.result pyval :=
  match get k d with
  | Some v => Py.Ok v
  | None => Py.Raise (Py.KeyError ("'" +:+ k +:+ "'"))
  end.

(** [k in d] *)
Definition mem (k : string) (d : dict) : bool :=
  match get k d with
  | Some _ => true
  | None => false
  end.

(** [d[k] = v]: an existing key keeps its place, a new one goes last. *)
Fixpoint set (k : string) (v : pyval) (d : dict) : dict :=
  match d with
  | [] => [(k, v)]
  | (k', v') :: rest =>
      if String.eqb k k' then (k, v) :: rest else (k', v') :: set k v rest
  end.

(** [d.update(other)] *)
Definition update (d other : dict) : dict :=
  fold_left (fun acc kv => set kv.1 kv.2 acc) other d.

(** The issue records of a list value; [d.get(k, [])] read as a list of
    issues. *)
Definition issues_of_val (v : pyval) : list AnalysisResult.t :=
  match v with
  | PList l =>
      omap (fun x => match x with PIssue i => Some i | _ => None end) l
  | _ => []
  end.

Definition issues (k : string) (d : dict) : list AnalysisResult.t :=
  issues_of_val (get_default k (PList []) d).

(** Python truthiness *)
Definition truthy (v : pyval) : bool :=
  match v with
  | PNone => false
  | PBool b => b
  | PInt z => negb (z =? 0)%Z
  | PFloat f => negb (PrimFloat.eqb f 0%float)
  | PStr s => negb (String.eqb s EmptyString)
  | PList l => match l with [] => false | _ => true end
  | PDict d => match d with [] => false | _ => true end
  | PIssue _ => true
  end.

Definition of_opt_str (o : option string) : pyval :=
  match o with
  | Some s => PStr s
  | None => PNone
  end.

End Dict.

(** [type(v).__name__] *)
Definition type_name (v : pyval) : string :=
  match v with
  | PNone => "NoneType"
  | PBool _ => "bool"
  | PInt _ => "int"
  | PFloat _ => "float"
  | PStr _ => "str"
  | PList _ => "list"
  | PDict _ => "dict"
  | PIssue i =>
      match AnalysisResult.class i with
      | AnalysisResult.Base => "AnalysisResult"
      | AnalysisResult.SecurityIssue _ _ _ => "SecurityIssue"
      | AnalysisResult.QualityIssue _ _ _ => "QualityIssue"
      | AnalysisResult.PerformanceIssue _ _ _ => "PerformanceIssue"
      end
  end.

(** ** [json]: the values a file can hold *)

Module Json.

(** The default of CPython's limit on the digits of an [int] that is
    converted to or from text ([sys.get_int_max_str_digits()]). *)
Definition max_str_digits : Z := 4300.

(** The least positive [int] with more digits than that. *)
Definition limit : Z := Eval vm_compute in (10 ^ max_str_digits)%Z.

(** An [int] that [json.dump] can write and [json.load] can read back. *)
Definition int_ok (z : Z) : bool := (Z.abs z <? limit)%Z.

(** Keys that are pairwise different, as the keys of a Python [dict] are. *)
Fixpoint distinct (keys : list string) : bool :=
  match keys with
  | [] => true
  | k :: rest => negb (existsb (String.eqb k) rest) && distinct rest
  end.

(** The values [json.dump] writes: [None], the booleans, the integers
    within the limit, the floats ([NaN] and the infinities too, by the
    default [allow_nan=True]), strings, and lists and dictionaries of such
    values.  An [AnalysisResult] makes it raise a [TypeError], an integer
    beyond the limit a [ValueError].  What [json.load] reads back from the
    text is the value that was written. *)
Fixpoint serializable (v : pyval) : bool :=
  match v with
  | PNone | PBool _ | PFloat _ | PStr _ => true
  | PInt z => int_ok z
  | PList l => forallb serializable l
  | PDict d => distinct (map fst d) && forallb (fun kv => serializable (snd kv)) d
  | PIssue _ => false
  end.

(** No float in the value is a [NaN]. *)
Fixpoint nan_free (v : pyval) : bool :=
  match v with
  | PFloat f => PrimFloat.eqb f f
  | PList l => forallb nan_free l
  | PDict d => forallb (fun kv => nan_free (snd kv)) d
  | _ => true
  end.

(** [x == z] for a [float] and an [int]: Python compares the exact values. *)
Definition float_eq_int (x : float) (z : Z) : bool :=
  match Prim2SF x with
  | S754_zero _ => (z =? 0)%Z
  | S754_finite s m e =>
      let n := if s then Z.neg m else Z.pos m in
      if (0 <=? e)%Z then (z =? n * 2 ^ e)%Z else (z * 2 ^ (- e) =? n)%Z
  | S754_infinity _ | S754_nan => false
  end.

(** A number: a [bool] counts as the [int] 0 or 1. *)
Definition number (v : pyval) : option (Z + float) :=
  match v with
  | PBool b => Some (inl (if b then 1 else 0)%Z)
  | PInt z => Some (inl z)
  | PFloat x => Some (inr x)
  | _ => None
  end.

Definition number_eq (a b : Z + float) : bool :=
  match a, b with
  | inl x, inl y => (x =? y)%Z
  | inr x, inr y => PrimFloat.eqb x y
  | inl z, inr x | inr x, inl z => float_eq_int x z
  end.

Section all2.
Context {A B : Type} (f : A -> B -> bool).

Fixpoint all2 (l : list A) (m : list B) : bool :=
  match l, m with
  | [], [] => true
  | x :: l, y :: m => f x y && all2 l m
  | _, _ => false
  end.

End all2.

(** [a == b] for two values of the types JSON has that share no object, as
    a value and the one read back from its text: numbers by their value (a
    [NaN] equals nothing), strings by their text, lists entry by entry,
    dictionaries by their keys whatever the order.  The comparison of
    [AnalysisResult] objects is not part of this development. *)
Fixpoint eq (a b : pyval) {struct a} : bool :=
  match a, b with
  | PNone, PNone => true
  | PStr s, PStr t => String.eqb s t
  | PBool x, _ => match number b with
                  | Some n => number_eq (inl (if x then 1 else 0)%Z) n
                  | None => false
                  end
  | PInt x, _ => match number b with
                 | Some n => number_eq (inl x) n
                 | None => false
                 end
  | PFloat x, _ => match number b with
                   | Some n => number_eq (inr x) n
                   | None => false
                   end
  | PList l, PList m => all2 eq l m
  | PDict d, PDict e =>
      (length d =? length e)%nat
      && forallb (fun kv => match Dict.get (fst kv) e with
                            | Some w => eq (snd kv) w
                            | None => false
                            end) d
  | _, _ => false
  end.

End Json.

(** ** [core/models.py]: test and repair records *)

Module TestCase.
Record t := {
  id : string;
  name : string;
  description : string;
  input_data : dict;
  expected_output : pyval;
  test_type : TestType.t;
  generated_by : string;
  code_template : option string;
  setup_code : option string;
  teardown_code : option string
}.
End TestCase.

Module TestResults.
Record t := {
  total_tests : Z;
  passed_tests : Z;
  failed_tests : Z;
  error_tests : Z;
  test_details : list dict
}.

(** Attribute access by name on a [TestResults] instance: the dataclass has
    the fields above and [execution_time], nothing else. *)
Definition getattr_int (r : t) (attr : string) : Py.result Z :=
  if String.eqb attr "total_tests" then Py.Ok (total_tests r)
  else if String.eqb attr "passed_tests" then Py.Ok (passed_tests r)
  else if String.eqb attr "failed_tests" then Py.Ok (failed_tests r)
  else if String.eqb attr "error_tests" then Py.Ok (error_tests r)
  else Py.Raise (Py.AttributeError
         ("'TestResults' object has no attribute '" +:+ attr +:+ "'")).
End TestResults.

Module RepairResult.
Record t := {
  original_code : string;
  repaired_code : string;
  applied_fixes : list string;
  success : bool;
  validation_passed : bool;
  performance_impact : list (string * float);
  side_effects : list string;
  confidence : float;
  repair_strategy : string
}.
End RepairResult.

Module AnalysisContext.
Record t := {
  code : string;
  file_path : option string;
  complexity_level : ComplexityLevel.t;
  file_type : string;
  code_size : Z;
  dependencies : list string
}.
End AnalysisContext.

(** ** [core/constants.py] *)

Module Constants.

Definition ANALYSIS_RULES : dict :=
  [ ("security", PDict
      [ ("enabled", PBool true); ("severity_threshold", PStr "MEDIUM");
        ("rules", PList [PStr "hardcoded_passwords"; PStr "sql_injection";
                         PStr "xss_vulnerability"; PStr "insecure_random";
                         PStr "path_traversal"]) ]);
    ("quality", PDict
      [ ("enabled", PBool true); ("severity_threshold", PStr "LOW");
        ("rules", PList [PStr "todo_comments"; PStr "fixme_comments";
                         PStr "long_lines"; PStr "complex_functions";
                         PStr "unused_imports"; PStr "magic_numbers"]) ]);
    ("performance", PDict
      [ ("enabled", PBool true); ("severity_threshold", PStr "MEDIUM");
        ("rules", PList [PStr "inefficient_loops"; PStr "memory_leaks";
                         PStr "slow_database_queries";
                         PStr "blocking_operations"]) ]) ].

Definition TEST_CONFIG : dict :=
  [ ("max_test_cases", PInt 50);
    ("test_timeout", PInt 10);
    ("coverage_threshold", PFloat 0.8);
    ("enable_ai_test_generation", PBool true) ].

End Constants.

(** ** What the sources take from outside the repository *)

Module External.

(** The node kinds the sources test for with [isinstance]. *)
Inductive ast_node :=
| FunctionDef (name : string) (args : list string)
| ClassDef (name : string)
| Import (names : list string)
| ImportFrom (module : option string)
| For
| While
| If
| OtherNode.

(** [ast.parse(code)]: the nodes of the tree in [ast.walk] order, or the
    exception raised. *)
Inductive parse_outcome :=
| Parsed (walk : list ast_node)
| ParseError (e : Py.exception).

(** What [os.path.exists] and [open(...).read()] find at a path. *)
Inductive path_state :=
| NoSuchPath
| Readable (content : string)
| Unreadable (error : string).

Record t := {
  ast_parse : string -> parse_outcome;
  path_lookup : string -> path_state
}.

Definition is_FunctionDef (n : ast_node) : bool :=
  match n with FunctionDef _ _ => true | _ => false end.
Definition is_ClassDef (n : ast_node) : bool :=
  match n with ClassDef _ => true | _ => false end.
Definition is_loop (n : ast_node) : bool :=
  match n with For | While => true | _ => false end.
Definition is_If (n : ast_node) : bool :=
  match n with If => true | _ => false end.

End External.

(** ** [core/base_agent.py] *)

Module BaseAgent.

(** One call on the agent's logger.  The two lines written by
    [start_execution] and [end_execution] have constructors of their own
    ([end_execution]'s text holds the elapsed time). *)
Inductive log_record :=
| LogStart
| LogEnd
| LogInfo (msg : string)
| LogWarning (msg : string)
| LogError (error_info : dict).

(** The mutable state of an agent: the two metrics the agents write, the
    execution history and the lines logged so far (oldest first). *)
Record t := {
  agent : string;
  issues_found : Z;
  accuracy_rate : pyval;
  execution_history : list dict;
  log : list log_record
}.

(** [BaseAgent.__init__] *)
Definition init (class_name : string) : t :=
  {| agent := class_name; issues_found := 0; accuracy_rate := PFloat 0;
     execution_history := []; log := [] |}.

Definition logged (r : log_record) (self : t) : t :=
  {| agent := agent self; issues_found := issues_found self;
     accuracy_rate := accuracy_rate self;
     execution_history := execution_history self;
     log := log self ++ [r] |}.

Definition set_issues_found (n : Z) (self : t) : t :=
  {| agent := agent self; issues_found := n;
     accuracy_rate := accuracy_rate self;
     execution_history := execution_history self;
     log := log self |}.

Definition set_accuracy_rate (v : pyval) (self : t) : t :=
  {| agent := agent self; issues_found := issues_found self;
     accuracy_rate := v;
     execution_history := execution_history self;
     log := log self |}.

(** [validate_input] on a [str] *)
Definition validate_input (input_data : string) : bool :=
  (0 <? String.length input_data)%nat.

Definition start_execution (self : t) : t := logged LogStart self.

(** [start_execution] has always run before, so [self.start_time] is set. *)
Definition end_execution (self : t) : t := logged LogEnd self.

(** [handle_error(error, context)] *)
Definition handle_error (self : t) (error : Py.exception) (context : dict)
  : dict * t :=
  let error_info : dict :=
    [ ("error", PStr (Py.str_of_exception error));
      ("success", PBool false);
      ("agent", PStr (agent self)) ] in
  let error_info :=
    if Dict.truthy (PDict context)
    then Dict.set "context" (PDict context) error_info else error_info in
  let error_info :=
    match error with
    | Py.AnalysisException _ _ =>
        Dict.set "error_type" (PStr (Py.class_name error))
          (Dict.set "error_code" (PStr "ANALYSIS_ERROR") error_info)
    | _ => error_info
    end in
  (error_info, logged (LogError error_info) self).

(** [record_execution(operation, result)] *)
Definition record_execution (self : t) (operation : string) (result : dict) : t :=
  let execution_record : dict :=
    [ ("operation", PStr operation);
      ("result", PDict result);
      ("agent", PStr (agent self));
      ("success", Dict.get_default "success" (PBool false) result) ] in
  let found :=
    match Dict.get "issues_found" result with
    | Some (PInt n) => (issues_found self + n)%Z
    | _ => issues_found self
    end in
  {| agent := agent self; issues_found := found;
     accuracy_rate := accuracy_rate self;
     execution_history := execution_history self ++ [execution_record];
     log := log self |}.

End BaseAgent.

(** ** [agents/static_analysis_agent.py]: the analyzers *)

Module SecurityAnalyzer.

Definition hardcoded_credentials (file_path : option string) (i : Z)
  : AnalysisResult.t :=
  {| AnalysisResult.file_path := file_path;
     AnalysisResult.line_number := i;
     AnalysisResult.issue_type := IssueType.SECURITY;
     AnalysisResult.severity := SeverityLevel.HIGH;
     AnalysisResult.description := "Potential hardcoded password detected";
     AnalysisResult.suggestion := "Use environment variables or secure storage";
     AnalysisResult.confidence := 0.8;
     AnalysisResult.rule_id := None;
     AnalysisResult.metadata := ∅;
     AnalysisResult.class :=
       AnalysisResult.SecurityIssue None (Some "hardcoded_credentials") None |}.

Definition sql_injection (file_path : option string) (i : Z)
  : AnalysisResult.t :=
  {| AnalysisResult.file_path := file_path;
     AnalysisResult.line_number := i;
     AnalysisResult.issue_type := IssueType.SECURITY;
     AnalysisResult.severity := SeverityLevel.HIGH;
     AnalysisResult.description := "Potential SQL injection vulnerability";
     AnalysisResult.suggestion := "Use parameterized queries";
     AnalysisResult.confidence := 0.7;
     AnalysisResult.rule_id := None;
     AnalysisResult.metadata := ∅;
     AnalysisResult.class :=
       AnalysisResult.SecurityIssue None (Some "sql_injection") None |}.

(** The body of the loop over [enumerate(lines, 1)]: the issues appended for
    line [i]. *)
Definition check_line (file_path : option string) (i : Z) (line : string)
  : list AnalysisResult.t :=
  (if Py.contains "password" (Py.lower line)
      && (Py.contains "=" line || Py.contains ":" line)
   then
     if existsb (fun secret => Py.contains secret (Py.lower line))
          ["123"; "admin"; "test"; "password"]
     then [hardcoded_credentials file_path i] else []
   else [])
  ++
  (if Py.contains "execute(" (Py.lower line)
      || Py.contains "cursor.execute" (Py.lower line)
   then
     if Py.contains "+" line || Py.contains "%" line
        || Py.contains "format" line
     then [sql_injection file_path i] else []
   else []).

Definition issues (code : string) (file_path : option string)
  : list AnalysisResult.t :=
  flat_map (fun '(i, line) => check_line file_path i line)
           (Py.enumerate 1 (Py.split_nl code)).

Definition analyze (code : string) (file_path : option string) : dict :=
  [ ("issues", PList (map PIssue (issues code file_path)));
    ("metrics", PDict
       [("security_checks", PInt (Z.of_nat (length (Py.split_nl code))))]) ].

End SecurityAnalyzer.

Module QualityAnalyzer.

Definition code_comments (file_path : option string) (i : Z) (line : string)
  : AnalysisResult.t :=
  {| AnalysisResult.file_path := file_path;
     AnalysisResult.line_number := i;
     AnalysisResult.issue_type := IssueType.QUALITY;
     AnalysisResult.severity := SeverityLevel.LOW;
     AnalysisResult.description :=
       "TODO/FIXME comment found: " +:+ Py.strip line;
     AnalysisResult.suggestion :=
       "Address the TODO item or create proper issue";
     AnalysisResult.confidence := 0.9;
     AnalysisResult.rule_id := None;
     AnalysisResult.metadata := ∅;
     AnalysisResult.class := AnalysisResult.QualityIssue "code_comments" 0 1 |}.

Definition line_length (file_path : option string) (i : Z) (line : string)
  : AnalysisResult.t :=
  {| AnalysisResult.file_path := file_path;
     AnalysisResult.line_number := i;
     AnalysisResult.issue_type := IssueType.QUALITY;
     AnalysisResult.severity := SeverityLevel.LOW;
     AnalysisResult.description :=
       "Line too long (" +:+ Py.str_of_nat (String.length line)
       +:+ " characters)";
     AnalysisResult.suggestion := "Break long lines into multiple lines";
     AnalysisResult.confidence := 0.8;
     AnalysisResult.rule_id := None;
     AnalysisResult.metadata := ∅;
     AnalysisResult.class :=
       AnalysisResult.QualityIssue "line_length" 100
         (Z.of_nat (String.length line)) |}.

Definition check_line (file_path : option string) (i : Z) (line : string)
  : list AnalysisResult.t :=
  (if existsb (fun keyword => Py.contains keyword (Py.lower line))
        ["todo"; "fixme"; "hack"]
   then [code_comments file_path i line] else [])
  ++
  (if (100 <? String.length line)%nat
   then [line_length file_path i line] else []).

Definition issues (code : string) (file_path : option string)
  : list AnalysisResult.t :=
  flat_map (fun '(i, line) => check_line file_path i line)
           (Py.enumerate 1 (Py.split_nl code)).

Definition analyze (code : string) (file_path : option string) : dict :=
  [ ("issues", PList (map PIssue (issues code file_path)));
    ("metrics", PDict
       [("quality_checks", PInt (Z.of_nat (length (Py.split_nl code))))]) ].

End QualityAnalyzer.

Module PerformanceAnalyzer.

Definition string_concatenation (file_path : option string) (i : Z)
  : AnalysisResult.t :=
  {| AnalysisResult.file_path := file_path;
     AnalysisResult.line_number := i;
     AnalysisResult.issue_type := IssueType.PERFORMANCE;
     AnalysisResult.severity := SeverityLevel.MEDIUM;
     AnalysisResult.description := "Inefficient string concatenation in loop";
     AnalysisResult.suggestion := "Use list comprehension or join() method";
     AnalysisResult.confidence := 0.6;
     AnalysisResult.rule_id := None;
     AnalysisResult.metadata := ∅;
     AnalysisResult.class :=
       AnalysisResult.PerformanceIssue "string_concatenation"
         SeverityLevel.MEDIUM "Use str.join() or list comprehension" |}.

Definition check_line (file_path : option string) (i : Z) (line : string)
  : list AnalysisResult.t :=
  if Py.contains "for" line && Py.contains "+" line
  then
    if Py.contains "string" (Py.lower line)
       || Py.contains (String Py.dquote EmptyString) line
       || Py.contains (String Py.squote EmptyString) line
    then [string_concatenation file_path i] else []
  else [].

Definition issues (code : string) (file_path : option string)
  : list AnalysisResult.t :=
  flat_map (fun '(i, line) => check_line file_path i line)
           (Py.enumerate 1 (Py.split_nl code)).

Definition analyze (code : string) (file_path : option string) : dict :=
  [ ("issues", PList (map PIssue (issues code file_path)));
    ("metrics", PDict
       [("performance_checks", PInt (Z.of_nat (length (Py.split_nl code))))]) ].

End PerformanceAnalyzer.

Module ComplexityAnalyzer.
Section with_env.
Variable env : External.t.

Definition count (p : External.ast_node -> bool) (walk : list External.ast_node)
  : Z := Z.of_nat (length (filter (fun n => p n = true) walk)).

Definition analyze (code : string) (file_path : option string) : dict :=
  match External.ast_parse env code with
  | External.Parsed walk =>
      [ ("issues", PList []);
        ("metrics", PDict
          [ ("total_lines", PInt (Z.of_nat (length (Py.split_nl code))));
            ("functions", PInt (count External.is_FunctionDef walk));
            ("classes", PInt (count External.is_ClassDef walk));
            ("loops", PInt (count External.is_loop walk));
            ("conditionals", PInt (count External.is_If walk)) ]) ]
  | External.ParseError e =>
      [ ("issues", PList []);
        ("metrics", PDict [("parse_error", PStr (Py.str_of_exception e))]) ]
  end.

End with_env.
End ComplexityAnalyzer.

(** ** [agents/static_analysis_agent.py]: the agent *)

Module StaticAnalysisAgent.
Section with_env.
Variable env : External.t.

(** [self.analyzers], in the order the dictionary is built *)
Definition analyzers : list (string * (string -> option string -> dict)) :=
  [ ("security", SecurityAnalyzer.analyze);
    ("quality", QualityAnalyzer.analyze);
    ("performance", PerformanceAnalyzer.analyze);
    ("complexity", ComplexityAnalyzer.analyze env) ].

Definition _read_file (file_path : string) : Py.result (string * string) :=
  match External.path_lookup env file_path with
  | External.Readable content => Py.Ok (content, file_path)
  | External.Unreadable error =>
      Py.Raise (Py.AnalysisException
        ("Failed to read file " +:+ file_path +:+ ": " +:+ error) None)
  | External.NoSuchPath =>
      Py.Raise (Py.AnalysisException
        ("Failed to read file " +:+ file_path
         +:+ ": [Errno 2] No such file or directory: '" +:+ file_path +:+ "'")
        None)
  end.

Definition _assess_complexity (code : string) : ComplexityLevel.t :=
  match External.ast_parse env code with
  | External.Parsed walk =>
      let total_lines := Z.of_nat (length (Py.split_nl code)) in
      let functions := ComplexityAnalyzer.count External.is_FunctionDef walk in
      let classes := ComplexityAnalyzer.count External.is_ClassDef walk in
      if (total_lines <? 50) && (functions <=? 3) && (classes <=? 1)
      then ComplexityLevel.LOW
      else if (total_lines <? 200) && (functions <=? 10) && (classes <=? 5)
      then ComplexityLevel.MEDIUM
      else if (total_lines <? 500) && (functions <=? 20) && (classes <=? 10)
      then ComplexityLevel.HIGH
      else ComplexityLevel.VERY_HIGH
  | External.ParseError _ => ComplexityLevel.MEDIUM
  end%Z.

Definition severity_weights (s : SeverityLevel.t) : Z :=
  match s with
  | SeverityLevel.LOW => 1
  | SeverityLevel.MEDIUM => 2
  | SeverityLevel.HIGH => 3
  | SeverityLevel.CRITICAL => 5
  end.

(** One [for issue in ...: total_penalty += weight * k] loop. *)
Definition add_penalties (k : Z) (issues : list AnalysisResult.t)
  (total_penalty : Z) : Z :=
  fold_left
    (fun total issue =>
       (total + severity_weights (AnalysisResult.severity issue) * k)%Z)
    issues total_penalty.

(** [round(score, 2)] on an [int] returns the [int]. *)
Definition round2 (score : Z) : Z := score.

(** The issue records a loop [for issue in value: ... issue.severity ...]
    visits.  The sources keep lists of issue records under the keys read
    here; any other value is reported as an error. *)
Fixpoint issue_records (l : list pyval) : Py.result (list AnalysisResult.t) :=
  match l with
  | [] => Py.Ok []
  | PIssue i :: rest => try! r := issue_records rest in Py.Ok (i :: r)
  | _ :: _ => Py.Raise (Py.AttributeError "object has no attribute 'severity'")
  end.

(** [results[k]], read as a list of issue records *)
Definition issues_at (k : string) (results : dict)
  : Py.result (list AnalysisResult.t) :=
  try! v := Dict.subscript k results in
  match v with
  | PList l => issue_records l
  | _ => Py.Raise (Py.TypeError "object is not a list of issues")
  end.

Definition _calculate_overall_score (results : dict) : Py.result Z :=
  try! security_issues := issues_at "security_issues" results in
  try! quality_issues := issues_at "quality_issues" results in
  try! performance_issues := issues_at "performance_issues" results in
  let total_penalty := 0%Z in
  let max_penalty := 100%Z in
  let total_penalty := add_penalties 5 security_issues total_penalty in
  let total_penalty := add_penalties 2 quality_issues total_penalty in
  let total_penalty := add_penalties 3 performance_issues total_penalty in
  let score := Z.max 0 (max_penalty - total_penalty) in
  Py.Ok (round2 score).

(** [ComplexityLevel(value)] *)
Definition complexity_of_value (v : pyval) : Py.result ComplexityLevel.t :=
  match v with
  | PInt 1 => Py.Ok ComplexityLevel.LOW
  | PInt 2 => Py.Ok ComplexityLevel.MEDIUM
  | PInt 3 => Py.Ok ComplexityLevel.HIGH
  | PInt 4 => Py.Ok ComplexityLevel.VERY_HIGH
  | _ => Py.Raise (Py.ValueError "not a valid ComplexityLevel")
  end.

Definition _generate_suggestions (results : dict) : Py.result (list string) :=
  try! security_issues := Dict.subscript "security_issues" results in
  try! quality_issues := Dict.subscript "quality_issues" results in
  try! performance_issues := Dict.subscript "performance_issues" results in
  try! level_value := Dict.subscript "complexity_level" results in
  try! complexity_level := complexity_of_value level_value in
  Py.Ok
    ((if Dict.truthy security_issues
      then ["发现安全漏洞，建议立即修复并检查代码安全实践"] else [])
     ++ (if Dict.truthy quality_issues
         then ["代码质量有待提升，建议重构和优化"] else [])
     ++ (if Dict.truthy performance_issues
         then ["存在性能问题，建议优化算法和数据结构"] else [])
     ++ (match complexity_level with
         | ComplexityLevel.HIGH | ComplexityLevel.VERY_HIGH =>
             ["代码复杂度过高，建议拆分函数和类"]
         | _ => []
         end)
     ++ (if negb (Dict.truthy security_issues || Dict.truthy quality_issues
                  || Dict.truthy performance_issues)
         then ["代码质量良好，继续保持"] else [])).

(** [ANALYSIS_RULES.get(analyzer_name, {}).get('enabled', True)] *)
Definition enabled (analyzer_name : string) : bool :=
  match Dict.get_default analyzer_name (PDict []) Constants.ANALYSIS_RULES with
  | PDict rule => Dict.truthy (Dict.get_default "enabled" (PBool true) rule)
  | _ => true
  end.

Definition as_dict (v : pyval) : dict :=
  match v with PDict d => d | _ => [] end.
Definition as_list (v : pyval) : list pyval :=
  match v with PList l => l | _ => [] end.

(** The body of the loop over [self.analyzers.items()] for one analyzer. *)
Definition run_analyzer (code : string) (file_path : option string)
  (results : dict) (entry : string * (string -> option string -> dict))
  : dict :=
  let '(analyzer_name, analyze) := entry in
  if enabled analyzer_name then
    let analyzer_result := analyze code file_path in
    let results :=
      Dict.set (analyzer_name +:+ "_issues")
        (Dict.get_default "issues" (PList []) analyzer_result) results in
    let results :=
      Dict.set "complexity_metrics"
        (PDict (Dict.update
           (as_dict (Dict.get_default "complexity_metrics" (PDict []) results))
           (as_dict (Dict.get_default "metrics" (PDict []) analyzer_result))))
        results in
    let execution_metadata :=
      as_dict (Dict.get_default "execution_metadata" (PDict []) results) in
    let analyzers_used :=
      as_list (Dict.get_default "analyzers_used" (PList []) execution_metadata) in
    Dict.set "execution_metadata"
      (PDict (Dict.set "analyzers_used"
                (PList (analyzers_used ++ [PStr analyzer_name]))
                execution_metadata))
      results
  else results.

(** The [try] block of [analyze]: the returned map and the agent's state, or
    the exception that reaches the [except] clause.  The analysis context
    built by [_create_analysis_context] is local; only its complexity level is
    read. *)
Definition analyze_try (self : BaseAgent.t) (target : string)
  (context : option dict) : Py.result (dict * BaseAgent.t) :=
  try! source :=
    match External.path_lookup env target with
    | External.NoSuchPath =>
        Py.Ok (target,
               match context with
               | Some c =>
                   if Dict.truthy (PDict c)
                   then match Dict.get "file_path" c with
                        | Some (PStr p) => Some p
                        | _ => None
                        end
                   else None
               | None => None
               end)
    | _ =>
        try! r := _read_file target in Py.Ok (r.1, Some r.2)
    end in
  let '(code, file_path) := source in
  if negb (BaseAgent.validate_input code) then
    Py.Ok (BaseAgent.handle_error self
             (Py.AnalysisException "Invalid input code" None)
             [("target", PStr target)])
  else
    let complexity_level := _assess_complexity code in
    let results : dict :=
      [ ("file_path", Dict.of_opt_str file_path);
        ("code_size", PInt (Z.of_nat (String.length code)));
        ("complexity_level", PInt (ComplexityLevel.value complexity_level));
        ("security_issues", PList []);
        ("quality_issues", PList []);
        ("performance_issues", PList []);
        ("complexity_metrics", PDict []);
        ("overall_score", PFloat 0);
        ("suggestions", PList []);
        ("execution_metadata", PDict
           [ ("analyzers_used", PList []);
             ("execution_time", PInt 0);
             ("success", PBool true) ]) ] in
    let results := fold_left (run_analyzer code file_path) analyzers results in
    try! overall_score := _calculate_overall_score results in
    let results := Dict.set "overall_score" (PInt overall_score) results in
    try! suggestions := _generate_suggestions results in
    let results := Dict.set "suggestions" (PList (map PStr suggestions)) results in
    let total_issues :=
      Z.of_nat (length (as_list (Dict.get_default "security_issues" (PList []) results))
                + length (as_list (Dict.get_default "quality_issues" (PList []) results))
                + length (as_list (Dict.get_default "performance_issues" (PList []) results))) in
    let self := BaseAgent.set_issues_found total_issues self in
    let self :=
      BaseAgent.record_execution self "static_analysis"
        [ ("success", PBool true);
          ("issues_found", PInt total_issues);
          ("overall_score", Dict.get_default "overall_score" PNone results) ] in
    Py.Ok (results, self).

(** [StaticAnalysisAgent.analyze(target, context)] for a [str] target *)
Definition analyze (self : BaseAgent.t) (target : string)
  (context : option dict) : dict * BaseAgent.t :=
  let self := BaseAgent.start_execution self in
  let '(returned, self) :=
    match analyze_try self target context with
    | Py.Ok r => r
    | Py.Raise e =>
        let '(error_result, self) :=
          BaseAgent.handle_error self e [("target", PStr target)] in
        (error_result,
         BaseAgent.record_execution self "static_analysis" error_result)
    end in
  (returned, BaseAgent.end_execution self).

End with_env.
End StaticAnalysisAgent.

(** ** The two [re.sub] calls of the repair strategies

    Both patterns match deterministically once the number of characters taken
    by the leading [W*] is fixed: every later repetition is followed by a
    character outside its class.  [re.sub] tries the positions from left to
    right and continues after each match. *)

Module Re.

(** The patterns are written here token by token: W is the class [\w], S the
    class [\s], Q the class of the two quote characters, NQ its complement,
    and G1< >, G2< > delimit the groups.

    The tail [password S* [=:] S* Q NQ* Q] at the head of [s]: the text up to
    the opening quote and the length of the whole match. *)
Definition match_password_tail (s : string) : option (string * nat) :=
  if String.prefix "password" s then
    let '(ws1, s2) := Py.span Py.isspace (Py.str_drop 8 s) in
    match s2 with
    | String c s3 =>
        if Ascii.eqb c "="%char || Ascii.eqb c ":"%char then
          let '(ws2, s4) := Py.span Py.isspace s3 in
          match s4 with
          | String q s5 =>
              if Py.isquote q then
                let '(body, s6) :=
                  Py.span (fun c => negb (Py.isquote c)) s5 in
                match s6 with
                | String _ _ =>
                    Some ("password" +:+ ws1 +:+ String c ws2,
                          8 + String.length ws1 + 1 + String.length ws2 + 1
                          + String.length body + 1)
                | EmptyString => None
                end
              else None
          | EmptyString => None
          end
        else None
    | EmptyString => None
    end
  else None.

(** The leading [W*] takes [k] characters, the most first. *)
Fixpoint match_password_from (k : nat) (s : string) : option (string * nat) :=
  match match_password_tail (Py.str_drop k s) with
  | Some (g, n) => Some (Py.str_take k s +:+ g, k + n)
  | None =>
      match k with
      | O => None
      | S k' => match_password_from k' s
      end
  end.

(** A match of [G1< W* password S* [=:] S* > Q G2< NQ* > Q] at the head of
    [s]: group 1 and the length of the match. *)
Definition match_password (s : string) : option (string * nat) :=
  match_password_from (String.length (Py.span Py.isword s).1) s.

(** The call to [os.getenv] that replaces the literal. *)
Definition getenv_password : string :=
  "os.getenv(" +:+ String Py.dquote "PASSWORD" +:+ String Py.dquote ")".

Fixpoint sub_password_scan (skip : nat) (s : string) : string :=
  match s with
  | EmptyString => EmptyString
  | String c r =>
      match skip with
      | S k => sub_password_scan k r
      | O =>
          match match_password s with
          | Some (g1, n) =>
              g1 +:+ getenv_password +:+ sub_password_scan (n - 1) r
          | None => String c (sub_password_scan 0 r)
          end
      end
  end.

(** [re.sub] of the pattern above by group 1 followed by the [os.getenv]
    call, on [line]. *)
Definition sub_password (line : string) : string := sub_password_scan 0 line.

(** Blanks, then the literal [lit], at the head of [s]: the text matched and
    the rest. *)
Definition spaces_then (lit : string) (s : string) : option (string * string) :=
  let '(ws, rest) := Py.span Py.isspace s in
  if String.prefix lit rest
  then Some (ws +:+ lit, Py.str_drop (String.length lit) rest)
  else None.

(** Blanks, then a quote. *)
Definition spaces_then_quote (s : string) : option (string * string) :=
  let '(ws, rest) := Py.span Py.isspace s in
  match rest with
  | String q rest' =>
      if Py.isquote q then Some (ws +:+ String q EmptyString, rest') else None
  | EmptyString => None
  end.

(** A match of [G1< W+ S* += S* > Q S* + S* G2< W+ > S* + S* Q] at the head
    of [s]: group 1, group 2 and the length of the match. *)
Definition match_concat (s : string) : option (string * string * nat) :=
  let '(w1, s1) := Py.span Py.isword s in
  match w1 with
  | EmptyString => None
  | String _ _ =>
      match spaces_then "+=" s1 with
      | None => None
      | Some (m1, s2) =>
          match spaces_then_quote s2 with
          | None => None
          | Some (m2, s3) =>
              match spaces_then "+" s3 with
              | None => None
              | Some (m3, s4) =>
                  let '(ws, s5) := Py.span Py.isspace s4 in
                  let '(w2, s6) := Py.span Py.isword s5 in
                  match w2 with
                  | EmptyString => None
                  | String _ _ =>
                      match spaces_then "+" s6 with
                      | None => None
                      | Some (m4, s7) =>
                          match spaces_then_quote s7 with
                          | None => None
                          | Some (m5, _) =>
                              (* group 1 ends with the blanks before the
                                 opening quote *)
                              let g1 :=
                                w1 +:+ m1 +:+ (Py.span Py.isspace s2).1 in
                              Some (g1, w2,
                                    String.length w1 + String.length m1
                                    + String.length m2 + String.length m3
                                    + String.length ws + String.length w2
                                    + String.length m4 + String.length m5)
                          end
                      end
                  end
              end
          end
      end
  end.

(** Group 1, then the empty string literal's [.join([str(] group 2 [)])]. *)
Definition join_call (g1 g2 : string) : string :=
  g1 +:+ String Py.dquote (String Py.dquote ".join([str(") +:+ g2 +:+ ")])".

Fixpoint sub_concat_scan (skip : nat) (s : string) : string :=
  match s with
  | EmptyString => EmptyString
  | String c r =>
      match skip with
      | S k => sub_concat_scan k r
      | O =>
          match match_concat s with
          | Some (g1, g2, n) => join_call g1 g2 +:+ sub_concat_scan (n - 1) r
          | None => String c (sub_concat_scan 0 r)
          end
      end
  end.

(** [re.sub] of the pattern above by [join_call] of its two groups, on
    [line]. *)
Definition sub_concat (line : string) : string := sub_concat_scan 0 line.

End Re.

(** ** [agents/test_driven_repair_agent.py]: test generation and running *)

Module TestGenerator.
Section with_env.
Variable env : External.t.

Definition _generate_test_inputs (args : list string) : list pyval :=
  match args with
  | [] => [PDict []]
  | [arg] => [PDict [(arg, PStr "test_value")]]
  | _ =>
      [PDict (fold_left
                (fun d '(i, arg) => Dict.set arg (PStr ("test_" +:+ Py.str_of_Z i)) d)
                (Py.enumerate 0 args) [])]
  end.

Definition _generate_test_template (func_name : string) (args : list string)
  : string :=
  let args_str := Py.join ", " args in
  let line (l : string) : string := l +:+ String Py.nl EmptyString in
  line EmptyString
  +:+ line ("def test_" +:+ func_name +:+ "():")
  +:+ line ("    # Test function " +:+ func_name)
  +:+ line ("    result = " +:+ func_name +:+ "(" +:+ args_str +:+ ")")
  +:+ line "    # Add assertions here"
  +:+ line "    assert result is not None".

(** Returns the test case and the new value of [self.test_counter]. *)
Definition _generate_function_test (test_counter : Z) (func_name : string)
  (args : list string) : TestCase.t * Z :=
  let test_counter := (test_counter + 1)%Z in
  ({| TestCase.id :=
        "test_" +:+ func_name +:+ "_" +:+ Py.str_of_Z test_counter;
      TestCase.name := "Test " +:+ func_name;
      TestCase.description :=
        "Test function " +:+ func_name +:+ " with "
        +:+ Py.str_of_nat (length args) +:+ " arguments";
      TestCase.input_data :=
        [ ("function_name", PStr func_name);
          ("arguments", PList (map PStr args));
          ("test_inputs", PList (_generate_test_inputs args)) ];
      TestCase.expected_output := PStr "success";
      TestCase.test_type := TestType.UNIT;
      TestCase.generated_by := "ai";
      TestCase.code_template := Some (_generate_test_template func_name args);
      TestCase.setup_code := None;
      TestCase.teardown_code := None |},
   test_counter).

Definition _generate_class_tests (class_name : string) : list TestCase.t :=
  [ {| TestCase.id := "test_" +:+ class_name +:+ "_init";
       TestCase.name := "Test " +:+ class_name +:+ " initialization";
       TestCase.description := "Test " +:+ class_name +:+ " class initialization";
       TestCase.input_data := [("class_name", PStr class_name)];
       TestCase.expected_output := PStr "instance_created";
       TestCase.test_type := TestType.UNIT;
       TestCase.generated_by := "ai";
       TestCase.code_template := None;
       TestCase.setup_code := None;
       TestCase.teardown_code := None |} ].

Definition _generate_generic_test (test_counter : Z) (code : string)
  : TestCase.t * Z :=
  let test_counter := (test_counter + 1)%Z in
  ({| TestCase.id := "generic_test_" +:+ Py.str_of_Z test_counter;
      TestCase.name := "Generic code test";
      TestCase.description := "Generic test for code validation";
      TestCase.input_data :=
        [("code_sample",
          PStr (if (100 <? String.length code)%nat
                then Py.str_take 100 code +:+ "..." else code))];
      TestCase.expected_output := PStr "code_executable";
      TestCase.test_type := TestType.UNIT;
      TestCase.generated_by := "template";
      TestCase.code_template := None;
      TestCase.setup_code := None;
      TestCase.teardown_code := None |},
   test_counter).

(** The body of [for node in ast.walk(tree)]. *)
Definition visit (acc : list TestCase.t * Z) (node : External.ast_node)
  : list TestCase.t * Z :=
  let '(test_cases, test_counter) := acc in
  match node with
  | External.FunctionDef name args =>
      let '(test_case, test_counter) :=
        _generate_function_test test_counter name args in
      (test_cases ++ [test_case], test_counter)
  | External.ClassDef name =>
      (test_cases ++ _generate_class_tests name, test_counter)
  | _ => acc
  end.

(** [TEST_CONFIG.get('max_test_cases', 50)] *)
Definition max_tests : Z :=
  match Dict.get_default "max_test_cases" (PInt 50) Constants.TEST_CONFIG with
  | PInt n => n
  | _ => 50
  end.

(** The test cases before the final slice. *)
Definition collect (test_counter : Z) (code : string) : list TestCase.t * Z :=
  match External.ast_parse env code with
  | External.Parsed walk => fold_left visit walk ([], test_counter)
  | External.ParseError _ =>
      let '(test_case, test_counter) :=
        _generate_generic_test test_counter code in
      ([test_case], test_counter)
  end.

(** [generate_tests(code)]; the second component is [self.test_counter]
    afterwards. *)
Definition generate_tests (test_counter : Z) (code : string)
  : list TestCase.t * Z :=
  let '(test_cases, test_counter) := collect test_counter code in
  (Py.slice_to test_cases max_tests, test_counter).

End with_env.
End TestGenerator.

Module TestRunner.
Section with_env.
Variable env : External.t.

(** [_execute_unit_test]: only [SyntaxError] is caught. *)
Definition _execute_unit_test (test_case : TestCase.t) (code : string)
  : Py.result dict :=
  match External.ast_parse env code with
  | External.Parsed _ =>
      Py.Ok [("status", PStr "passed");
             ("message", PStr "Code compiles successfully")]
  | External.ParseError (Py.SyntaxError m) =>
      Py.Ok [("status", PStr "failed");
             ("error", PStr ("Syntax error: " +:+ m))]
  | External.ParseError e => Py.Raise e
  end.

Definition _run_single_test (test_case : TestCase.t) (code : string) : dict :=
  let attempt :=
    match TestCase.test_type test_case with
    | TestType.UNIT => _execute_unit_test test_case code
    | _ => Py.Ok [("status", PStr "passed"); ("message", PStr "Test executed")]
    end in
  match attempt with
  | Py.Ok result =>
      [ ("test_id", PStr (TestCase.id test_case));
        ("status", Dict.get_default "status" PNone result);
        ("message", Dict.get_default "message" (PStr EmptyString) result) ]
  | Py.Raise e =>
      [ ("test_id", PStr (TestCase.id test_case));
        ("status", PStr "error");
        ("error", PStr (Py.str_of_exception e)) ]
  end.

Definition status_is (s : string) (detail : dict) : bool :=
  match Dict.get "status" detail with
  | Some (PStr s') => String.eqb s' s
  | _ => false
  end.

(** The body of [for test_case in test_cases]. *)
Definition step (code : string) (acc : TestResults.t) (test_case : TestCase.t)
  : TestResults.t :=
  let result := _run_single_test test_case code in
  let passed := status_is "passed" result in
  let failed := status_is "failed" result in
  {| TestResults.total_tests := TestResults.total_tests acc;
     TestResults.passed_tests :=
       if passed then TestResults.passed_tests acc + 1
       else TestResults.passed_tests acc;
     TestResults.failed_tests :=
       if passed then TestResults.failed_tests acc
       else if failed then TestResults.failed_tests acc + 1
       else TestResults.failed_tests acc;
     TestResults.error_tests :=
       if passed || failed then TestResults.error_tests acc
       else TestResults.error_tests acc + 1;
     TestResults.test_details := TestResults.test_details acc ++ [result] |}%Z.

Definition run_tests (test_cases : list TestCase.t) (code : string)
  : TestResults.t :=
  fold_left (step code) test_cases
    {| TestResults.total_tests := Z.of_nat (length test_cases);
       TestResults.passed_tests := 0;
       TestResults.failed_tests := 0;
       TestResults.error_tests := 0;
       TestResults.test_details := [] |}.

End with_env.
End TestRunner.

(** ** [agents/test_driven_repair_agent.py]: the repair strategies

    A strategy returns a [RepairResult], or raises [IndexError] when
    [lines[issue.line_number - 1]] is out of range. *)

Definition index_error : Py.exception := Py.IndexError "list index out of range".

(** [lines[issue.line_number - 1]] *)
Definition line_at (lines : list string) (line_number : Z) : Py.result string :=
  match Py.getitem lines (line_number - 1) with
  | Some l => Py.Ok l
  | None => Py.Raise index_error
  end.

Module SecurityRepairStrategy.

Definition repair (code : string) (issue : AnalysisResult.t)
  : Py.result RepairResult.t :=
  let lines := Py.split_nl code in
  try! original_line := line_at lines (AnalysisResult.line_number issue) in
  if Py.contains "hardcoded_credentials"
       (default EmptyString
          (AnalysisResult.metadata issue !! "vulnerability_type"))
  then
    let fixed_line := Re.sub_password original_line in
    match Py.setitem lines (AnalysisResult.line_number issue - 1) fixed_line with
    | None => Py.Raise index_error
    | Some lines =>
        Py.Ok {| RepairResult.original_code := code;
                 RepairResult.repaired_code := Py.join_nl lines;
                 RepairResult.applied_fixes :=
                   ["Replaced hardcoded password with environment variable"];
                 RepairResult.success := true;
                 RepairResult.validation_passed := true;
                 RepairResult.performance_impact := [("speed_impact", 0%float)];
                 RepairResult.side_effects :=
                   ["Requires PASSWORD environment variable"];
                 RepairResult.confidence := 0.8;
                 RepairResult.repair_strategy := "security_replacement" |}
    end
  else
    Py.Ok {| RepairResult.original_code := code;
             RepairResult.repaired_code := code;
             RepairResult.applied_fixes := [];
             RepairResult.success := false;
             RepairResult.validation_passed := false;
             RepairResult.performance_impact := [];
             RepairResult.side_effects :=
               ["No specific security repair available"];
             RepairResult.confidence := 0;
             RepairResult.repair_strategy := "security_none" |}.

End SecurityRepairStrategy.

Module QualityRepairStrategy.

Definition none (code : string) : RepairResult.t :=
  {| RepairResult.original_code := code;
     RepairResult.repaired_code := code;
     RepairResult.applied_fixes := [];
     RepairResult.success := false;
     RepairResult.validation_passed := false;
     RepairResult.performance_impact := [];
     RepairResult.side_effects := ["No specific quality repair available"];
     RepairResult.confidence := 0;
     RepairResult.repair_strategy := "quality_none" |}.

Definition repair (code : string) (issue : AnalysisResult.t)
  : Py.result RepairResult.t :=
  let lines := Py.split_nl code in
  try! original_line := line_at lines (AnalysisResult.line_number issue) in
  if match AnalysisResult.quality_metric issue with
     | Some m => String.eqb m "line_length"
     | None => false
     end
  then
    if (100 <? String.length original_line)%nat then
      let indent :=
        String.length original_line - String.length (Py.lstrip original_line) in
      let fixed_lines :=
        [ Py.str_take 80 original_line +:+ " \";
          Py.str_repeat " "%char indent +:+ Py.strip (Py.str_drop 80 original_line) ] in
      let lines :=
        Py.slice_assign lines (AnalysisResult.line_number issue - 1)
          (AnalysisResult.line_number issue) fixed_lines in
      Py.Ok {| RepairResult.original_code := code;
               RepairResult.repaired_code := Py.join_nl lines;
               RepairResult.applied_fixes :=
                 ["Split long line at position "
                  +:+ Py.str_of_Z (AnalysisResult.line_number issue)];
               RepairResult.success := true;
               RepairResult.validation_passed := true;
               RepairResult.performance_impact := [("readability_impact", 0.2%float)];
               RepairResult.side_effects := ["Code formatting changed"];
               RepairResult.confidence := 0.9;
               RepairResult.repair_strategy := "quality_formatting" |}
    else Py.Ok (none code)
  else Py.Ok (none code).

End QualityRepairStrategy.

Module PerformanceRepairStrategy.

Definition none (code : string) : RepairResult.t :=
  {| RepairResult.original_code := code;
     RepairResult.repaired_code := code;
     RepairResult.applied_fixes := [];
     RepairResult.success := false;
     RepairResult.validation_passed := false;
     RepairResult.performance_impact := [];
     RepairResult.side_effects := ["No specific performance repair available"];
     RepairResult.confidence := 0;
     RepairResult.repair_strategy := "performance_none" |}.

Definition repair (code : string) (issue : AnalysisResult.t)
  : Py.result RepairResult.t :=
  let lines := Py.split_nl code in
  try! original_line := line_at lines (AnalysisResult.line_number issue) in
  if Py.contains "string_concatenation"
       (default EmptyString
          (AnalysisResult.metadata issue !! "performance_metric"))
  then
    if Py.contains "+" original_line && Py.contains "for" original_line then
      let fixed_line := Re.sub_concat original_line in
      match Py.setitem lines (AnalysisResult.line_number issue - 1) fixed_line with
      | None => Py.Raise index_error
      | Some lines =>
          Py.Ok {| RepairResult.original_code := code;
                   RepairResult.repaired_code := Py.join_nl lines;
                   RepairResult.applied_fixes :=
                     ["Optimized string concatenation at line "
                      +:+ Py.str_of_Z (AnalysisResult.line_number issue)];
                   RepairResult.success := true;
                   RepairResult.validation_passed := true;
                   RepairResult.performance_impact := [("speed_improvement", 0.3%float)];
                   RepairResult.side_effects :=
                     ["String concatenation logic changed"];
                   RepairResult.confidence := 0.7;
                   RepairResult.repair_strategy := "performance_optimization" |}
      end
    else Py.Ok (none code)
  else Py.Ok (none code).

End PerformanceRepairStrategy.

Module LogicRepairStrategy.

Definition repair (code : string) (issue : AnalysisResult.t)
  : Py.result RepairResult.t :=
  Py.Ok {| RepairResult.original_code := code;
           RepairResult.repaired_code := code;
           RepairResult.applied_fixes := [];
           RepairResult.success := false;
           RepairResult.validation_passed := false;
           RepairResult.performance_impact := [];
           RepairResult.side_effects :=
             ["Logic repair requires manual intervention"];
           RepairResult.confidence := 0.1;
           RepairResult.repair_strategy := "logic_manual" |}.

End LogicRepairStrategy.

(** ** [agents/test_driven_repair_agent.py]: the agent *)

Module TestDrivenRepairAgent.

(** The agent's mutable state: the base agent's, and the counter of its test
    generator. *)
Record t := {
  base : BaseAgent.t;
  test_counter : Z
}.

Definition init : t :=
  {| base := BaseAgent.init "TestDrivenRepairAgent"; test_counter := 0 |}.

Definition with_base (f : BaseAgent.t -> BaseAgent.t) (self : t) : t :=
  {| base := f (base self); test_counter := test_counter self |}.

(** [self.repair_strategies.get(strategy_type)] *)
Definition repair_strategies (strategy_type : string)
  : option (string -> AnalysisResult.t -> Py.result RepairResult.t) :=
  if String.eqb strategy_type "security" then Some SecurityRepairStrategy.repair
  else if String.eqb strategy_type "quality" then Some QualityRepairStrategy.repair
  else if String.eqb strategy_type "performance" then Some PerformanceRepairStrategy.repair
  else if String.eqb strategy_type "logic" then Some LogicRepairStrategy.repair
  else None.

Definition failed_repair (code : string) (side_effect strategy : string)
  : RepairResult.t :=
  {| RepairResult.original_code := code;
     RepairResult.repaired_code := code;
     RepairResult.applied_fixes := [];
     RepairResult.success := false;
     RepairResult.validation_passed := false;
     RepairResult.performance_impact := [];
     RepairResult.side_effects := [side_effect];
     RepairResult.confidence := 0;
     RepairResult.repair_strategy := strategy |}.

(** [_repair_issue]: the result, and the warning logged when the strategy
    raised. *)
Definition _repair_issue (code : string) (issue : AnalysisResult.t)
  : RepairResult.t * list BaseAgent.log_record :=
  let strategy_type := IssueType.value (AnalysisResult.issue_type issue) in
  match repair_strategies strategy_type with
  | None => (failed_repair code "No repair strategy available" "none", [])
  | Some strategy =>
      match strategy code issue with
      | Py.Ok r => (r, [])
      | Py.Raise e =>
          (failed_repair code ("Repair failed: " +:+ Py.str_of_exception e)
             strategy_type,
           [BaseAgent.LogWarning
              ("Repair strategy " +:+ strategy_type +:+ " failed: "
               +:+ Py.str_of_exception e)])
      end
  end.

(** The loop [for issue in issues], on the triple of [current_code],
    [repair_results] and the warnings logged. *)
Definition repair_step
  (acc : string * list RepairResult.t * list BaseAgent.log_record)
  (issue : AnalysisResult.t)
  : string * list RepairResult.t * list BaseAgent.log_record :=
  let '(current_code, repair_results, warnings) := acc in
  let '(repair_result, w) := _repair_issue current_code issue in
  if RepairResult.success repair_result
  then (RepairResult.repaired_code repair_result,
        repair_results ++ [repair_result], warnings ++ w)
  else (current_code, repair_results, warnings ++ w).

Definition repair_loop (code : string) (issues : list AnalysisResult.t)
  : string * list RepairResult.t * list BaseAgent.log_record :=
  fold_left repair_step issues (code, [], []).

Definition _identify_issues_from_tests (code : string)
  (test_results : TestResults.t) : list AnalysisResult.t :=
  flat_map
    (fun test_detail : dict =>
       if TestRunner.status_is "failed" test_detail then
         [ {| AnalysisResult.file_path := Some "generated";
              AnalysisResult.line_number := 0;
              AnalysisResult.issue_type := IssueType.LOGIC;
              AnalysisResult.severity := SeverityLevel.HIGH;
              AnalysisResult.description :=
                "Test failed: " +:+
                match Dict.get_default "error" (PStr "Unknown error") test_detail with
                | PStr s => s
                | _ => EmptyString
                end;
              AnalysisResult.suggestion := "Review and fix the failing test case";
              AnalysisResult.confidence := 0.7;
              AnalysisResult.rule_id := None;
              AnalysisResult.metadata := ∅;
              AnalysisResult.class := AnalysisResult.Base |} ]
       else [])
    (TestResults.test_details test_results).

(** [a / b] on two [int]s *)
Definition truediv (a b : Z) : Py.result float :=
  if (b =? 0)%Z then Py.Raise (Py.ZeroDivisionError "division by zero")
  else Py.Ok (Py.float_of_Z a / Py.float_of_Z b)%float.

(** [_calculate_improvement]: the dictionary display is evaluated entry by
    entry; the second entry reads the attribute [passed_results]. *)
Definition _calculate_improvement (initial_results final_results : TestResults.t)
  : Py.result dict :=
  let failed_tests_reduction :=
    (TestResults.failed_tests initial_results
     - TestResults.failed_tests final_results)%Z in
  try! initial_passed := TestResults.getattr_int initial_results "passed_results" in
  let passed_tests_increase :=
    (TestResults.passed_tests final_results - initial_passed)%Z in
  try! success_rate_improvement :=
    if (0 <? TestResults.total_tests initial_results)%Z then
      try! final_rate :=
        truediv (TestResults.passed_tests final_results)
                (TestResults.total_tests final_results) in
      try! initial_rate :=
        truediv (TestResults.passed_tests initial_results)
                (TestResults.total_tests initial_results) in
      Py.Ok (PFloat (final_rate - initial_rate)%float)
    else Py.Ok (PInt 0) in
  Py.Ok [ ("failed_tests_reduction", PInt failed_tests_reduction);
          ("passed_tests_increase", PInt passed_tests_increase);
          ("success_rate_improvement", success_rate_improvement) ].

Definition _calculate_repair_confidence (repair_results : list RepairResult.t)
  : float :=
  match repair_results with
  | [] => 0%float
  | _ :: _ =>
      let total_confidence :=
        Py.sum_float (map RepairResult.confidence repair_results) in
      (total_confidence / Py.float_of_Z (Z.of_nat (length repair_results)))%float
  end.

Definition _test_case_to_dict (test_case : TestCase.t) : dict :=
  [ ("id", PStr (TestCase.id test_case));
    ("name", PStr (TestCase.name test_case));
    ("description", PStr (TestCase.description test_case));
    ("test_type", PStr (TestType.value (TestCase.test_type test_case)));
    ("generated_by", PStr (TestCase.generated_by test_case)) ].

Definition _test_results_to_dict (test_results : TestResults.t) : dict :=
  [ ("total_tests", PInt (TestResults.total_tests test_results));
    ("passed_tests", PInt (TestResults.passed_tests test_results));
    ("failed_tests", PInt (TestResults.failed_tests test_results));
    ("error_tests", PInt (TestResults.error_tests test_results));
    ("success_rate",
     if (0 <? TestResults.total_tests test_results)%Z
     then PFloat (Py.float_of_Z (TestResults.passed_tests test_results)
                  / Py.float_of_Z (TestResults.total_tests test_results))%float
     else PInt 0) ].

Definition _repair_result_to_dict (repair_result : RepairResult.t) : dict :=
  [ ("success", PBool (RepairResult.success repair_result));
    ("validation_passed", PBool (RepairResult.validation_passed repair_result));
    ("confidence", PFloat (RepairResult.confidence repair_result));
    ("repair_strategy", PStr (RepairResult.repair_strategy repair_result));
    ("applied_fixes", PList (map PStr (RepairResult.applied_fixes repair_result)));
    ("side_effects", PList (map PStr (RepairResult.side_effects repair_result))) ].

Section with_env.
Variable env : External.t.

(** The [try] block of [analyze_and_repair]: the returned map or the
    exception that reaches the [except] clause, with the agent's state at
    that point. *)
Definition analyze_and_repair_try (self : t) (code : string)
  (issues : option (list AnalysisResult.t)) : Py.result dict * t :=
  let '(test_cases, counter) :=
    TestGenerator.generate_tests env (test_counter self) code in
  let self := {| base := base self; test_counter := counter |} in
  let self :=
    with_base (BaseAgent.logged (BaseAgent.LogInfo
      ("Generated " +:+ Py.str_of_nat (length test_cases) +:+ " test cases")))
      self in
  let test_results := TestRunner.run_tests env test_cases code in
  let self :=
    with_base (BaseAgent.logged (BaseAgent.LogInfo
      ("Test results: " +:+ Py.str_of_Z (TestResults.passed_tests test_results)
       +:+ " passed, " +:+ Py.str_of_Z (TestResults.failed_tests test_results)
       +:+ " failed"))) self in
  let issues :=
    if match issues with None | Some [] => true | Some (_ :: _) => false end
       && (0 <? TestResults.failed_tests test_results)%Z
    then Some (_identify_issues_from_tests code test_results)
    else issues in
  match issues with
  | None => (Py.Raise (Py.TypeError "'NoneType' object is not iterable"), self)
  | Some issues =>
      let '(current_code, repair_results, warnings) := repair_loop code issues in
      let self :=
        with_base (fun b => fold_left (fun b w => BaseAgent.logged w b) warnings b)
          self in
      let final_test_results := TestRunner.run_tests env test_cases current_code in
      match _calculate_improvement test_results final_test_results with
      | Py.Raise e => (Py.Raise e, self)
      | Py.Ok improvement_metrics =>
          let confidence := PFloat (_calculate_repair_confidence repair_results) in
          let repair_success :=
            PBool ((0 <? length repair_results)%nat
                   && (TestResults.failed_tests final_test_results
                       <? TestResults.failed_tests test_results)%Z) in
          let result : dict :=
            [ ("original_code", PStr code);
              ("repaired_code", PStr current_code);
              ("generated_tests",
               PList (map (fun tc => PDict (_test_case_to_dict tc)) test_cases));
              ("initial_test_results", PDict (_test_results_to_dict test_results));
              ("final_test_results", PDict (_test_results_to_dict final_test_results));
              ("applied_repairs",
               PList (map (fun rr => PDict (_repair_result_to_dict rr)) repair_results));
              ("repair_success", repair_success);
              ("improvement_metrics", PDict improvement_metrics);
              ("confidence", confidence);
              ("execution_metadata", PDict
                 [ ("test_cases_generated", PInt (Z.of_nat (length test_cases)));
                   ("repairs_attempted", PInt (Z.of_nat (length issues)));
                   ("repairs_successful", PInt (Z.of_nat (length repair_results)));
                   ("execution_time", PInt 0) ]) ] in
          let self :=
            with_base (fun b =>
              BaseAgent.set_accuracy_rate confidence
                (BaseAgent.set_issues_found (Z.of_nat (length issues)) b)) self in
          let self :=
            with_base (fun b =>
              BaseAgent.record_execution b "test_driven_repair"
                [ ("success", repair_success);
                  ("repairs_applied", PInt (Z.of_nat (length repair_results)));
                  ("test_improvement", PDict improvement_metrics) ]) self in
          (Py.Ok result, self)
      end
  end.

(** [analyze_and_repair(code, issues, context)]; [context] is not read. *)
Definition analyze_and_repair (self : t) (code : string)
  (issues : option (list AnalysisResult.t)) : dict * t :=
  let self := with_base BaseAgent.start_execution self in
  let '(outcome, self) := analyze_and_repair_try self code issues in
  let '(returned, self) :=
    match outcome with
    | Py.Ok result => (result, self)
    | Py.Raise e =>
        let '(error_result, b) :=
          BaseAgent.handle_error (base self) e
            [("code_length", PInt (Z.of_nat (String.length code)))] in
        (error_result,
         {| base := BaseAgent.record_execution b "test_driven_repair" error_result;
            test_counter := test_counter self |})
    end in
  (returned, with_base BaseAgent.end_execution self).

End with_env.
End TestDrivenRepairAgent.

(** ** [agents/coordinator_agent.py]: the hybrid workflow *)

Module CoordinatorAgent.

(** The coordinator's own base state and the two agents it owns. *)
Record t := {
  base : BaseAgent.t;
  static_agent : BaseAgent.t;
  repair_agent : TestDrivenRepairAgent.t
}.

Definition init : t :=
  {| base := BaseAgent.init "CoordinatorAgent";
     static_agent := BaseAgent.init "StaticAnalysisAgent";
     repair_agent := TestDrivenRepairAgent.init |}.

(** [a - b] on the numbers the score entries hold *)
Definition num_sub (a b : pyval) : pyval :=
  match a, b with
  | PInt x, PInt y => PInt (x - y)
  | PInt x, PFloat y => PFloat (Py.float_of_Z x - y)
  | PFloat x, PInt y => PFloat (x - Py.float_of_Z y)
  | PFloat x, PFloat y => PFloat (x - y)
  | _, _ => PNone
  end.

Definition opt_dict (o : option dict) : pyval :=
  match o with
  | Some d => PDict d
  | None => PNone
  end.

Section with_env.
Variable env : External.t.

Definition _execute_hybrid_workflow (self : t) (context : AnalysisContext.t)
  : dict * t :=
  let code := AnalysisContext.code context in
  let file_context : dict :=
    [("file_path", Dict.of_opt_str (AnalysisContext.file_path context))] in
  let coordinator :=
    BaseAgent.logged (BaseAgent.LogInfo "Executing hybrid workflow") (base self) in
  (* step 1: static analysis *)
  let '(static_result, static) :=
    StaticAnalysisAgent.analyze env (static_agent self) code (Some file_context) in
  let all_issues : list pyval :=
    StaticAnalysisAgent.as_list (Dict.get_default "security_issues" (PList []) static_result)
    ++ StaticAnalysisAgent.as_list (Dict.get_default "quality_issues" (PList []) static_result)
    ++ StaticAnalysisAgent.as_list (Dict.get_default "performance_issues" (PList []) static_result) in
  (* step 2: repair when issues were found *)
  let '(repair_result, final_code, repair) :=
    match all_issues with
    | [] => (None, code, repair_agent self)
    | _ :: _ =>
        let '(repair_result, repair) :=
          TestDrivenRepairAgent.analyze_and_repair env (repair_agent self) code
            (Some (Dict.issues_of_val (PList all_issues))) in
        (Some repair_result,
         match Dict.get_default "repaired_code" (PStr code) repair_result with
         | PStr s => s
         | _ => code
         end,
         repair)
    end in
  (* step 3: static analysis again when the code changed *)
  let '(final_static_result, static) :=
    if negb (String.eqb final_code code) then
      let '(r, static) :=
        StaticAnalysisAgent.analyze env static final_code (Some file_context) in
      (Some r, static)
    else (None, static) in
  let initial_score := Dict.get_default "overall_score" (PInt 0) static_result in
  let final_score :=
    match final_static_result with
    | Some (_ :: _ as r) => Dict.get_default "overall_score" (PInt 0) r
    | _ => initial_score
    end in
  let result : dict :=
    [ ("strategy", PStr "HYBRID");
      ("static_analysis_results", PDict
         [ ("initial", PDict static_result);
           ("final", opt_dict final_static_result) ]);
      ("repair_results", opt_dict repair_result);
      ("final_code", PStr final_code);
      ("total_issues", PInt (Z.of_nat (length all_issues)));
      ("overall_success",
       if (0 <? length all_issues)%nat then
         match repair_result with
         | Some (_ :: _ as r) => Dict.get_default "repair_success" (PBool false) r
         | _ => PBool true
         end
       else PBool false);
      ("applied_repairs",
       match repair_result with
       | Some (_ :: _ as r) => Dict.get_default "applied_repairs" (PList []) r
       | _ => PList []
       end);
      ("quality_improvement", PDict
         [ ("issues_identified", PInt (Z.of_nat (length all_issues)));
           ("initial_quality_score", initial_score);
           ("final_quality_score", final_score);
           ("quality_improvement", num_sub final_score initial_score);
           ("repairs_applied",
            match repair_result with
            | Some (_ :: _ as r) =>
                PInt (Z.of_nat (length (StaticAnalysisAgent.as_list
                        (Dict.get_default "applied_repairs" (PList []) r))))
            | _ => PInt 0
            end) ]) ] in
  (result,
   {| base := coordinator; static_agent := static; repair_agent := repair |}).

End with_env.
End CoordinatorAgent.

(** ** [core/config.py] *)

Module AgentConfig.

(** An instance whose attributes hold values of the annotated types. *)
Record t := {
  name : string;
  version : string;
  enabled : bool;
  log_level : string;
  timeout : Z;
  max_memory : Z;
  max_cpu_usage : float;
  max_file_size : Z;
  supported_languages : list string;
  working_directory : string;
  enable_security_analysis : bool;
  enable_quality_analysis : bool;
  enable_performance_analysis : bool;
  enable_complexity_analysis : bool;
  enable_auto_repair : bool;
  repair_confidence_threshold : float;
  max_repair_attempts : Z;
  enable_test_generation : bool;
  test_framework : string;
  test_timeout : Z;
  max_test_cases : Z;
  ai_provider : string;
  ai_model : string;
  ai_api_key : option string;
  ai_temperature : float;
  ai_max_tokens : Z;
  output_format : string;
  output_directory : string;
  create_report : bool;
  verbose_output : bool
}.

Definition valid_levels : list string :=
  ["DEBUG"; "INFO"; "WARNING"; "ERROR"; "CRITICAL"].

Definition level_is_valid (l : string) : bool :=
  existsb (String.eqb l) valid_levels.

(** [0.0 <= x <= 1.0] *)
Definition in_unit_interval (x : float) : bool :=
  PrimFloat.leb 0 x && PrimFloat.leb x 1.

(** [__post_init__]; [cwd] is [os.getcwd()]. *)
Definition __post_init__ (cwd : string) (c : t) : t :=
  {| name := name c;
     version := version c;
     enabled := enabled c;
     log_level := if level_is_valid (log_level c) then log_level c else "INFO";
     timeout := if (timeout c <=? 0)%Z then 300 else timeout c;
     max_memory := max_memory c;
     max_cpu_usage := max_cpu_usage c;
     max_file_size := max_file_size c;
     supported_languages := supported_languages c;
     working_directory :=
       if String.eqb (working_directory c) EmptyString then cwd
       else working_directory c;
     enable_security_analysis := enable_security_analysis c;
     enable_quality_analysis := enable_quality_analysis c;
     enable_performance_analysis := enable_performance_analysis c;
     enable_complexity_analysis := enable_complexity_analysis c;
     enable_auto_repair := enable_auto_repair c;
     repair_confidence_threshold :=
       if in_unit_interval (repair_confidence_threshold c)
       then repair_confidence_threshold c else 0.7;
     max_repair_attempts := max_repair_attempts c;
     enable_test_generation := enable_test_generation c;
     test_framework := test_framework c;
     test_timeout := test_timeout c;
     max_test_cases := max_test_cases c;
     ai_provider := ai_provider c;
     ai_model := ai_model c;
     ai_api_key := ai_api_key c;
     ai_temperature := ai_temperature c;
     ai_max_tokens := ai_max_tokens c;
     output_format := output_format c;
     output_directory := output_directory c;
     create_report := create_report c;
     verbose_output := verbose_output c |}.

(** The field defaults of the dataclass, for a given [name]. *)
Definition defaults (cwd : string) (n : string) : t :=
  {| name := n;
     version := "1.0.0";
     enabled := true;
     log_level := "INFO";
     timeout := 300;
     max_memory := 1024 * 1024 * 1024;
     max_cpu_usage := 0.8;
     max_file_size := 10 * 1024 * 1024;
     supported_languages := ["python"; "javascript"; "java"];
     working_directory := cwd;
     enable_security_analysis := true;
     enable_quality_analysis := true;
     enable_performance_analysis := true;
     enable_complexity_analysis := true;
     enable_auto_repair := false;
     repair_confidence_threshold := 0.7;
     max_repair_attempts := 3;
     enable_test_generation := true;
     test_framework := "pytest";
     test_timeout := 60;
     max_test_cases := 100;
     ai_provider := "openai";
     ai_model := "gpt-3.5-turbo";
     ai_api_key := None;
     ai_temperature := 0.7;
     ai_max_tokens := 2000;
     output_format := "json";
     output_directory := "output";
     create_report := true;
     verbose_output := false |}.

(** [config.__dict__] *)
Definition __dict__ (c : t) : dict :=
  [ ("name", PStr (name c));
    ("version", PStr (version c));
    ("enabled", PBool (enabled c));
    ("log_level", PStr (log_level c));
    ("timeout", PInt (timeout c));
    ("max_memory", PInt (max_memory c));
    ("max_cpu_usage", PFloat (max_cpu_usage c));
    ("max_file_size", PInt (max_file_size c));
    ("supported_languages", PList (map PStr (supported_languages c)));
    ("working_directory", PStr (working_directory c));
    ("enable_security_analysis", PBool (enable_security_analysis c));
    ("enable_quality_analysis", PBool (enable_quality_analysis c));
    ("enable_performance_analysis", PBool (enable_performance_analysis c));
    ("enable_complexity_analysis", PBool (enable_complexity_analysis c));
    ("enable_auto_repair", PBool (enable_auto_repair c));
    ("repair_confidence_threshold", PFloat (repair_confidence_threshold c));
    ("max_repair_attempts", PInt (max_repair_attempts c));
    ("enable_test_generation", PBool (enable_test_generation c));
    ("test_framework", PStr (test_framework c));
    ("test_timeout", PInt (test_timeout c));
    ("max_test_cases", PInt (max_test_cases c));
    ("ai_provider", PStr (ai_provider c));
    ("ai_model", PStr (ai_model c));
    ("ai_api_key", Dict.of_opt_str (ai_api_key c));
    ("ai_temperature", PFloat (ai_temperature c));
    ("ai_max_tokens", PInt (ai_max_tokens c));
    ("output_format", PStr (output_format c));
    ("output_directory", PStr (output_directory c));
    ("create_report", PBool (create_report c));
    ("verbose_output", PBool (verbose_output c)) ].

Definition field_names : list string :=
  map fst (__dict__ (defaults EmptyString EmptyString)).

(** *** Instances as Python holds them

    A dataclass does not check a value against the annotation of its field:
    an attribute holds the value it was given, of whatever type.  So an
    instance is also modelled by its [__dict__], the attributes by name in the
    order of the fields; [t] above is the instance whose attributes have the
    annotated types. *)
Module Instance.

(** [self.k] *)
Definition getattr (k : string) (self : dict) : Py.result pyval :=
  match Dict.get k self with
  | Some v => Py.Ok v
  | None =>
      Py.Raise (Py.AttributeError
        ("'AgentConfig' object has no attribute '" +:+ k +:+ "'"))
  end.

(** [x in valid_levels]: only a [str] equals a [str]. *)
Definition in_valid_levels (v : pyval) : bool :=
  match v with
  | PStr s => level_is_valid s
  | _ => false
  end.

Definition not_supported (left right : string) : Py.exception :=
  Py.TypeError ("'<=' not supported between instances of '"
                +:+ left +:+ "' and '" +:+ right +:+ "'").

(** [x <= 0]: defined on numbers, false for a [NaN]. *)
Definition le_zero (v : pyval) : Py.result bool :=
  match v with
  | PBool b => Py.Ok (negb b)
  | PInt z => Py.Ok (z <=? 0)%Z
  | PFloat x => Py.Ok (PrimFloat.leb x 0)
  | _ => Py.Raise (not_supported (type_name v) "int")
  end.

(** [0.0 <= x <= 1.0] for a value of any type *)
Definition within_unit_interval (v : pyval) : Py.result bool :=
  match v with
  | PBool _ => Py.Ok true
  | PInt z => Py.Ok ((0 <=? z)%Z && (z <=? 1)%Z)
  | PFloat x => Py.Ok (in_unit_interval x)
  | _ => Py.Raise (not_supported "float" (type_name v))
  end.

(** [__post_init__]; [cwd] is [os.getcwd()]. *)
Definition __post_init__ (cwd : string) (self : dict) : Py.result dict :=
  try! working_directory := getattr "working_directory" self in
  let self :=
    if Dict.truthy working_directory then self
    else Dict.set "working_directory" (PStr cwd) self in
  try! log_level := getattr "log_level" self in
  let self :=
    if in_valid_levels log_level then self
    else Dict.set "log_level" (PStr "INFO") self in
  try! timeout := getattr "timeout" self in
  try! too_small := le_zero timeout in
  let self := if too_small then Dict.set "timeout" (PInt 300) self else self in
  try! threshold := getattr "repair_confidence_threshold" self in
  try! inside := within_unit_interval threshold in
  let self :=
    if inside then self
    else Dict.set "repair_confidence_threshold" (PFloat 0.7) self in
  Py.Ok self.

(** [AgentConfig] called with the entries of [kwargs] as keyword arguments:
    [name] is required, a key that is no field is a [TypeError], a field
    missing from [kwargs] takes its default, every value is stored as it is,
    and [__post_init__] runs on the new instance. *)
Definition __init__ (cwd : string) (kwargs : dict) : Py.result dict :=
  match List.find (fun kv => negb (existsb (String.eqb (fst kv)) field_names)) kwargs with
  | Some kv =>
      Py.Raise (Py.TypeError
        ("AgentConfig.__init__() got an unexpected keyword argument '"
         +:+ fst kv +:+ "'"))
  | None =>
      match Dict.get "name" kwargs with
      | None =>
          Py.Raise (Py.TypeError
            "AgentConfig.__init__() missing 1 required positional argument: 'name'")
      | Some _ =>
          __post_init__ cwd
            (map (fun field => (fst field, Dict.get_default (fst field) (snd field) kwargs))
               (__dict__ (defaults cwd EmptyString)))
      end
  end.

(** [a == b], as the dataclass defines it for two instances: the tuples of
    the fields are equal. *)
Definition __eq__ (a b : dict) : bool :=
  forallb (fun k => match Dict.get k a, Dict.get k b with
                    | Some x, Some y => Json.eq x y
                    | _, _ => false
                    end)
    field_names.

End Instance.

End AgentConfig.

Module ConfigManager.

(** What a path holds: the text of a JSON object, given by the dictionary
    [json.load] returns for it, or anything else (a directory, text that is
    no JSON, JSON that is no object, a file that cannot be read). *)
Inductive file :=
| JsonObject (d : dict)
| NotJsonObject.

(** The process environment of the manager: the files by path, the current
    directory, and the paths that cannot be opened for writing. *)
Record world := {
  files : gmap string file;
  cwd : string;
  unwritable : gset string
}.

(** [open(path, 'w')] succeeds. *)
Definition writable (w : world) (path : string) : bool :=
  bool_decide (path ∉ unwritable w).

(** The world after [path] was given the content [f]. *)
Definition written (path : string) (f : file) (w : world) : world :=
  {| files := <[path := f]> (files w); cwd := cwd w; unwritable := unwritable w |}.

(** The manager; the cache holds the instance by its attributes. *)
Record t := {
  config_file : string;
  _config_cache : option dict
}.

(** [ConfigManager(config_file)]: [config_file or "config.json"] *)
Definition init (config_file : option string) : t :=
  {| config_file :=
       match config_file with
       | Some path => if String.eqb path EmptyString then "config.json" else path
       | None => "config.json"
       end;
     _config_cache := None |}.

Definition cached (c : dict) (self : t) : t :=
  {| config_file := config_file self; _config_cache := Some c |}.

(** [self._config_cache = None], as [reset_config] does *)
Definition clear_cache (self : t) : t :=
  {| config_file := config_file self; _config_cache := None |}.

(** [load_config()].  An instance is truthy, so a cache that is set is
    returned.  Any exception between [open] and the end of [__init__] leads
    to the default instance; text that [json.dump] cannot have written and
    [json.load] cannot read (see [Json.serializable]) is such a case. *)
Definition load_config (w : world) (self : t) : dict * t :=
  match _config_cache self with
  | Some c => (c, self)
  | None =>
      let default_config :=
        AgentConfig.__dict__
          (AgentConfig.__post_init__ (cwd w)
             (AgentConfig.defaults (cwd w) "DebugAgent")) in
      match files w !! config_file self with
      | Some (JsonObject config_data) =>
          if Json.serializable (PDict config_data)
          then match AgentConfig.Instance.__init__ (cwd w) config_data with
               | Py.Ok c => (c, cached c self)
               | Py.Raise _ => (default_config, cached default_config self)
               end
          else (default_config, cached default_config self)
      | Some NotJsonObject | None => (default_config, cached default_config self)
      end
  end.

(** [save_config(config)].  When the file cannot be opened nothing happens.
    When [json.dump] raises, the file has been truncated and holds the
    beginning of the text, which is no JSON; the cache is left as it is.
    Otherwise the file holds [config.__dict__] and the instance is cached. *)
Definition save_config (w : world) (self : t) (config : dict) : world * t :=
  if writable w (config_file self)
  then if Json.serializable (PDict config)
       then (written (config_file self) (JsonObject config) w, cached config self)
       else (written (config_file self) NotJsonObject w, self)
  else (w, self).

End ConfigManager.

(** The module-level functions of [core/config.py], on the global
    [config_manager]. *)
Module Config.

(** [for key, value in updates.items(): if hasattr(config, key):
    setattr(config, key, value)], on the instance's [__dict__].  The keys are
    taken to be field names or names the instance does not have. *)
Definition apply_updates (config_dict updates : dict) : dict :=
  fold_left
    (fun d kv => if Dict.mem kv.1 d then Dict.set kv.1 kv.2 d else d)
    updates config_dict.

(** [update_config(updates)].  The instance that is updated is the one the
    cache holds, so the cache shows the new values whether or not the file
    could be written. *)
Definition update_config (w : ConfigManager.world)
  (config_manager : ConfigManager.t) (updates : dict)
  : ConfigManager.world * ConfigManager.t :=
  let '(config, config_manager) := ConfigManager.load_config w config_manager in
  let config := apply_updates config updates in
  ConfigManager.save_config w (ConfigManager.cached config config_manager) config.

(** [reset_config()] *)
Definition reset_config (w : ConfigManager.world)
  (config_manager : ConfigManager.t) : ConfigManager.world * ConfigManager.t :=
  let '(config, config_manager) :=
    ConfigManager.load_config w (ConfigManager.clear_cache config_manager) in
  ConfigManager.save_config w config_manager config.

End Config.

(** ** [memory/memory_manager.py]: the project memory's repair statistics *)

Module MemoryManager.

(** The two maps of [ProjectMemory] that [add_repair_result] writes. *)
Record ProjectMemory := {
  repair_history : gmap string dict;
  success_rates : gmap string float
}.

Definition empty : ProjectMemory :=
  {| repair_history := ∅; success_rates := ∅ |}.

(** [repair_result.get('strategy', 'unknown')]; by the annotation
    [Dict[str, float]] of [success_rates] the entry is a [str]. *)
Definition strategy_of (repair_result : dict) : string :=
  match Dict.get_default "strategy" (PStr "unknown") repair_result with
  | PStr s => s
  | _ => "unknown"
  end.

(** [new_rate = current_rate * 0.9 + (1.0 if success else 0.0) * 0.1] *)
Definition new_rate (current_rate : float) (success : bool) : float :=
  (current_rate * 0.9 + (if success then 1.0 else 0.0) * 0.1)%float.

(** [add_repair_result(issue_id, repair_result)] on the project memory; the
    long-term entry it logs afterwards lives in another store. *)
Definition add_repair_result (issue_id : string) (repair_result : dict)
  (m : ProjectMemory) : ProjectMemory :=
  let history :=
    <[issue_id :=
        [ ("repair_result", PDict repair_result);
          ("success_rate", Dict.get_default "success" (PBool false) repair_result) ]]>
      (repair_history m) in
  let strategy := strategy_of repair_result in
  let current_rate := default 0.5%float (success_rates m !! strategy) in
  let success := Dict.truthy (Dict.get_default "success" (PBool false) repair_result) in
  {| repair_history := history;
     success_rates := <[strategy := new_rate current_rate success]> (success_rates m) |}.

End MemoryManager.

(** ** [core/models.py]: execution strategies *)

Module Strategy.
Inductive t := STATIC_ONLY | TEST_DRIVEN_ONLY | HYBRID | AUTO.
Definition value (s : t) : string :=
  match s with
  | STATIC_ONLY => "static_only"
  | TEST_DRIVEN_ONLY => "test_driven_only"
  | HYBRID => "hybrid"
  | AUTO => "auto"
  end.
End Strategy.

(** ** [agents/coordinator_agent.py]: the decision engine *)

Module DecisionEngine.

(** The dictionary of decision factors: its five keys are fixed and each
    holds a [float]. *)
Record factors := {
  code_complexity : float;
  file_importance : float;
  issue_severity : float;
  performance_requirements : float;
  testing_coverage : float
}.

(** [min(1.0, x)] and [max(0.0, x)]: the first argument unless the second is
    strictly smaller, respectively greater. *)
Definition min1 (x : float) : float := if PrimFloat.ltb x 1 then x else 1%float.
Definition max0 (x : float) : float := if PrimFloat.ltb 0 x then x else 0%float.

(** One loop [for keyword in keywords: if keyword in text: total += step]. *)
Definition add_keywords (keywords : list string) (text : string)
  (step total : float) : float :=
  fold_left
    (fun total keyword =>
       if Py.contains keyword text then (total + step)%float else total)
    keywords total.

Definition _assess_file_importance (file_path : option string) : float :=
  match file_path with
  | None => 0.5%float
  | Some file_path =>
      if String.eqb file_path EmptyString then 0.5%float
      else
        let important_keywords :=
          ["main"; "app"; "core"; "api"; "service"; "controller"] in
        let filename := Py.lower file_path in
        let importance := 0.5%float in
        let importance := add_keywords important_keywords filename 0.1 importance in
        min1 importance
  end.

Definition _assess_potential_issue_severity (code : string) : float :=
  let high_severity_keywords := ["password"; "secret"; "key"; "token"; "sql"] in
  let medium_severity_keywords := ["todo"; "fixme"; "hack"; "temp"] in
  let severity_score := 0%float in
  let code_lower := Py.lower code in
  let severity_score :=
    add_keywords high_severity_keywords code_lower 0.2 severity_score in
  let severity_score :=
    add_keywords medium_severity_keywords code_lower 0.1 severity_score in
  min1 severity_score.

(** [context.complexity_level.value / 4.0] *)
Definition level_ratio (context : AnalysisContext.t) : float :=
  (Py.float_of_Z (ComplexityLevel.value (AnalysisContext.complexity_level context))
   / 4.0)%float.

Definition _assess_performance_requirements (context : AnalysisContext.t) : float :=
  if existsb (String.eqb (AnalysisContext.file_type context))
       ["python"; "javascript"; "java"]
  then min1 (level_ratio context)
  else 0.3%float.

Definition _assess_testing_coverage (context : AnalysisContext.t) : float :=
  min1 (level_ratio context).

Definition _extract_decision_factors (context : AnalysisContext.t) : factors :=
  {| code_complexity := level_ratio context;
     file_importance := _assess_file_importance (AnalysisContext.file_path context);
     issue_severity := _assess_potential_issue_severity (AnalysisContext.code context);
     performance_requirements := _assess_performance_requirements context;
     testing_coverage := _assess_testing_coverage context |}.

Definition _calculate_static_score (f : factors) : float :=
  let complexity_factor := (1.0 - code_complexity f)%float in
  let severity_factor := (1.0 - issue_severity f)%float in
  (complexity_factor * 0.6 + severity_factor * 0.4)%float.

Definition _calculate_test_driven_score (f : factors) : float :=
  let complexity_factor := code_complexity f in
  let testing_factor := testing_coverage f in
  (complexity_factor * 0.5 + testing_factor * 0.5)%float.

Definition _calculate_hybrid_score (f : factors) : float :=
  let complexity_factor := (1.0 - PrimFloat.abs (code_complexity f - 0.5))%float in
  let overall_risk := ((code_complexity f + issue_severity f) / 2.0)%float in
  let risk_factor := min1 overall_risk in
  (complexity_factor * 0.4 + risk_factor * 0.6)%float.

(** [max(scores, key=scores.get)] on a dictionary with the entry [first]
    followed by [others]: the first key whose score no later one exceeds. *)
Definition max_by_score (first : Strategy.t * float)
  (others : list (Strategy.t * float)) : Strategy.t :=
  (fold_left
     (fun best item => if PrimFloat.ltb best.2 item.2 then item else best)
     others first).1.

(** [make_strategy_decision]: the strategy, and the factors it stores in
    [last_decision_factors]. *)
Definition make_strategy_decision (context : AnalysisContext.t)
  : Strategy.t * factors :=
  let factors := _extract_decision_factors context in
  let static_score := _calculate_static_score factors in
  let test_driven_score := _calculate_test_driven_score factors in
  let hybrid_score := _calculate_hybrid_score factors in
  (max_by_score (Strategy.STATIC_ONLY, static_score)
     [ (Strategy.TEST_DRIVEN_ONLY, test_driven_score);
       (Strategy.HYBRID, hybrid_score) ],
   factors).

End DecisionEngine.

(** ** [agents/coordinator_agent.py]: the coordinator's entry point

    The rest of the class [CoordinatorAgent]: the analysis context, the
    static-only and the test-driven workflow, the execution summary and
    [analyze_and_repair].  [os.path.splitext] is a parameter. *)

Module Coordinator.

(** The coordinator with its decision engine: the agents, and the factors of
    the engine's last decision. *)
Record t := {
  agents : CoordinatorAgent.t;
  last_decision_factors : option DecisionEngine.factors
}.

Definition init : t :=
  {| agents := CoordinatorAgent.init; last_decision_factors := None |}.

(** [len(v)] *)
Definition len (v : pyval) : Py.result Z :=
  match v with
  | PStr s => Py.Ok (Z.of_nat (String.length s))
  | PList l => Py.Ok (Z.of_nat (length l))
  | PDict d => Py.Ok (Z.of_nat (length d))
  | _ => Py.Raise (Py.TypeError "object has no len()")
  end.

(** A value as a number: an [int] (a [bool] is one) or a [float]. *)
Definition number (v : pyval) : option (Z + float) :=
  match v with
  | PBool b => Some (inl (if b then 1 else 0)%Z)
  | PInt z => Some (inl z)
  | PFloat f => Some (inr f)
  | _ => None
  end.

(** [a - b] and [a / b] on numbers; [b] is a [float] literal in the
    sources. *)
Definition sub (a b : pyval) : Py.result pyval :=
  match number a, number b with
  | Some (inl x), Some (inl y) => Py.Ok (PInt (x - y))
  | Some (inl x), Some (inr y) => Py.Ok (PFloat (Py.float_of_Z x - y))
  | Some (inr x), Some (inl y) => Py.Ok (PFloat (x - Py.float_of_Z y))
  | Some (inr x), Some (inr y) => Py.Ok (PFloat (x - y))
  | _, _ => Py.Raise (Py.TypeError "unsupported operand type(s) for -")
  end.

Definition truediv (a : pyval) (b : float) : Py.result float :=
  match number a with
  | Some (inl x) => Py.Ok (Py.float_of_Z x / b)%float
  | Some (inr x) => Py.Ok (x / b)%float
  | None => Py.Raise (Py.TypeError "unsupported operand type(s) for /")
  end.

(** [v.get(k, default)] on a value that has to be a dictionary *)
Definition get_of (v : pyval) (k : string) (default : pyval) : Py.result pyval :=
  match v with
  | PDict d => Py.Ok (Dict.get_default k default d)
  | _ => Py.Raise (Py.AttributeError "object has no attribute 'get'")
  end.

(** The factors as the dictionary [_extract_decision_factors] builds. *)
Definition factors_dict (f : DecisionEngine.factors) : dict :=
  [ ("code_complexity", PFloat (DecisionEngine.code_complexity f));
    ("file_importance", PFloat (DecisionEngine.file_importance f));
    ("issue_severity", PFloat (DecisionEngine.issue_severity f));
    ("performance_requirements", PFloat (DecisionEngine.performance_requirements f));
    ("testing_coverage", PFloat (DecisionEngine.testing_coverage f)) ].

(** The coordinator's own base state after [f]. *)
Definition with_base (f : BaseAgent.t -> BaseAgent.t) (a : CoordinatorAgent.t)
  : CoordinatorAgent.t :=
  {| CoordinatorAgent.base := f (CoordinatorAgent.base a);
     CoordinatorAgent.static_agent := CoordinatorAgent.static_agent a;
     CoordinatorAgent.repair_agent := CoordinatorAgent.repair_agent a |}.

Definition get_capabilities : list string :=
  [ "strategy_decision"; "workflow_orchestration"; "result_integration";
    "quality_assessment"; "multi_agent_coordination"; "context_analysis";
    "performance_optimization" ].

Definition _assess_strategy_effectiveness (result : dict) : Py.result pyval :=
  let strategy := Dict.get_default "strategy" (PStr "UNKNOWN") result in
  let quality_improvement := Dict.get_default "quality_improvement" (PDict []) result in
  match strategy with
  | PStr s =>
      if String.eqb s "STATIC_ONLY" then
        try! identified := get_of quality_improvement "issues_identified" (PInt 0) in
        try! ratio := truediv identified 10.0 in
        Py.Ok (PFloat (DecisionEngine.min1 ratio))
      else if String.eqb s "TEST_DRIVEN_ONLY" then
        get_of quality_improvement "repair_confidence" (PInt 0)
      else if String.eqb s "HYBRID" then
        try! initial_score :=
          get_of quality_improvement "initial_quality_score" (PInt 0) in
        try! final_score :=
          get_of quality_improvement "final_quality_score" (PInt 0) in
        try! score_improvement := sub final_score initial_score in
        try! ratio := truediv score_improvement 50.0 in
        Py.Ok (PFloat (DecisionEngine.min1 (DecisionEngine.max0 ratio)))
      else Py.Ok (PFloat 0)
  | _ => Py.Ok (PFloat 0)
  end.

Definition _generate_execution_summary (result : dict) : Py.result dict :=
  try! repairs_applied := len (Dict.get_default "applied_repairs" (PList []) result) in
  try! strategy_effectiveness := _assess_strategy_effectiveness result in
  Py.Ok
    [ ("execution_successful", Dict.get_default "overall_success" (PBool false) result);
      ("issues_found", Dict.get_default "total_issues" (PInt 0) result);
      ("repairs_applied", PInt repairs_applied);
      ("quality_improvement", Dict.get_default "quality_improvement" (PDict []) result);
      ("strategy_effectiveness", strategy_effectiveness) ].

(** [_update_metrics]: the exception raised, if any, and the agent's state.
    By its annotation the [issues_found] metric is an [int]; the workflows
    store one under [total_issues]. *)
Definition _update_metrics (self : BaseAgent.t) (result : dict)
  : option Py.exception * BaseAgent.t :=
  match Dict.get_default "total_issues" (PInt 0) result with
  | PInt n =>
      let self := BaseAgent.set_issues_found n self in
      match
        (try! coordination_info :=
           get_of (PDict result) "coordination_info" (PDict []) in
         try! execution_summary :=
           get_of coordination_info "execution_summary" (PDict []) in
         get_of execution_summary "strategy_effectiveness" (PInt 0))
      with
      | Py.Ok accuracy_rate => (None, BaseAgent.set_accuracy_rate accuracy_rate self)
      | Py.Raise e => (Some e, self)
      end
  | _ => (Some (Py.TypeError "issues_found is not an int"), self)
  end.

Section with_env.
Variable env : External.t.
Variable splitext : string -> string * string.

Definition _assess_complexity (code : string) : ComplexityLevel.t :=
  match External.ast_parse env code with
  | External.Parsed walk =>
      let total_lines := Z.of_nat (length (Py.split_nl code)) in
      let functions := ComplexityAnalyzer.count External.is_FunctionDef walk in
      let classes := ComplexityAnalyzer.count External.is_ClassDef walk in
      let loops := ComplexityAnalyzer.count External.is_loop walk in
      let conditionals := ComplexityAnalyzer.count External.is_If walk in
      let complexity_score :=
        (Py.float_of_Z total_lines * 0.1
         + Py.float_of_Z (functions * 2)
         + Py.float_of_Z (classes * 3)
         + Py.float_of_Z loops * 1.5
         + Py.float_of_Z (conditionals * 1))%float in
      if PrimFloat.ltb complexity_score 20 then ComplexityLevel.LOW
      else if PrimFloat.ltb complexity_score 50 then ComplexityLevel.MEDIUM
      else if PrimFloat.ltb complexity_score 100 then ComplexityLevel.HIGH
      else ComplexityLevel.VERY_HIGH
  | External.ParseError _ => ComplexityLevel.MEDIUM
  end.

Definition file_type_map : list (string * string) :=
  [ (".py", "python"); (".js", "javascript"); (".ts", "typescript");
    (".java", "java"); (".cpp", "cpp"); (".c", "c"); (".go", "go");
    (".rs", "rust"); (".php", "php"); (".rb", "ruby") ].

Definition _determine_file_type (file_path : option string) : string :=
  match file_path with
  | None => "unknown"
  | Some file_path =>
      if String.eqb file_path EmptyString then "unknown"
      else
        let ext := Py.lower (splitext file_path).2 in
        match List.find (fun kv => String.eqb ext kv.1) file_type_map with
        | Some kv => kv.2
        | None => "unknown"
        end
  end.

Definition _extract_dependencies (code : string) : list string :=
  match External.ast_parse env code with
  | External.Parsed walk =>
      flat_map
        (fun node =>
           match node with
           | External.Import names => names
           | External.ImportFrom (Some module) =>
               if String.eqb module EmptyString then [] else [module]
           | _ => []
           end)
        walk
  | External.ParseError _ => []
  end.

(** [_create_analysis_context]; the [metadata] it stores is not read. *)
Definition _create_analysis_context (code : string) (file_path : option string)
  : AnalysisContext.t :=
  {| AnalysisContext.code := code;
     AnalysisContext.file_path := file_path;
     AnalysisContext.complexity_level := _assess_complexity code;
     AnalysisContext.file_type := _determine_file_type file_path;
     AnalysisContext.code_size := Z.of_nat (String.length code);
     AnalysisContext.dependencies := _extract_dependencies code |}.

Definition _execute_static_only_workflow (self : CoordinatorAgent.t)
  (context : AnalysisContext.t) : Py.result dict * CoordinatorAgent.t :=
  let coordinator :=
    BaseAgent.logged (BaseAgent.LogInfo "Executing static-only workflow")
      (CoordinatorAgent.base self) in
  let '(static_result, static) :=
    StaticAnalysisAgent.analyze env (CoordinatorAgent.static_agent self)
      (AnalysisContext.code context)
      (Some [("file_path", Dict.of_opt_str (AnalysisContext.file_path context))]) in
  let all_issues : list pyval :=
    StaticAnalysisAgent.as_list (Dict.get_default "security_issues" (PList []) static_result)
    ++ StaticAnalysisAgent.as_list (Dict.get_default "quality_issues" (PList []) static_result)
    ++ StaticAnalysisAgent.as_list (Dict.get_default "performance_issues" (PList []) static_result) in
  (try! issues := StaticAnalysisAgent.issue_records all_issues in
   let critical_issues :=
     List.filter
       (fun i => match AnalysisResult.severity i with
                 | SeverityLevel.CRITICAL => true
                 | _ => false
                 end) issues in
   Py.Ok
    [ ("strategy", PStr "STATIC_ONLY");
      ("static_analysis_results", PDict static_result);
      ("repair_results", PNone);
      ("final_code", PStr (AnalysisContext.code context));
      ("total_issues", PInt (Z.of_nat (length all_issues)));
      ("overall_success", PBool true);
      ("applied_repairs", PList []);
      ("quality_improvement", PDict
         [ ("issues_identified", PInt (Z.of_nat (length all_issues)));
           ("critical_issues", PInt (Z.of_nat (length critical_issues)));
           ("quality_score", Dict.get_default "overall_score" (PInt 0) static_result) ]) ],
   {| CoordinatorAgent.base := coordinator;
      CoordinatorAgent.static_agent := static;
      CoordinatorAgent.repair_agent := CoordinatorAgent.repair_agent self |}).

Definition _execute_test_driven_workflow (self : CoordinatorAgent.t)
  (context : AnalysisContext.t) : Py.result dict * CoordinatorAgent.t :=
  let coordinator :=
    BaseAgent.logged (BaseAgent.LogInfo "Executing test-driven workflow")
      (CoordinatorAgent.base self) in
  let '(repair_result, repair) :=
    TestDrivenRepairAgent.analyze_and_repair env (CoordinatorAgent.repair_agent self)
      (AnalysisContext.code context) None in
  (try! total_issues :=
     len (Dict.get_default "applied_repairs" (PList []) repair_result) in
   Py.Ok
    [ ("strategy", PStr "TEST_DRIVEN_ONLY");
      ("static_analysis_results", PNone);
      ("repair_results", PDict repair_result);
      ("final_code",
       Dict.get_default "repaired_code" (PStr (AnalysisContext.code context))
         repair_result);
      ("total_issues", PInt total_issues);
      ("overall_success", Dict.get_default "repair_success" (PBool false) repair_result);
      ("applied_repairs", Dict.get_default "applied_repairs" (PList []) repair_result);
      ("quality_improvement", PDict
         [ ("repairs_applied", PInt total_issues);
           ("test_improvement",
            Dict.get_default "improvement_metrics" (PDict []) repair_result);
           ("repair_confidence", Dict.get_default "confidence" (PInt 0) repair_result) ]) ],
   {| CoordinatorAgent.base := coordinator;
      CoordinatorAgent.static_agent := CoordinatorAgent.static_agent self;
      CoordinatorAgent.repair_agent := repair |}).

(** The hybrid workflow as the entry point runs it.  It is
    [CoordinatorAgent._execute_hybrid_workflow] with each conditional
    expression [r.get(k, d) if r else e] reading the whole map [r]. *)
Definition _execute_hybrid_workflow (self : CoordinatorAgent.t)
  (context : AnalysisContext.t)
  : dict * CoordinatorAgent.t :=
  let code := AnalysisContext.code context in
  let file_context : dict :=
    [("file_path", Dict.of_opt_str (AnalysisContext.file_path context))] in
  let coordinator :=
    BaseAgent.logged (BaseAgent.LogInfo "Executing hybrid workflow")
      (CoordinatorAgent.base self) in
  (* step 1: static analysis *)
  let '(static_result, static) :=
    StaticAnalysisAgent.analyze env (CoordinatorAgent.static_agent self) code
      (Some file_context) in
  let all_issues : list pyval :=
    StaticAnalysisAgent.as_list (Dict.get_default "security_issues" (PList []) static_result)
    ++ StaticAnalysisAgent.as_list (Dict.get_default "quality_issues" (PList []) static_result)
    ++ StaticAnalysisAgent.as_list (Dict.get_default "performance_issues" (PList []) static_result) in
  (* step 2: repair when issues were found *)
  let '(repair_result, final_code, repair) :=
    match all_issues with
    | [] => (None, code, CoordinatorAgent.repair_agent self)
    | _ :: _ =>
        let '(repair_result, repair) :=
          TestDrivenRepairAgent.analyze_and_repair env
            (CoordinatorAgent.repair_agent self) code
            (Some (Dict.issues_of_val (PList all_issues))) in
        (Some repair_result,
         match Dict.get_default "repaired_code" (PStr code) repair_result with
         | PStr s => s
         | _ => code
         end,
         repair)
    end in
  (* step 3: static analysis again when the code changed *)
  let '(final_static_result, static) :=
    if negb (String.eqb final_code code) then
      let '(r, static) :=
        StaticAnalysisAgent.analyze env static final_code (Some file_context) in
      (Some r, static)
    else (None, static) in
  let initial_score := Dict.get_default "overall_score" (PInt 0) static_result in
  let final_score :=
    match final_static_result with
    | Some ((_ :: _) as r) => Dict.get_default "overall_score" (PInt 0) r
    | _ => initial_score
    end in
  let result : dict :=
    [ ("strategy", PStr "HYBRID");
      ("static_analysis_results", PDict
         [ ("initial", PDict static_result);
           ("final", CoordinatorAgent.opt_dict final_static_result) ]);
      ("repair_results", CoordinatorAgent.opt_dict repair_result);
      ("final_code", PStr final_code);
      ("total_issues", PInt (Z.of_nat (length all_issues)));
      ("overall_success",
       if (0 <? length all_issues)%nat then
         match repair_result with
         | Some ((_ :: _) as r) => Dict.get_default "repair_success" (PBool false) r
         | _ => PBool true
         end
       else PBool false);
      ("applied_repairs",
       match repair_result with
       | Some ((_ :: _) as r) => Dict.get_default "applied_repairs" (PList []) r
       | _ => PList []
       end);
      ("quality_improvement", PDict
         [ ("issues_identified", PInt (Z.of_nat (length all_issues)));
           ("initial_quality_score", initial_score);
           ("final_quality_score", final_score);
           ("quality_improvement", CoordinatorAgent.num_sub final_score initial_score);
           ("repairs_applied",
            match repair_result with
            | Some ((_ :: _) as r) =>
                PInt (Z.of_nat (length (StaticAnalysisAgent.as_list
                        (Dict.get_default "applied_repairs" (PList []) r))))
            | _ => PInt 0
            end) ]) ] in
  (result,
   {| CoordinatorAgent.base := coordinator;
      CoordinatorAgent.static_agent := static;
      CoordinatorAgent.repair_agent := repair |}).

(** The part of [analyze_and_repair] after the workflow: the coordination
    info is added to the result, the metrics are updated and the execution
    is recorded. *)
Definition report (strategy : Strategy.t) (analysis_context : AnalysisContext.t)
  (factors : option DecisionEngine.factors) (self : CoordinatorAgent.t)
  (result : dict) : Py.result dict * CoordinatorAgent.t :=
  match _generate_execution_summary result with
  | Py.Raise e => (Py.Raise e, self)
  | Py.Ok execution_summary =>
      let result :=
        Dict.set "coordination_info"
          (PDict
             [ ("strategy_used", PStr (Strategy.value strategy));
               ("context_analysis", PDict
                  [ ("complexity_level",
                     PInt (ComplexityLevel.value
                             (AnalysisContext.complexity_level analysis_context)));
                    ("file_type", PStr (AnalysisContext.file_type analysis_context));
                    ("code_size", PInt (AnalysisContext.code_size analysis_context));
                    ("dependencies_count",
                     PInt (Z.of_nat (length (AnalysisContext.dependencies
                                               analysis_context)))) ]);
               ("decision_factors",
                match factors with
                | Some f => PDict (factors_dict f)
                | None => PNone
                end);
               ("execution_summary", PDict execution_summary) ])
          result in
      let '(raised, base) := _update_metrics (CoordinatorAgent.base self) result in
      match raised with
      | Some e => (Py.Raise e, with_base (fun _ => base) self)
      | None =>
          match len (Dict.get_default "applied_repairs" (PList []) result) with
          | Py.Raise e => (Py.Raise e, with_base (fun _ => base) self)
          | Py.Ok repairs_applied =>
              let base :=
                BaseAgent.record_execution base "coordination"
                  [ ("success", Dict.get_default "overall_success" (PBool false) result);
                    ("strategy", PStr (Strategy.value strategy));
                    ("issues_found", Dict.get_default "total_issues" (PInt 0) result);
                    ("repairs_applied", PInt repairs_applied) ] in
              (Py.Ok result, with_base (fun _ => base) self)
          end
      end
  end.

(** The [try] block of [analyze_and_repair]: the returned map, or the
    exception that reaches the [except] clause, with the strategy in force
    and the coordinator's state at that point. *)
Definition analyze_and_repair_try (self : t) (code : string)
  (file_path : option string) (strategy : Strategy.t)
  : Py.result dict * Strategy.t * t :=
  let analysis_context := _create_analysis_context code file_path in
  let '(strategy, factors) :=
    match strategy with
    | Strategy.AUTO =>
        let '(s, f) := DecisionEngine.make_strategy_decision analysis_context in
        (s, Some f)
    | _ => (strategy, last_decision_factors self)
    end in
  let selected :=
    with_base
      (BaseAgent.logged
         (BaseAgent.LogInfo ("Selected strategy: " +:+ Strategy.value strategy)))
      (agents self) in
  let '(workflow, after) :=
    match strategy with
    | Strategy.STATIC_ONLY => _execute_static_only_workflow selected analysis_context
    | Strategy.TEST_DRIVEN_ONLY => _execute_test_driven_workflow selected analysis_context
    | _ =>
        let '(result, after) :=
          _execute_hybrid_workflow selected analysis_context in
        (Py.Ok result, after)
    end in
  match workflow with
  | Py.Raise e =>
      (Py.Raise e, strategy, {| agents := after; last_decision_factors := factors |})
  | Py.Ok result =>
      let '(outcome, after) := report strategy analysis_context factors after result in
      (outcome, strategy, {| agents := after; last_decision_factors := factors |})
  end.

(** [CoordinatorAgent.analyze_and_repair(code, file_path, strategy)]; the
    [context] argument only fills the metadata of the analysis context. *)
Definition analyze_and_repair (self : t) (code : string)
  (file_path : option string) (strategy : Strategy.t) : dict * t :=
  let on_base (f : BaseAgent.t -> BaseAgent.t) (s : t) :=
    {| agents := with_base f (agents s);
       last_decision_factors := last_decision_factors s |} in
  let self := on_base BaseAgent.start_execution self in
  let '(outcome, strategy, self) := analyze_and_repair_try self code file_path strategy in
  let '(returned, self) :=
    match outcome with
    | Py.Ok result => (result, self)
    | Py.Raise e =>
        let '(error_result, base) :=
          BaseAgent.handle_error (CoordinatorAgent.base (agents self)) e
            [ ("code_length", PInt (Z.of_nat (String.length code)));
              ("strategy", PStr (Strategy.value strategy)) ] in
        (error_result,
         on_base
           (fun _ => BaseAgent.record_execution base "coordination" error_result)
           self)
    end in
  (returned, on_base BaseAgent.end_execution self).

(** [CoordinatorAgent.analyze(target, context)] for a [str] target.  The
    call [self.analyze_and_repair(code, None, context)] passes the context
    where the strategy is expected.  A context is no member of [Strategy]: it
    differs from [AUTO], so no decision is taken, and the look-up of
    [strategy.value] for the log line raises an [AttributeError] before any
    workflow runs.  The [except] clause evaluates
    [strategy.value if strategy else "unknown"]: for a context that is not
    empty the look-up raises again and the exception leaves the method;
    otherwise the error map is recorded and returned. *)
Definition analyze (self : t) (target : string) (context : option dict)
  : Py.result dict * t :=
  let on_base (f : BaseAgent.t -> BaseAgent.t) (s : t) :=
    {| agents := with_base f (agents s);
       last_decision_factors := last_decision_factors s |} in
  let self := on_base BaseAgent.start_execution self in
  let no_value (type : string) :=
    Py.AttributeError ("'" +:+ type +:+ "' object has no attribute 'value'") in
  match context with
  | Some (_ :: _) => (Py.Raise (no_value "dict"), on_base BaseAgent.end_execution self)
  | _ =>
      let e :=
        no_value match context with
                 | None => "NoneType"
                 | Some _ => "dict"
                 end in
      let '(error_result, base) :=
        BaseAgent.handle_error (CoordinatorAgent.base (agents self)) e
          [ ("code_length", PInt (Z.of_nat (String.length target)));
            ("strategy", PStr "unknown") ] in
      let self :=
        on_base
          (fun _ => BaseAgent.record_execution base "coordination" error_result)
          self in
      (Py.Ok error_result, on_base BaseAgent.end_execution self)
  end.

End with_env.
End Coordinator.

(** ** [core/base_agent.py]: the check of the configuration *)

Module ValidationResult.
Record t := {
  is_valid : bool;
  confidence : float;
  issues_found : list string;
  suggestions : list string;
  execution_time : float
}.
End ValidationResult.

Module Validation.

(** [BaseAgent.validate_config], on [self.config].  It reads the name, the
    version, the log level and the timeout; the configuration here is the
    [AgentConfig] of [core/config.py], the class the repair agent is built
    with. *)
Definition validate_config (config : AgentConfig.t) : ValidationResult.t :=
  let issues : list string := [] in
  let suggestions : list string := [] in
  let issues :=
    if String.eqb (AgentConfig.name config) EmptyString
    then issues ++ ["Agent name is required"] else issues in
  let issues :=
    if String.eqb (AgentConfig.version config) EmptyString
    then issues ++ ["Agent version is required"] else issues in
  let valid_log_levels := ["DEBUG"; "INFO"; "WARNING"; "ERROR"] in
  let '(issues, suggestions) :=
    if negb (existsb (String.eqb (AgentConfig.log_level config)) valid_log_levels)
    then (issues ++ ["Invalid log level: " +:+ AgentConfig.log_level config],
          suggestions ++ ["Valid log levels: " +:+ Py.join ", " valid_log_levels])
    else (issues, suggestions) in
  let issues :=
    if (AgentConfig.timeout config <=? 0)%Z
    then issues ++ ["Timeout must be positive"] else issues in
  {| ValidationResult.is_valid := (length issues =? 0)%nat;
     ValidationResult.confidence :=
       if (length issues =? 0)%nat then 1.0%float else 0.0%float;
     ValidationResult.issues_found := issues;
     ValidationResult.suggestions := suggestions;
     ValidationResult.execution_time := 0.0%float |}.

End Validation.
(** ** [memory/memory_manager.py]: the long-term memory *)

Module LongTermMemory.

(** A [MemoryEntry]; the identifier and the time stamps are left out. *)
Record MemoryEntry := {
  content : string;
  type : string;
  metadata : dict;
  importance : float;
  access_count : Z
}.

(** [self.long_term_memory]: the entries by type. *)
Abbreviation t := (gmap string (list MemoryEntry)).

(** The sort key [(x.importance, x.access_count)], compared as tuples are:
    by the first components unless they are equal. *)
Definition key_lt (a b : MemoryEntry) : bool :=
  if PrimFloat.eqb (importance a) (importance b)
  then (access_count a <? access_count b)%Z
  else PrimFloat.ltb (importance a) (importance b).

(** [entries.sort(key=..., reverse=True)]: greatest key first, entries with
    equal keys in the order they had.  An entry goes behind every entry whose
    key is not smaller. *)
Fixpoint insert (x : MemoryEntry) (sorted : list MemoryEntry) : list MemoryEntry :=
  match sorted with
  | [] => [x]
  | y :: rest => if key_lt y x then x :: sorted else y :: insert x rest
  end.

Definition sort (entries : list MemoryEntry) : list MemoryEntry :=
  fold_left (fun sorted x => insert x sorted) entries [].

(** [_cleanup_low_importance_memory]: every list is sorted, and cut to its
    first 100 entries when it has more. *)
Definition _cleanup_low_importance_memory (self : t) : t :=
  (fun entries => take 100 (sort entries)) <$> self.

(** [_add_to_long_term_memory(content, type, importance, metadata)] *)
Definition _add_to_long_term_memory (content type : string)
  (importance : float) (metadata : dict) (self : t) : t :=
  let entry :=
    {| content := content; type := type; metadata := metadata;
       importance := importance; access_count := 0 |} in
  let self := <[type := default [] (self !! type) ++ [entry]]> self in
  _cleanup_low_importance_memory self.

End LongTermMemory.

(** ** Notions used to state the properties, and sample inputs *)

(** The penalty of a category as the spec words it: the sum over its issues
    of severity weight times category weight. *)
Definition penalty (category_weight : Z) (issues : list AnalysisResult.t) : Z :=
  foldr (fun issue acc =>
           StaticAnalysisAgent.severity_weights (AnalysisResult.severity issue)
           * category_weight + acc)%Z 0%Z issues.

(** The result map of a static analysis that found one high-severity
    hardcoded password. *)
Definition one_high_security_issue : dict :=
  [ ("security_issues", PList [PIssue (SecurityAnalyzer.hardcoded_credentials None 1)]);
    ("quality_issues", PList []);
    ("performance_issues", PList []) ].

(** The one-line program [password = "admin123"]. *)
Definition password_sample : string :=
  "password = " +:+ String Py.dquote "admin123" +:+ String Py.dquote EmptyString.

(** Whether the issue carries what engages the strategy registered under
    [name]: the metadata entry naming hardcoded credentials for the security
    strategy, the [quality_metric] field equal to [line_length] for the
    quality strategy, the metadata entry naming string concatenation for the
    performance strategy; nothing engages the logic strategy. *)
Definition engages (name : string) (issue : AnalysisResult.t) : bool :=
  if String.eqb name "security" then
    match AnalysisResult.metadata issue !! "vulnerability_type" with
    | Some v => Py.contains "hardcoded_credentials" v
    | None => false
    end
  else if String.eqb name "quality" then
    match AnalysisResult.class issue with
    | AnalysisResult.QualityIssue m _ _ => String.eqb m "line_length"
    | _ => false
    end
  else if String.eqb name "performance" then
    match AnalysisResult.metadata issue !! "performance_metric" with
    | Some v => Py.contains "string_concatenation" v
    | None => false
    end
  else false.

(** An issue with no metadata and no subclass fields, on line 1. *)
Definition plain_issue (kind : IssueType.t) : AnalysisResult.t :=
  {| AnalysisResult.file_path := None;
     AnalysisResult.line_number := 1;
     AnalysisResult.issue_type := kind;
     AnalysisResult.severity := SeverityLevel.LOW;
     AnalysisResult.description := EmptyString;
     AnalysisResult.suggestion := EmptyString;
     AnalysisResult.confidence := 0;
     AnalysisResult.rule_id := None;
     AnalysisResult.metadata := ∅;
     AnalysisResult.class := AnalysisResult.Base |}.

(** Every attempt of the loop, in order: the result of [_repair_issue] on
    the code current at that point, which moves on to the repaired code
    after a success and stays after a failure. *)
Fixpoint attempts (current_code : string) (issues : list AnalysisResult.t)
  : list RepairResult.t :=
  match issues with
  | [] => []
  | issue :: rest =>
      let r := (TestDrivenRepairAgent._repair_issue current_code issue).1 in
      r :: attempts (if RepairResult.success r
                     then RepairResult.repaired_code r else current_code) rest
  end.

(** The arithmetic mean of a list of floats, 0 for the empty list. *)
Definition mean (xs : list float) : float :=
  match xs with
  | [] => 0%float
  | _ :: _ => (Py.sum_float xs / Py.float_of_Z (Z.of_nat (length xs)))%float
  end.

(** The list [repair_results] the loop ends with. *)
Definition accumulated (code : string) (issues : list AnalysisResult.t)
  : list RepairResult.t :=
  (TestDrivenRepairAgent.repair_loop code issues).1.2.

(** The statement of the spec that every attempt is accumulated and that the confidence is
    the mean over every attempt. *)
Definition accumulates_every_attempt
  (code : string) (issues : list AnalysisResult.t) : Prop :=
  accumulated code issues = attempts code issues
  /\ TestDrivenRepairAgent._calculate_repair_confidence (accumulated code issues)
     = mean (map RepairResult.confidence (attempts code issues)).

(** The attempt reported success. *)
Definition succeeded (r : RepairResult.t) : Prop := RepairResult.success r = true.




(** A walk with eighty function definitions. *)
Definition eighty_functions : list External.ast_node :=
  External.OtherNode
  :: map (fun i => External.FunctionDef ("f" +:+ Py.str_of_nat i) ["x"]) (seq 0 80).

(** A parser that answers with [eighty_functions]; no path exists. *)
Definition env_eighty : External.t :=
  {| External.ast_parse := fun _ => External.Parsed eighty_functions;
     External.path_lookup := fun _ => External.NoSuchPath |}.

(** A parser that answers with a tree without declarations; no path
    exists. *)
Definition env_plain : External.t :=
  {| External.ast_parse := fun _ => External.Parsed [External.OtherNode];
     External.path_lookup := fun _ => External.NoSuchPath |}.

(** The line [start_execution] logs. *)
Definition is_start (r : BaseAgent.log_record) : bool :=
  match r with
  | BaseAgent.LogStart => true
  | _ => false
  end.

(** How many times the agent has entered an execution so far. *)
Definition executions_started (agent : BaseAgent.t) : nat :=
  length (List.filter is_start (BaseAgent.log agent)).

(** The issues of the three categories in a static analysis result. *)
Definition static_issues (static_result : dict) : list pyval :=
  StaticAnalysisAgent.as_list (Dict.get_default "security_issues" (PList []) static_result)
  ++ StaticAnalysisAgent.as_list (Dict.get_default "quality_issues" (PList []) static_result)
  ++ StaticAnalysisAgent.as_list (Dict.get_default "performance_issues" (PList []) static_result).

(** An analysis context for [code] given without a file path. *)
Definition context_of (code : string) : AnalysisContext.t :=
  {| AnalysisContext.code := code;
     AnalysisContext.file_path := None;
     AnalysisContext.complexity_level := ComplexityLevel.LOW;
     AnalysisContext.file_type := "unknown";
     AnalysisContext.code_size := Z.of_nat (String.length code);
     AnalysisContext.dependencies := [] |}.

(** What the [try] block of the static agent's [analyze] logs: nothing, or
    the error line of a rejected input. *)
Definition logs_at_most_an_error (before after : BaseAgent.t) : Prop :=
  BaseAgent.log after = BaseAgent.log before
  \/ exists d, BaseAgent.log after = BaseAgent.log before ++ [BaseAgent.LogError d].

(** The conditions [__post_init__] enforces on a new instance. *)
Definition well_formed (c : AgentConfig.t) : bool :=
  negb (String.eqb (AgentConfig.working_directory c) EmptyString)
  && AgentConfig.level_is_valid (AgentConfig.log_level c)
  && (0 <? AgentConfig.timeout c)%Z
  && AgentConfig.in_unit_interval (AgentConfig.repair_confidence_threshold c).

(** The attributes of [config] are the fields of the dataclass, in their
    order: [config] is the [__dict__] of an instance. *)
Definition has_the_fields (config : dict) : Prop :=
  map fst config = AgentConfig.field_names.

(** [__post_init__] finds nothing to replace in the instance and raises
    nowhere: the working directory is truthy, the log level is one of the
    five, the timeout is a number and not [<= 0], the threshold is a number
    within [0, 1]. *)
Definition meets_post_init (config : dict) : bool :=
  match Dict.get "working_directory" config, Dict.get "log_level" config,
        Dict.get "timeout" config, Dict.get "repair_confidence_threshold" config
  with
  | Some working_directory, Some log_level, Some timeout, Some threshold =>
      Dict.truthy working_directory
      && AgentConfig.Instance.in_valid_levels log_level
      && match AgentConfig.Instance.le_zero timeout with
         | Py.Ok too_small => negb too_small
         | Py.Raise _ => false
         end
      && match AgentConfig.Instance.within_unit_interval threshold with
         | Py.Ok inside => inside
         | Py.Raise _ => false
         end
  | _, _, _, _ => false
  end.

(** [c] with the log level [level]. *)
Definition with_log_level (level : string) (c : AgentConfig.t) : AgentConfig.t :=
  {| AgentConfig.name := AgentConfig.name c;
     AgentConfig.version := AgentConfig.version c;
     AgentConfig.enabled := AgentConfig.enabled c;
     AgentConfig.log_level := level;
     AgentConfig.timeout := AgentConfig.timeout c;
     AgentConfig.max_memory := AgentConfig.max_memory c;
     AgentConfig.max_cpu_usage := AgentConfig.max_cpu_usage c;
     AgentConfig.max_file_size := AgentConfig.max_file_size c;
     AgentConfig.supported_languages := AgentConfig.supported_languages c;
     AgentConfig.working_directory := AgentConfig.working_directory c;
     AgentConfig.enable_security_analysis := AgentConfig.enable_security_analysis c;
     AgentConfig.enable_quality_analysis := AgentConfig.enable_quality_analysis c;
     AgentConfig.enable_performance_analysis := AgentConfig.enable_performance_analysis c;
     AgentConfig.enable_complexity_analysis := AgentConfig.enable_complexity_analysis c;
     AgentConfig.enable_auto_repair := AgentConfig.enable_auto_repair c;
     AgentConfig.repair_confidence_threshold := AgentConfig.repair_confidence_threshold c;
     AgentConfig.max_repair_attempts := AgentConfig.max_repair_attempts c;
     AgentConfig.enable_test_generation := AgentConfig.enable_test_generation c;
     AgentConfig.test_framework := AgentConfig.test_framework c;
     AgentConfig.test_timeout := AgentConfig.test_timeout c;
     AgentConfig.max_test_cases := AgentConfig.max_test_cases c;
     AgentConfig.ai_provider := AgentConfig.ai_provider c;
     AgentConfig.ai_model := AgentConfig.ai_model c;
     AgentConfig.ai_api_key := AgentConfig.ai_api_key c;
     AgentConfig.ai_temperature := AgentConfig.ai_temperature c;
     AgentConfig.ai_max_tokens := AgentConfig.ai_max_tokens c;
     AgentConfig.output_format := AgentConfig.output_format c;
     AgentConfig.output_directory := AgentConfig.output_directory c;
     AgentConfig.create_report := AgentConfig.create_report c;
     AgentConfig.verbose_output := AgentConfig.verbose_output c |}.

(** A process started in [/work] with no configuration file. *)
Definition empty_world : ConfigManager.world :=
  {| ConfigManager.files := ∅; ConfigManager.cwd := "/work";
     ConfigManager.unwritable := ∅ |}.

(** The default instance of a process started in [/work]. *)
Definition default_instance : dict :=
  AgentConfig.__dict__ (AgentConfig.defaults "/work" "DebugAgent").

(** The instance the command [config --confidence 1.5] saves: the default
    configuration with the threshold 1.5. *)
Definition over_confident : dict :=
  Dict.set "repair_confidence_threshold" (PFloat 1.5) default_instance.

(** An instance with values of its own: the log level [DEBUG], a timeout of
    a minute, a threshold given as the integer 1. *)
Definition debug_instance : dict :=
  Dict.set "repair_confidence_threshold" (PInt 1)
    (Dict.set "timeout" (PInt 60)
       (Dict.set "log_level" (PStr "DEBUG") default_instance)).

(** The default instance with a [NaN] as its CPU limit. *)
Definition nan_instance : dict :=
  Dict.set "max_cpu_usage" (PFloat nan) default_instance.

(** A process in which [config.json] cannot be opened for writing. *)
Definition read_only_world : ConfigManager.world :=
  {| ConfigManager.files := ∅; ConfigManager.cwd := "/work";
     ConfigManager.unwritable := {["config.json"]} |}.

(** [save_config], then a cleared cache, then [load_config]. *)
Definition save_then_load (w : ConfigManager.world) (self : ConfigManager.t)
  (config : dict) : dict :=
  let '(w', self') := ConfigManager.save_config w self config in
  (ConfigManager.load_config w' (ConfigManager.clear_cache self')).1.

(** The map a caller hands to [add_repair_result]. *)
Definition repair_outcome (strategy : string) (success : bool) : dict :=
  [("strategy", PStr strategy); ("success", PBool success)].

(** The project memory after one successful repair by [strategy]. *)
Definition after_success (strategy : string) : MemoryManager.ProjectMemory :=
  MemoryManager.add_repair_result "issue-1" (repair_outcome strategy true)
    MemoryManager.empty.

(** The project memory after that success and a failure of the same
    strategy. *)
Definition after_success_then_failure (strategy : string)
  : MemoryManager.ProjectMemory :=
  MemoryManager.add_repair_result "issue-2" (repair_outcome strategy false)
    (after_success strategy).

(** The statement of the spec that the two rates are exactly 0.55 and 0.495. *)
Definition rates_are_exact (strategy : string) : Prop :=
  MemoryManager.success_rates (after_success strategy) !! strategy
  = Some 0.55%float
  /\ MemoryManager.success_rates (after_success_then_failure strategy) !! strategy
     = Some 0.495%float.

(** ** Further notions, for the properties of Part II's last sections *)

(** Every test case of the list is a unit test. *)
Definition all_unit (test_cases : list TestCase.t) : Prop :=
  Forall (fun t => TestCase.test_type t = TestType.UNIT) test_cases.

(** The number of function definitions in a walk. *)
Definition function_defs (walk : list External.ast_node) : nat :=
  length (List.filter External.is_FunctionDef walk).

(** A parser that reports a syntax error on every input; no path exists. *)
Definition env_syntax_error : External.t :=
  {| External.ast_parse :=
       fun _ => External.ParseError (Py.SyntaxError "invalid syntax");
     External.path_lookup := fun _ => External.NoSuchPath |}.

(** The counters of a [TestResults] are non-negative and add up to the
    number of details recorded. *)
Definition counted (r : TestResults.t) : Prop :=
  (TestResults.passed_tests r + TestResults.failed_tests r
   + TestResults.error_tests r
   = Z.of_nat (length (TestResults.test_details r)))%Z
  /\ (0 <= TestResults.passed_tests r)%Z
  /\ (0 <= TestResults.failed_tests r)%Z
  /\ (0 <= TestResults.error_tests r)%Z.

(** The issue [_identify_issues_from_tests] builds from a failed detail that
    holds no [error] entry. *)
Definition unknown_failure : AnalysisResult.t :=
  {| AnalysisResult.file_path := Some "generated";
     AnalysisResult.line_number := 0;
     AnalysisResult.issue_type := IssueType.LOGIC;
     AnalysisResult.severity := SeverityLevel.HIGH;
     AnalysisResult.description := "Test failed: Unknown error";
     AnalysisResult.suggestion := "Review and fix the failing test case";
     AnalysisResult.confidence := 0.7;
     AnalysisResult.rule_id := None;
     AnalysisResult.metadata := ∅;
     AnalysisResult.class := AnalysisResult.Base |}.

(** The text kept under [code_sample] by the generic test. *)
Definition code_sample_of (t : TestCase.t) : string :=
  match Dict.get "code_sample" (TestCase.input_data t) with
  | Some (PStr s) => s
  | _ => EmptyString
  end.

(** The issues the three line analyzers report for [code]. *)
Definition reported_issues (code : string) (file_path : option string)
  : list AnalysisResult.t :=
  SecurityAnalyzer.issues code file_path
  ++ QualityAnalyzer.issues code file_path
  ++ PerformanceAnalyzer.issues code file_path.

(** The detail records with status [failed]. *)
Definition failed_details (details : list dict) : list dict :=
  List.filter (TestRunner.status_is "failed") details.

(** A failed detail record holds no [error] entry. *)
Definition drops_error (detail : dict) : Prop :=
  TestRunner.status_is "failed" detail = true -> Dict.get "error" detail = None.

(** A long line with a to-do marker, 104 characters in all. *)
Definition long_line : string :=
  "x = 1  # TODO " +:+ Py.str_repeat "a"%char 90.

(** The agent's books: history, the two metrics and the name.  Logging
    leaves them as they are. *)
Definition same_books (before after : BaseAgent.t) : Prop :=
  BaseAgent.execution_history after = BaseAgent.execution_history before
  /\ BaseAgent.issues_found after = BaseAgent.issues_found before
  /\ BaseAgent.accuracy_rate after = BaseAgent.accuracy_rate before
  /\ BaseAgent.agent after = BaseAgent.agent before.

(** [context.get('file_path') if context else None], for a path that is a
    string. *)
Definition context_file_path (context : option dict) : option string :=
  match context with
  | Some c =>
      if Dict.truthy (PDict c)
      then match Dict.get "file_path" c with
           | Some (PStr p) => Some p
           | _ => None
           end
      else None
  | None => None
  end.

(** The code and the file path the static agent's [analyze] works on: the
    content of the file when [target] is an existing path that can be read,
    [target] itself when it is no existing path. *)
Definition analysis_source (env : External.t) (target : string)
  (context : option dict) : option (string * option string) :=
  match External.path_lookup env target with
  | External.NoSuchPath => Some (target, context_file_path context)
  | External.Readable content => Some (content, Some target)
  | External.Unreadable _ => None
  end.

(** Every path exists and none can be read. *)
Definition env_unreadable : External.t :=
  {| External.ast_parse := fun _ => External.Parsed [External.OtherNode];
     External.path_lookup := fun _ => External.Unreadable "Permission denied" |}.

(** The string holds no newline. *)
Fixpoint newline_free (s : string) : bool :=
  match s with
  | EmptyString => true
  | String c r => negb (Ascii.eqb c Py.nl) && newline_free r
  end.

(** An issue as a caller can build it for the security strategy, with the
    vulnerability type in the metadata, on line 1. *)
Definition credentials_issue : AnalysisResult.t :=
  {| AnalysisResult.file_path := None;
     AnalysisResult.line_number := 1;
     AnalysisResult.issue_type := IssueType.SECURITY;
     AnalysisResult.severity := SeverityLevel.HIGH;
     AnalysisResult.description := EmptyString;
     AnalysisResult.suggestion := EmptyString;
     AnalysisResult.confidence := 0.8;
     AnalysisResult.rule_id := None;
     AnalysisResult.metadata := {["vulnerability_type" := "hardcoded_credentials"]};
     AnalysisResult.class := AnalysisResult.Base |}.

(** The configuration [load_config] falls back to. *)
Definition default_config (w : ConfigManager.world) : AgentConfig.t :=
  AgentConfig.__post_init__ (ConfigManager.cwd w)
    (AgentConfig.defaults (ConfigManager.cwd w) "DebugAgent").

(** A process started in [/work] whose [config.json] holds the saved
    default configuration with the log level [DEBUG]. *)
Definition debug_config : AgentConfig.t :=
  with_log_level "DEBUG" (AgentConfig.defaults "/work" "DebugAgent").

Definition debug_world : ConfigManager.world :=
  {| ConfigManager.files :=
       {["config.json" := ConfigManager.JsonObject (AgentConfig.__dict__ debug_config)]};
     ConfigManager.cwd := "/work";
     ConfigManager.unwritable := ∅ |}.

(** A process whose [config.json] holds a name and a [NaN] as the timeout. *)
Definition nan_timeout_world : ConfigManager.world :=
  {| ConfigManager.files :=
       {["config.json" :=
           ConfigManager.JsonObject [("name", PStr "x"); ("timeout", PFloat nan)]]};
     ConfigManager.cwd := "/work";
     ConfigManager.unwritable := ∅ |}.

(** The weight of the keywords [_assess_potential_issue_severity] finds in
    the code, in tenths: two for each of the five high-severity keywords,
    one for each of the four medium-severity ones. *)
Definition severity_points (code : string) : nat :=
  let code_lower := Py.lower code in
  2 * length (List.filter (fun k => Py.contains k code_lower)
                ["password"; "secret"; "key"; "token"; "sql"])
  + length (List.filter (fun k => Py.contains k code_lower)
              ["todo"; "fixme"; "hack"; "temp"]).

(** The strategy chosen for a complexity level and a keyword weight. *)
Definition decision_table (level : ComplexityLevel.t) (points : nat) : Strategy.t :=
  match level with
  | ComplexityLevel.LOW =>
      if (points <=? 6)%nat then Strategy.STATIC_ONLY else Strategy.HYBRID
  | ComplexityLevel.MEDIUM =>
      if (points <=? 2)%nat then Strategy.STATIC_ONLY else Strategy.HYBRID
  | ComplexityLevel.HIGH =>
      if (points <=? 7)%nat then Strategy.TEST_DRIVEN_ONLY else Strategy.HYBRID
  | ComplexityLevel.VERY_HIGH => Strategy.TEST_DRIVEN_ONLY
  end.

(** The list is in the order [sort] gives: no entry has a key smaller than
    the key of an entry behind it. *)
Fixpoint ordered (entries : list LongTermMemory.MemoryEntry) : bool :=
  match entries with
  | [] => true
  | x :: rest =>
      forallb (fun y => negb (LongTermMemory.key_lt x y)) rest && ordered rest
  end.

(** The entry [add_analysis_result] stores for a file and an empty analysis
    result, which is shown as a pair of braces. *)
Definition analysis_entry (file_path : string) : LongTermMemory.MemoryEntry :=
  {| LongTermMemory.content := "Analysis of " +:+ file_path +:+ ": {}";
     LongTermMemory.type := "analysis";
     LongTermMemory.metadata :=
       [("file_path", PStr file_path); ("analysis_result", PDict [])];
     LongTermMemory.importance := 0.8;
     LongTermMemory.access_count := 0 |}.

(** A memory holding the entries of a hundred analyses of [a.py]. *)
Definition hundred_analyses : LongTermMemory.t :=
  {["analysis" := replicate 100 (analysis_entry "a.py")]}.

(** Settles the statement about [validate_config] once the name, the version
    and the log level are known, or known to differ from every level. *)
Ltac settle_validation :=
  cbn;
  split;
  [ split;
    [ intros; try discriminate; repeat split; try assumption; try discriminate
    | intros (? & ? & ?); try reflexivity; contradiction ]
  | first [ discriminate | intros; contradiction | intros _; repeat split; tauto ] ].

(** Evaluates the look-ups and updates of dictionaries whose keys are
    known. *)
Ltac evaluate_dicts :=
  repeat match goal with
         | |- context [Dict.get ?k ?d] =>
             let r := eval vm_compute in (Dict.get k d) in
             change (Dict.get k d) with r
         | |- context [Dict.set ?k ?v ?d] =>
             let r := eval vm_compute in (Dict.set k v d) in
             change (Dict.set k v d) with r
         end.

(** Case analysis on the two steps of [analyze] that may raise after the
    analyzers have run. *)
Ltac score_and_suggestions :=
  match goal with
  | |- context [StaticAnalysisAgent._calculate_overall_score ?r] =>
      destruct (StaticAnalysisAgent._calculate_overall_score r);
      cbn [Py.bind]; [|exact I]
  end;
  match goal with
  | |- context [StaticAnalysisAgent._generate_suggestions ?r] =>
      destruct (StaticAnalysisAgent._generate_suggestions r);
      cbn [Py.bind snd]; [|exact I]
  end.

(* ===================================================================== *)
(** * Part II: properties *)
(* ===================================================================== *)

(** ** Python runtime *)

Lemma split_nl_nonempty (s : string) : Py.split_nl s <> [].
Proof.
  induction s as [|c r IH]; simpl; [discriminate|].
  destruct (Ascii.eqb c Py.nl); [discriminate|].
  destruct (Py.split_nl r); discriminate.
Qed.

Lemma enumerate_lookup {A} (l : list A) (start i : Z) (x : A) :
  In (i, x) (Py.enumerate start l) ->
  (start <= i < start + Z.of_nat (length l))%Z /\ l !! Z.to_nat (i - start) = Some x.
Proof.
  revert start. induction l as [|y l IH]; intros start; simpl; [tauto|].
  intros [Heq | Hin].
  - inversion Heq; subst. split; [lia|].
    replace (i - i)%Z with 0%Z by lia. reflexivity.
  - destruct (IH _ Hin) as [Hr Hl]. split; [lia|].
    replace (Z.to_nat (i - start)) with (S (Z.to_nat (i - (start + 1)))) by lia.
    exact Hl.
Qed.

Lemma getitem_in_range {A} (l : list A) (n : Z) :
  (1 <= n <= Z.of_nat (length l))%Z ->
  Py.getitem l (n - 1) = l !! Z.to_nat (n - 1) /\ is_Some (l !! Z.to_nat (n - 1)).
Proof.
  intros Hn. unfold Py.getitem.
  assert (Hlt : (Z.to_nat (n - 1) < length l)%nat) by lia.
  replace (0 <=? n - 1)%Z with true by (symmetry; apply Z.leb_le; lia).
  replace (n - 1 <? Z.of_nat (length l))%Z with true
    by (symmetry; apply Z.ltb_lt; lia).
  split; [reflexivity|]. by apply lookup_lt_is_Some_2.
Qed.

Lemma line_at_in_range (lines : list string) (n : Z) :
  (1 <= n <= Z.of_nat (length lines))%Z ->
  exists l, line_at lines n = Py.Ok l.
Proof.
  intros Hn. unfold line_at.
  destruct (getitem_in_range lines n Hn) as [-> [l ->]]. by exists l.
Qed.

(** ** The overall score *)

Lemma add_penalties_penalty (k : Z) (issues : list AnalysisResult.t) (t : Z) :
  StaticAnalysisAgent.add_penalties k issues t = (t + penalty k issues)%Z.
Proof.
  revert t. induction issues as [|i l IH]; intros t; simpl.
  - unfold StaticAnalysisAgent.add_penalties. simpl. lia.
  - unfold StaticAnalysisAgent.add_penalties in *. simpl. rewrite IH. lia.
Qed.

Lemma issue_records_map (l : list AnalysisResult.t) :
  StaticAnalysisAgent.issue_records (map PIssue l) = Py.Ok l.
Proof.
  induction l as [|i l IH]; simpl; [reflexivity|]. by rewrite IH.
Qed.

Lemma issues_at_list (k : string) (results : dict) (l : list AnalysisResult.t) :
  Dict.get k results = Some (PList (map PIssue l)) ->
  StaticAnalysisAgent.issues_at k results = Py.Ok l.
Proof.
  intros H. unfold StaticAnalysisAgent.issues_at, Dict.subscript.
  rewrite H. simpl. apply issue_records_map.
Qed.

(** C3. The overall score is [max(0, 100 - total penalty)], where the
    penalty adds severity weight (low 1, medium 2, high 3, critical 5) times
    category weight (security 5, quality 2, performance 3) over all issues;
    the score is an integer, which rounding to two decimals leaves as it is.
    With exactly one high-severity security issue and no quality or
    performance issue the score is 85. *)
Theorem overall_score_formula (results : dict)
  (security_issues quality_issues performance_issues : list AnalysisResult.t) :
  Dict.get "security_issues" results = Some (PList (map PIssue security_issues)) ->
  Dict.get "quality_issues" results = Some (PList (map PIssue quality_issues)) ->
  Dict.get "performance_issues" results
  = Some (PList (map PIssue performance_issues)) ->
  StaticAnalysisAgent._calculate_overall_score results
  = Py.Ok (Z.max 0 (100 - (penalty 5 security_issues + penalty 2 quality_issues
                           + penalty 3 performance_issues)))
  /\ map StaticAnalysisAgent.severity_weights
       [SeverityLevel.LOW; SeverityLevel.MEDIUM; SeverityLevel.HIGH;
        SeverityLevel.CRITICAL] = [1; 2; 3; 5]%Z
  /\ (forall issue,
        security_issues = [issue] ->
        AnalysisResult.severity issue = SeverityLevel.HIGH ->
        quality_issues = [] -> performance_issues = [] ->
        StaticAnalysisAgent._calculate_overall_score results = Py.Ok 85%Z).
Proof.
  intros Hsec Hqual Hperf.
  assert (Hscore : StaticAnalysisAgent._calculate_overall_score results
                   = Py.Ok (Z.max 0 (100 - (penalty 5 security_issues
                                            + penalty 2 quality_issues
                                            + penalty 3 performance_issues)))).
  { unfold StaticAnalysisAgent._calculate_overall_score,
      StaticAnalysisAgent.round2.
    rewrite (issues_at_list _ _ _ Hsec), (issues_at_list _ _ _ Hqual),
      (issues_at_list _ _ _ Hperf). simpl.
    rewrite !add_penalties_penalty. do 2 f_equal; lia. }
  split; [exact Hscore|]. split; [reflexivity|].
  intros issue -> Hsev -> ->.
  rewrite Hscore. simpl. rewrite Hsev. reflexivity.
Qed.

Lemma overall_score_formula_witness :
  StaticAnalysisAgent._calculate_overall_score one_high_security_issue
  = Py.Ok 85%Z.
Proof.
  apply (proj2 (proj2 (overall_score_formula one_high_security_issue
                         [SecurityAnalyzer.hardcoded_credentials None 1] [] []
                         eq_refl eq_refl eq_refl))
           (SecurityAnalyzer.hardcoded_credentials None 1));
    reflexivity.
Defined.

(** ** The analyzers on the hardcoded password sample *)

(** C4. On [password = "admin123"] the security analyzer reports exactly one
    issue, of severity high, confidence 0.8 and vulnerability type
    [hardcoded_credentials]; the quality and performance analyzers report
    none. *)
Theorem hardcoded_password_detected (file_path : option string) :
  (exists issue,
     SecurityAnalyzer.issues password_sample file_path = [issue]
     /\ AnalysisResult.severity issue = SeverityLevel.HIGH
     /\ AnalysisResult.confidence issue = 0.8%float
     /\ AnalysisResult.vulnerability_type issue = Some "hardcoded_credentials")
  /\ QualityAnalyzer.issues password_sample file_path = []
  /\ PerformanceAnalyzer.issues password_sample file_path = [].
Proof.
  split; [|split; reflexivity].
  exists (SecurityAnalyzer.hardcoded_credentials file_path 1).
  repeat split; reflexivity.
Qed.

(** ** Line numbers of emitted issues *)

Lemma security_check_line_number fp i line issue :
  In issue (SecurityAnalyzer.check_line fp i line) ->
  AnalysisResult.line_number issue = i.
Proof.
  unfold SecurityAnalyzer.check_line. intros H.
  apply in_app_or in H as [H | H];
    repeat match type of H with
           | In _ (if ?b then _ else _) => destruct b
           end; simpl in H; try tauto;
    destruct H as [<- | []]; reflexivity.
Qed.

Lemma quality_check_line_number fp i line issue :
  In issue (QualityAnalyzer.check_line fp i line) ->
  AnalysisResult.line_number issue = i.
Proof.
  unfold QualityAnalyzer.check_line. intros H.
  apply in_app_or in H as [H | H];
    repeat match type of H with
           | In _ (if ?b then _ else _) => destruct b
           end; simpl in H; try tauto;
    destruct H as [<- | []]; reflexivity.
Qed.

Lemma performance_check_line_number fp i line issue :
  In issue (PerformanceAnalyzer.check_line fp i line) ->
  AnalysisResult.line_number issue = i.
Proof.
  unfold PerformanceAnalyzer.check_line. intros H.
  repeat match type of H with
         | In _ (if ?b then _ else _) => destruct b
         end; simpl in H; try tauto;
    destruct H as [<- | []]; reflexivity.
Qed.

Lemma enumerated_line_number
  (check : Z -> string -> list AnalysisResult.t) (code : string) issue :
  (forall i line x, In x (check i line) -> AnalysisResult.line_number x = i) ->
  In issue (flat_map (fun '(i, line) => check i line)
              (Py.enumerate 1 (Py.split_nl code))) ->
  (1 <= AnalysisResult.line_number issue
   <= Z.of_nat (length (Py.split_nl code)))%Z.
Proof.
  intros Hcheck Hin. apply in_flat_map in Hin as [[i line] [Henum Hissue]].
  apply Hcheck in Hissue. apply enumerate_lookup in Henum as [Hrange _]. lia.
Qed.

(** C10. Every issue emitted by the security, quality and performance
    analyzers has a line number between 1 and the number of lines of the
    analyzed code, so [lines[line_number - 1]] is in bounds. *)
Theorem analyzer_line_numbers_in_bounds
  (code : string) (file_path : option string) (issue : AnalysisResult.t) :
  In issue (SecurityAnalyzer.issues code file_path
            ++ QualityAnalyzer.issues code file_path
            ++ PerformanceAnalyzer.issues code file_path) ->
  (1 <= AnalysisResult.line_number issue
   <= Z.of_nat (length (Py.split_nl code)))%Z
  /\ exists line,
       line_at (Py.split_nl code) (AnalysisResult.line_number issue) = Py.Ok line.
Proof.
  intros Hin.
  assert (Hrange : (1 <= AnalysisResult.line_number issue
                    <= Z.of_nat (length (Py.split_nl code)))%Z).
  { apply in_app_or in Hin as [H | H]; [|apply in_app_or in H as [H | H]].
    - apply (enumerated_line_number (SecurityAnalyzer.check_line file_path)); [|exact H].
      intros; by eapply security_check_line_number.
    - apply (enumerated_line_number (QualityAnalyzer.check_line file_path)); [|exact H].
      intros; by eapply quality_check_line_number.
    - apply (enumerated_line_number (PerformanceAnalyzer.check_line file_path)); [|exact H].
      intros; by eapply performance_check_line_number. }
  split; [exact Hrange|]. by apply line_at_in_range.
Qed.

Lemma analyzer_line_numbers_in_bounds_witness :
  (1 <= 1 <= Z.of_nat (length (Py.split_nl password_sample)))%Z
  /\ exists line, line_at (Py.split_nl password_sample) 1 = Py.Ok line.
Proof.
  apply (analyzer_line_numbers_in_bounds password_sample None
           (SecurityAnalyzer.hardcoded_credentials None 1)).
  vm_compute. left. reflexivity.
Defined.

(** ** Repair strategies on issues they do not recognize *)

Lemma strategy_names (name : string) repair :
  TestDrivenRepairAgent.repair_strategies name = Some repair ->
  (name = "security" /\ repair = SecurityRepairStrategy.repair)
  \/ (name = "quality" /\ repair = QualityRepairStrategy.repair)
  \/ (name = "performance" /\ repair = PerformanceRepairStrategy.repair)
  \/ (name = "logic" /\ repair = LogicRepairStrategy.repair).
Proof.
  unfold TestDrivenRepairAgent.repair_strategies.
  destruct (String.eqb_spec name "security") as [->|_];
    [intros [= <-]; tauto|].
  destruct (String.eqb_spec name "quality") as [->|_];
    [intros [= <-]; tauto|].
  destruct (String.eqb_spec name "performance") as [->|_];
    [intros [= <-]; tauto|].
  destruct (String.eqb_spec name "logic") as [->|_];
    [intros [= <-]; tauto|].
  discriminate.
Qed.

(** C5. Each of the four registered repair strategies, given an issue that
    does not engage it and whose line number addresses a line of the code,
    returns a result with [success = false] and [repaired_code] equal to the
    input code. *)
Theorem unrecognized_issue_leaves_code
  (name : string) (repair : string -> AnalysisResult.t -> Py.result RepairResult.t)
  (code : string) (issue : AnalysisResult.t) :
  TestDrivenRepairAgent.repair_strategies name = Some repair ->
  (1 <= AnalysisResult.line_number issue
   <= Z.of_nat (length (Py.split_nl code)))%Z ->
  engages name issue = false ->
  exists r, repair code issue = Py.Ok r
            /\ RepairResult.success r = false
            /\ RepairResult.repaired_code r = code.
Proof.
  intros Hname Hline Hengage.
  destruct (line_at_in_range _ _ Hline) as [line Hat].
  apply strategy_names in Hname
    as [[-> ->] | [[-> ->] | [[-> ->] | [-> ->]]]].
  - unfold SecurityRepairStrategy.repair. rewrite Hat. simpl.
    unfold engages in Hengage. simpl in Hengage.
    destruct (AnalysisResult.metadata issue !! "vulnerability_type") as [v|];
      simpl; [rewrite Hengage|]; eexists; repeat split; reflexivity.
  - unfold QualityRepairStrategy.repair. rewrite Hat. simpl.
    unfold engages in Hengage. simpl in Hengage.
    unfold AnalysisResult.quality_metric.
    destruct (AnalysisResult.class issue); try rewrite Hengage;
      eexists; repeat split; reflexivity.
  - unfold PerformanceRepairStrategy.repair. rewrite Hat. simpl.
    unfold engages in Hengage. simpl in Hengage.
    destruct (AnalysisResult.metadata issue !! "performance_metric") as [v|];
      simpl; [rewrite Hengage|]; eexists; repeat split; reflexivity.
  - eexists; repeat split; reflexivity.
Qed.

Lemma unrecognized_issue_leaves_code_witness :
  exists r, SecurityRepairStrategy.repair password_sample
              (plain_issue IssueType.SECURITY) = Py.Ok r
            /\ RepairResult.success r = false
            /\ RepairResult.repaired_code r = password_sample.
Proof.
  apply (unrecognized_issue_leaves_code "security").
  - reflexivity.
  - vm_compute. split; discriminate.
  - reflexivity.
Defined.

(** ** The repair loop *)

Lemma repair_loop_from (issues : list AnalysisResult.t) (code : string)
  (results : list RepairResult.t) (warnings : list BaseAgent.log_record) :
  (fold_left TestDrivenRepairAgent.repair_step issues
     (code, results, warnings)).1.2
  = results ++ filter succeeded (attempts code issues)
  /\ (fold_left TestDrivenRepairAgent.repair_step issues
        (code, results, warnings)).1.1
     = default code
         (last (map RepairResult.repaired_code
                  (filter succeeded (attempts code issues)))).
Proof.
  revert code results warnings.
  induction issues as [|issue rest IH]; intros code results warnings.
  - simpl. by rewrite app_nil_r.
  - cbn [fold_left attempts].
    unfold TestDrivenRepairAgent.repair_step at 2 4.
    destruct (TestDrivenRepairAgent._repair_issue code issue) as [r w] eqn:Hr.
    cbn [fst]. destruct (RepairResult.success r) eqn:Hs.
    + destruct (IH (RepairResult.repaired_code r) (results ++ [r]) (warnings ++ w))
        as [IH1 IH2].
      rewrite filter_cons_True by exact Hs. split.
      * rewrite IH1, <- app_assoc. reflexivity.
      * rewrite IH2. cbn [map].
        destruct (filter succeeded (attempts (RepairResult.repaired_code r) rest))
          as [|r' l]; [reflexivity|].
        cbn [map]. rewrite (last_cons (RepairResult.repaired_code r)).
        cbn [map]. rewrite last_cons.
        destruct (last (map RepairResult.repaired_code l)); reflexivity.
    + destruct (IH code results (warnings ++ w)) as [IH1 IH2].
      rewrite filter_cons_False by (unfold succeeded; congruence).
      split; assumption.
Qed.

(** C2, as the code has it. The loop accumulates exactly the successful
    attempts, in order; [current_code] ends as the repaired code of the last
    successful attempt, or as the input when none succeeded; and the
    confidence computed from the accumulated list is its mean confidence, 0
    when the list is empty. *)
Theorem repair_loop_accumulates_successes
  (code : string) (issues : list AnalysisResult.t) :
  let '(current_code, repair_results, _) :=
    TestDrivenRepairAgent.repair_loop code issues in
  repair_results = filter succeeded (attempts code issues)
  /\ current_code
     = default code (last (map RepairResult.repaired_code repair_results))
  /\ TestDrivenRepairAgent._calculate_repair_confidence repair_results
     = mean (map RepairResult.confidence repair_results).
Proof.
  pose proof (repair_loop_from issues code [] []) as H.
  unfold TestDrivenRepairAgent.repair_loop.
  destruct (fold_left TestDrivenRepairAgent.repair_step issues (code, [], []))
    as [[current_code repair_results] warnings].
  simpl in H. destruct H as [H1 H2]. subst repair_results.
  split; [reflexivity|]. split; [exact H2|].
  unfold TestDrivenRepairAgent._calculate_repair_confidence, mean.
  destruct (filter succeeded (attempts code issues)) as [|r l]; simpl;
    [reflexivity|].
  rewrite length_map. reflexivity.
Qed.

(** A failed attempt (the logic strategy never succeeds) is tried and not
    accumulated: the accumulated list is empty and the confidence is 0,
    where the one attempt has confidence 0.1. *)
Lemma failed_attempt_not_accumulated :
  ~ accumulates_every_attempt "x = 1" [plain_issue IssueType.LOGIC].
Proof.
  intros [H _]. vm_compute in H. discriminate H.
Qed.

(** ** The improvement metrics *)

Lemma calculate_improvement_raises (initial_results final_results : TestResults.t) :
  TestDrivenRepairAgent._calculate_improvement initial_results final_results
  = Py.Raise (Py.AttributeError
                "'TestResults' object has no attribute 'passed_results'").
Proof. reflexivity. Qed.

Lemma analyze_and_repair_try_raises (env : External.t)
  (self : TestDrivenRepairAgent.t) (code : string)
  (issues : option (list AnalysisResult.t)) :
  exists e s,
    TestDrivenRepairAgent.analyze_and_repair_try env self code issues
    = (Py.Raise e, s).
Proof.
  unfold TestDrivenRepairAgent.analyze_and_repair_try.
  destruct (TestGenerator.generate_tests env _ code) as [test_cases counter].
  match goal with
  | |- context [match ?i with None => _ | Some _ => _ end] =>
      destruct i as [l|] eqn:Hi
  end.
  - destruct (TestDrivenRepairAgent.repair_loop code l) as [[c rs] ws].
    rewrite calculate_improvement_raises. eauto.
  - eauto.
Qed.

Lemma handle_error_keys (b : BaseAgent.t) (e : Py.exception) (n : Z) (k : string) :
  Dict.mem k (BaseAgent.handle_error b e [("code_length", PInt n)]).1 = true ->
  In k ["error"; "success"; "agent"; "context"; "error_code"; "error_type"].
Proof.
  destruct e; unfold Dict.mem; simpl;
    repeat match goal with
           | |- context [String.eqb k ?s] =>
               destruct (String.eqb_spec k s) as [->|_]; [intros _; tauto|]
           end;
    discriminate.
Qed.

(** C1, on the code. No call of [analyze_and_repair] returns a map with an
    [improvement_metrics] entry: the reporting step reads the attribute
    [passed_results], which [TestResults] does not have, and the outer
    handler turns the [AttributeError] into the error map. *)
Theorem improvement_metrics_never_reported (env : External.t)
  (self : TestDrivenRepairAgent.t) (code : string)
  (issues : option (list AnalysisResult.t)) :
  Dict.mem "improvement_metrics"
    (TestDrivenRepairAgent.analyze_and_repair env self code issues).1 = false
  /\ Dict.get "success"
       (TestDrivenRepairAgent.analyze_and_repair env self code issues).1
     = Some (PBool false).
Proof.
  unfold TestDrivenRepairAgent.analyze_and_repair.
  destruct (analyze_and_repair_try_raises env
              (TestDrivenRepairAgent.with_base BaseAgent.start_execution self)
              code issues) as (e & s & ->).
  destruct e; split; reflexivity.
Qed.

(** ** The cap on generated tests *)


Lemma slice_to_nonneg {A} (l : list A) (n : Z) :
  (0 <= n)%Z -> Py.slice_to l n = take (Z.to_nat n) l.
Proof.
  intros Hn. unfold Py.slice_to, Py.clamp.
  replace (n <? 0)%Z with false by (symmetry; apply Z.ltb_ge; lia).
  destruct (Z.le_ge_cases n (Z.of_nat (length l))) as [Hle | Hge].
  - by rewrite Z.min_l.
  - rewrite Z.min_r by lia. rewrite Nat2Z.id.
    rewrite !take_ge by lia. reflexivity.
Qed.


Lemma generate_tests_is_take (env : External.t) (counter : Z) (code : string) :
  (TestGenerator.generate_tests env counter code).1
  = take 50 (TestGenerator.collect env counter code).1.
Proof.
  unfold TestGenerator.generate_tests.
  destruct (TestGenerator.collect env counter code) as [tests c]. simpl.
  change TestGenerator.max_tests with 50%Z.
  by rewrite slice_to_nonneg.
Qed.



(** ** The hybrid workflow on code without static issues *)

Section hybrid.
Variable env : External.t.

Lemma analyze_try_log (self : BaseAgent.t) (target : string)
  (context : option dict) :
  match StaticAnalysisAgent.analyze_try env self target context with
  | Py.Ok out => logs_at_most_an_error self out.2
  | Py.Raise _ => True
  end.
Proof.
  unfold StaticAnalysisAgent.analyze_try.
  destruct (External.path_lookup env target) eqn:Hpath; cbn [Py.bind fst snd].
  - destruct (negb (BaseAgent.validate_input target)); cbn [snd].
    + right. eexists. reflexivity.
    + score_and_suggestions. left. reflexivity.
  - unfold StaticAnalysisAgent._read_file. rewrite Hpath. cbn [Py.bind fst snd].
    destruct (negb (BaseAgent.validate_input content)); cbn [snd].
    + right. eexists. reflexivity.
    + score_and_suggestions. left. reflexivity.
  - unfold StaticAnalysisAgent._read_file. rewrite Hpath. cbn [Py.bind].
    exact I.
Qed.

(** One call of the static agent's [analyze] enters exactly one execution. *)
Lemma analyze_starts_once (self : BaseAgent.t) (target : string)
  (context : option dict) :
  executions_started (StaticAnalysisAgent.analyze env self target context).2
  = S (executions_started self).
Proof.
  unfold StaticAnalysisAgent.analyze, executions_started.
  pose proof (analyze_try_log (BaseAgent.start_execution self) target context)
    as Htry.
  destruct (StaticAnalysisAgent.analyze_try env
              (BaseAgent.start_execution self) target context)
    as [[r s]|e].
  - simpl in *.
    destruct Htry as [-> | [d ->]]; simpl;
      rewrite !List.filter_app; simpl; rewrite !length_app; simpl; lia.
  - destruct e; simpl; rewrite !List.filter_app; simpl;
      rewrite !length_app; simpl; lia.
Qed.

(** C6. When the static analysis of the input code reports no security,
    quality or performance issue, the hybrid workflow returns the input code
    as [final_code], no repair result and no final static result; the repair
    agent is left untouched and the static agent has run exactly once. *)
Theorem hybrid_without_issues
  (self : CoordinatorAgent.t) (context : AnalysisContext.t) :
  let code := AnalysisContext.code context in
  let first_pass :=
    StaticAnalysisAgent.analyze env (CoordinatorAgent.static_agent self) code
      (Some [("file_path", Dict.of_opt_str (AnalysisContext.file_path context))]) in
  static_issues first_pass.1 = [] ->
  let out := CoordinatorAgent._execute_hybrid_workflow env self context in
  Dict.get "final_code" out.1 = Some (PStr code)
  /\ Dict.get "repair_results" out.1 = Some PNone
  /\ Dict.get "static_analysis_results" out.1
     = Some (PDict [("initial", PDict first_pass.1); ("final", PNone)])
  /\ CoordinatorAgent.repair_agent out.2 = CoordinatorAgent.repair_agent self
  /\ CoordinatorAgent.static_agent out.2 = first_pass.2
  /\ executions_started (CoordinatorAgent.static_agent out.2)
     = S (executions_started (CoordinatorAgent.static_agent self)).
Proof.
  intros code first_pass Hnone out.
  assert (Hstarts : executions_started first_pass.2
                    = S (executions_started (CoordinatorAgent.static_agent self)))
    by apply analyze_starts_once.
  subst out. unfold CoordinatorAgent._execute_hybrid_workflow.
  fold code. fold first_pass.
  destruct first_pass as [static_result static]. simpl in Hnone, Hstarts.
  unfold static_issues in Hnone. rewrite Hnone.
  rewrite String.eqb_refl. simpl. repeat split; try reflexivity. exact Hstarts.
Qed.

End hybrid.

Lemma hybrid_without_issues_witness :
  Dict.get "final_code"
    (CoordinatorAgent._execute_hybrid_workflow env_plain CoordinatorAgent.init
       (context_of "x = 1")).1
  = Some (PStr "x = 1").
Proof.
  apply (hybrid_without_issues env_plain CoordinatorAgent.init (context_of "x = 1")).
  reflexivity.
Defined.

(** ** The configuration round trip *)

Lemma pyval_induction (P : pyval -> Prop) :
  P PNone ->
  (forall b, P (PBool b)) ->
  (forall z, P (PInt z)) ->
  (forall x, P (PFloat x)) ->
  (forall s, P (PStr s)) ->
  (forall l, Forall P l -> P (PList l)) ->
  (forall d, Forall (fun kv => P (snd kv)) d -> P (PDict d)) ->
  (forall i, P (PIssue i)) ->
  forall v, P v.
Proof.
  intros HNone HBool HInt HFloat HStr HList HDict HIssue.
  fix IH 1.
  intros [ | b | z | x | s | l | d | i];
    [exact HNone|apply HBool|apply HInt|apply HFloat|apply HStr| | |apply HIssue].
  - apply HList. revert l. fix IHl 1. intros [|v l]; constructor.
    + apply IH.
    + apply IHl.
  - apply HDict. revert d. fix IHd 1. intros [|[k v] d]; constructor.
    + apply IH.
    + apply IHd.
Qed.

Lemma get_in (k : string) (v : pyval) (d : dict) :
  Dict.get k d = Some v -> In (k, v) d.
Proof.
  induction d as [|[k' v'] d IH]; cbn [Dict.get]; [discriminate|].
  destruct (String.eqb_spec k k') as [->|Hk].
  - intros [= ->]. by left.
  - intros H. right. by apply IH.
Qed.

Lemma get_of_key (k : string) (d : dict) :
  In k (map fst d) -> exists v, Dict.get k d = Some v.
Proof.
  induction d as [|[k' v'] d IH]; cbn [map fst In Dict.get]; [tauto|].
  destruct (String.eqb_spec k k') as [->|Hk]; [by eexists|].
  intros [Hk'|Hin]; [congruence|]. by apply IH.
Qed.

Lemma existsb_eqb_in (k : string) (keys : list string) :
  existsb (String.eqb k) keys = true <-> In k keys.
Proof.
  rewrite existsb_exists. split.
  - intros (k' & Hin & Hk). apply String.eqb_eq in Hk. by subst.
  - intros Hin. exists k. split; [done|]. apply String.eqb_refl.
Qed.

Lemma get_of_distinct (k : string) (v : pyval) (d : dict) :
  Json.distinct (map fst d) = true -> In (k, v) d -> Dict.get k d = Some v.
Proof.
  induction d as [|[k' v'] d IH]; cbn [map fst Json.distinct In Dict.get];
    [tauto|].
  intros Hd. apply andb_prop in Hd as [Hfresh Hd].
  apply negb_true_iff in Hfresh.
  intros [[= -> ->]|Hin].
  - by rewrite String.eqb_refl.
  - destruct (String.eqb_spec k k') as [->|Hk]; [|by apply IH].
    exfalso. apply not_true_iff_false in Hfresh. apply Hfresh.
    apply existsb_eqb_in. by apply (in_map fst) in Hin.
Qed.

(** The attributes [__init__] stores are the keyword arguments when these
    name every field. *)
Lemma stored_attributes (defaults d : dict) :
  Json.distinct (map fst d) = true ->
  map fst defaults = map fst d ->
  map (fun field => (fst field, Dict.get_default (fst field) (snd field) d)) defaults
  = d.
Proof.
  revert defaults.
  induction d as [|[k v] d IH]; intros [|[k' v'] defaults]; cbn [map fst];
    try discriminate; [reflexivity|].
  intros Hd [= -> Hkeys]. cbn [Json.distinct] in Hd.
  apply andb_prop in Hd as [Hfresh Hd]. apply negb_true_iff in Hfresh.
  unfold Dict.get_default at 1. cbn [Dict.get snd]. rewrite String.eqb_refl.
  f_equal. etransitivity; [|exact (IH defaults Hd Hkeys)].
  apply map_ext_in. intros [k' w] Hin. cbn [fst snd]. f_equal.
  unfold Dict.get_default. cbn [Dict.get].
  destruct (String.eqb_spec k' k) as [->|Hk]; [|reflexivity].
  exfalso. apply not_true_iff_false in Hfresh. apply Hfresh.
  apply existsb_eqb_in. rewrite <- Hkeys. by apply (in_map fst) in Hin.
Qed.

Lemma find_nothing {A} (f : A -> bool) (l : list A) :
  (forall x, In x l -> f x = false) -> List.find f l = None.
Proof.
  induction l as [|x l IH]; cbn [List.find]; intros H; [reflexivity|].
  rewrite (H x) by (by left). apply IH. intros y Hy. apply H. by right.
Qed.

Lemma field_names_distinct : Json.distinct AgentConfig.field_names = true.
Proof. vm_compute. reflexivity. Qed.

Lemma init_of_instance (cwd : string) (config : dict) :
  has_the_fields config ->
  AgentConfig.Instance.__init__ cwd config
  = AgentConfig.Instance.__post_init__ cwd config.
Proof.
  unfold has_the_fields. intros Hfields. unfold AgentConfig.Instance.__init__.
  assert (Hfind : List.find
            (fun kv => negb (existsb (String.eqb (fst kv)) AgentConfig.field_names))
            config = None).
  { apply find_nothing. intros kv Hin. apply negb_false_iff.
    apply existsb_eqb_in. rewrite <- Hfields. by apply in_map. }
  rewrite Hfind.
  destruct (get_of_key "name" config) as [name Hname];
    [rewrite Hfields; by left|].
  rewrite Hname. f_equal. apply stored_attributes.
  - rewrite Hfields. apply field_names_distinct.
  - by rewrite Hfields.
Qed.

Lemma post_init_keeps (cwd : string) (config : dict) :
  meets_post_init config = true ->
  AgentConfig.Instance.__post_init__ cwd config = Py.Ok config.
Proof.
  unfold meets_post_init.
  destruct (Dict.get "working_directory" config) as [working_directory|] eqn:Edir;
    [|discriminate].
  destruct (Dict.get "log_level" config) as [log_level|] eqn:Elevel;
    [|discriminate].
  destruct (Dict.get "timeout" config) as [timeout|] eqn:Etimeout;
    [|discriminate].
  destruct (Dict.get "repair_confidence_threshold" config) as [threshold|]
    eqn:Ethreshold; [|discriminate].
  intros H. apply andb_prop in H as [H Hthreshold].
  apply andb_prop in H as [H Htimeout]. apply andb_prop in H as [Hdir Hlevel].
  destruct (AgentConfig.Instance.le_zero timeout) as [too_small|] eqn:Ele;
    [|discriminate].
  apply negb_true_iff in Htimeout. subst too_small.
  destruct (AgentConfig.Instance.within_unit_interval threshold) as [inside|]
    eqn:Einside; [|discriminate].
  subst inside.
  unfold AgentConfig.Instance.__post_init__, AgentConfig.Instance.getattr.
  cbv zeta. rewrite Edir. cbn [Py.bind]. rewrite Hdir, Elevel. cbn [Py.bind].
  rewrite Hlevel, Etimeout. cbn [Py.bind]. rewrite Ele. cbn [Py.bind].
  rewrite Ethreshold. cbn [Py.bind]. rewrite Einside. reflexivity.
Qed.

Lemma eq_same_value (v : pyval) :
  Json.serializable v = true -> Json.nan_free v = true -> Json.eq v v = true.
Proof.
  induction v as [ | b | z | x | s | l IH | d IH | i] using pyval_induction;
    cbn [Json.serializable Json.nan_free Json.eq Json.number Json.number_eq];
    intros Hs Hn; try done.
  - apply Z.eqb_refl.
  - apply Z.eqb_refl.
  - apply String.eqb_refl.
  - induction IH as [|v l Hv _ IHl]; [reflexivity|].
    cbn [forallb Json.all2] in *.
    apply andb_prop in Hs as [Hs1 Hs2]. apply andb_prop in Hn as [Hn1 Hn2].
    by rewrite Hv, IHl.
  - apply andb_prop in Hs as [Hkeys Hs]. rewrite Nat.eqb_refl. cbn [andb].
    apply forallb_forall. intros [k v] Hin. cbn [fst snd].
    rewrite (get_of_distinct k v d Hkeys Hin).
    rewrite Forall_forall in IH. apply (IH (k, v)).
    + by apply list_elem_of_In.
    + rewrite forallb_forall in Hs. apply (Hs (k, v) Hin).
    + rewrite forallb_forall in Hn. apply (Hn (k, v) Hin).
Qed.

Lemma instance_equals_itself (config : dict) :
  has_the_fields config ->
  Json.serializable (PDict config) = true ->
  Json.nan_free (PDict config) = true ->
  AgentConfig.Instance.__eq__ config config = true.
Proof.
  unfold has_the_fields. intros Hfields Hs Hn.
  unfold AgentConfig.Instance.__eq__. apply forallb_forall. intros k Hk.
  rewrite <- Hfields in Hk. destruct (get_of_key k config Hk) as [v Hv].
  rewrite Hv. apply get_in in Hv.
  cbn [Json.serializable Json.nan_free] in Hs, Hn.
  apply andb_prop in Hs as [_ Hs].
  rewrite forallb_forall in Hs. rewrite forallb_forall in Hn.
  apply eq_same_value; [apply (Hs (k, v) Hv)|apply (Hn (k, v) Hv)].
Qed.

Lemma save_writes (w : ConfigManager.world) (self : ConfigManager.t)
  (config : dict) :
  ConfigManager.writable w (ConfigManager.config_file self) = true ->
  Json.serializable (PDict config) = true ->
  ConfigManager.save_config w self config
  = (ConfigManager.written (ConfigManager.config_file self)
       (ConfigManager.JsonObject config) w,
     ConfigManager.cached config self).
Proof.
  intros Hw Hs. unfold ConfigManager.save_config. by rewrite Hw, Hs.
Qed.

Lemma load_instance (w : ConfigManager.world) (self : ConfigManager.t)
  (config : dict) :
  ConfigManager._config_cache self = None ->
  ConfigManager.files w !! ConfigManager.config_file self
  = Some (ConfigManager.JsonObject config) ->
  has_the_fields config ->
  meets_post_init config = true ->
  Json.serializable (PDict config) = true ->
  ConfigManager.load_config w self = (config, ConfigManager.cached config self).
Proof.
  intros Hcache Hfile Hfields Hmeets Hs. unfold ConfigManager.load_config.
  rewrite Hcache, Hfile, Hs, (init_of_instance _ _ Hfields).
  by rewrite (post_init_keeps _ _ Hmeets).
Qed.

(** C8, as the code has it. For an [AgentConfig] instance whose attributes
    meet the conditions of [__post_init__] (a truthy working directory, a
    valid log level, a timeout that is a number and not [<= 0], a confidence
    threshold that is a number in [0, 1]), whose values [json.dump] can write
    and hold no [NaN], and a configuration file that can be opened for
    writing, [save_config] followed by a cleared cache and [load_config]
    returns an instance with the same attribute values, which is equal to
    the saved one ([==]), field for field. *)
Theorem config_round_trip (w : ConfigManager.world) (self : ConfigManager.t)
  (config : dict) :
  has_the_fields config ->
  meets_post_init config = true ->
  Json.serializable (PDict config) = true ->
  Json.nan_free (PDict config) = true ->
  ConfigManager.writable w (ConfigManager.config_file self) = true ->
  save_then_load w self config = config
  /\ AgentConfig.Instance.__eq__ (save_then_load w self config) config = true.
Proof.
  intros Hfields Hmeets Hs Hn Hw.
  assert (Hloaded : save_then_load w self config = config).
  { unfold save_then_load. rewrite (save_writes _ _ _ Hw Hs).
    erewrite load_instance; [reflexivity|reflexivity| |done|done|done].
    unfold ConfigManager.written, ConfigManager.clear_cache.
    cbn [ConfigManager.files ConfigManager.config_file ConfigManager.cached].
    apply lookup_insert_eq. }
  split; [exact Hloaded|].
  rewrite Hloaded. by apply instance_equals_itself.
Qed.

Lemma config_round_trip_witness :
  save_then_load empty_world (ConfigManager.init None) debug_instance
  = debug_instance
  /\ AgentConfig.Instance.__eq__
       (save_then_load empty_world (ConfigManager.init None) debug_instance)
       debug_instance = true.
Proof.
  apply (config_round_trip empty_world (ConfigManager.init None) debug_instance).
  - reflexivity.
  - reflexivity.
  - vm_compute. reflexivity.
  - reflexivity.
  - vm_compute. reflexivity.
Defined.

(** Without the [save_config], the instance loaded in that process is the
    default one, not [debug_instance]. *)
Example load_without_save :
  (ConfigManager.load_config empty_world (ConfigManager.init None)).1
  = default_instance
  /\ default_instance <> debug_instance.
Proof. split; [vm_compute; reflexivity|]. intros H. vm_compute in H. discriminate H. Qed.

(** [update_config] with the threshold 1.5 saves and caches the instance
    [over_confident]: [setattr] does not run [__post_init__]. *)
Example update_config_keeps_threshold :
  Config.update_config empty_world (ConfigManager.init None)
    [("repair_confidence_threshold", PFloat 1.5)]
  = (ConfigManager.written "config.json" (ConfigManager.JsonObject over_confident)
       empty_world,
     ConfigManager.cached over_confident (ConfigManager.init None)).
Proof. vm_compute. reflexivity. Qed.

(** An instance whose threshold is 1.5 comes back with the threshold 0.7:
    the loaded instance is not equal to the saved one. *)
Lemma threshold_above_one_not_preserved :
  has_the_fields over_confident
  /\ Dict.get "repair_confidence_threshold"
       (save_then_load empty_world (ConfigManager.init None) over_confident)
     = Some (PFloat 0.7)
  /\ AgentConfig.Instance.__eq__
       (save_then_load empty_world (ConfigManager.init None) over_confident)
       over_confident = false.
Proof. split; [reflexivity|]. split; vm_compute; reflexivity. Qed.

(** A [NaN] comes back as a [NaN], and a [NaN] equals no float but the
    object it is: the loaded instance has the attribute values of the saved
    one and is not equal to it, unless the saved [NaN] is the very object
    [json.load] returns for every [NaN]. *)
Example nan_is_not_equal_after_round_trip :
  meets_post_init nan_instance = true
  /\ save_then_load empty_world (ConfigManager.init None) nan_instance
     = nan_instance
  /\ AgentConfig.Instance.__eq__
       (save_then_load empty_world (ConfigManager.init None) nan_instance)
       nan_instance = false.
Proof. split; [reflexivity|]. split; vm_compute; reflexivity. Qed.

(** When the file cannot be opened for writing, nothing is saved: the
    instance loaded afterwards is the default one. *)
Example unwritable_file_is_not_saved :
  save_then_load read_only_world (ConfigManager.init None) debug_instance
  = default_instance.
Proof. vm_compute. reflexivity. Qed.

(** ** The success-rate moving average *)

(** C9, as the code has it. [add_repair_result] sets the strategy's rate to
    [0.9 * old + 0.1 * (1 if success else 0)], where [old] is the recorded
    rate or the seed 0.5, and leaves the other strategies' rates as they
    were.  From the seed one success gives 0.55; a failure after it gives
    the binary64 value of [0.55 * 0.9], which is 0.49500000000000005 and is
    within 1e-16 of 0.495. *)
Theorem success_rate_moving_average :
  (forall issue_id repair_result m,
     let strategy := MemoryManager.strategy_of repair_result in
     let success :=
       Dict.truthy (Dict.get_default "success" (PBool false) repair_result) in
     let m' := MemoryManager.add_repair_result issue_id repair_result m in
     MemoryManager.success_rates m' !! strategy
     = Some (MemoryManager.new_rate
               (default 0.5%float (MemoryManager.success_rates m !! strategy))
               success)
     /\ forall other, other <> strategy ->
          MemoryManager.success_rates m' !! other
          = MemoryManager.success_rates m !! other)
  /\ (forall strategy,
        MemoryManager.success_rates (after_success strategy) !! strategy
        = Some 0.55%float
        /\ MemoryManager.success_rates (after_success_then_failure strategy) !! strategy
           = Some 0.49500000000000005%float)
  /\ PrimFloat.ltb (PrimFloat.abs (0.49500000000000005 - 0.495)) 1e-16 = true.
Proof.
  split; [|split].
  - intros issue_id repair_result m strategy success m'. subst m'.
    unfold MemoryManager.add_repair_result. simpl. fold strategy. split.
    + by rewrite lookup_insert_eq.
    + intros other Hne. by rewrite lookup_insert_ne.
  - intros strategy.
    unfold after_success_then_failure, after_success,
      MemoryManager.add_repair_result, MemoryManager.strategy_of; simpl.
    rewrite !lookup_insert_eq. simpl. split; reflexivity.
  - reflexivity.
Qed.

(** The rate after a success and a failure is not the binary64 value of
    0.495. *)
Lemma second_rate_is_not_0_495 : ~ rates_are_exact "security_replacement".
Proof.
  intros [_ H]. vm_compute in H. discriminate H.
Qed.

(** ** The model on concrete inputs *)

(** An issue as a caller can build it for the security strategy: the
    vulnerability type in the metadata. *)
Example security_repair_rewrites_the_literal :
  let issue :=
    {| AnalysisResult.file_path := None;
       AnalysisResult.line_number := 1;
       AnalysisResult.issue_type := IssueType.SECURITY;
       AnalysisResult.severity := SeverityLevel.HIGH;
       AnalysisResult.description := EmptyString;
       AnalysisResult.suggestion := EmptyString;
       AnalysisResult.confidence := 0.8;
       AnalysisResult.rule_id := None;
       AnalysisResult.metadata := {["vulnerability_type" := "hardcoded_credentials"]};
       AnalysisResult.class := AnalysisResult.Base |} in
  exists r,
    SecurityRepairStrategy.repair password_sample issue = Py.Ok r
    /\ RepairResult.success r = true
    /\ RepairResult.repaired_code r = "password = " +:+ Re.getenv_password.
Proof. eexists. repeat split; reflexivity. Qed.

(** The issue the security analyzer emits keeps the vulnerability type in a
    field and has no metadata, so the security strategy does not engage. *)
Example analyzer_issue_does_not_engage :
  engages "security" (SecurityAnalyzer.hardcoded_credentials None 1) = false.
Proof. reflexivity. Qed.

(** A line number past the last line: the strategy raises [IndexError],
    which [_repair_issue] turns into a failed result and a warning. *)
Example out_of_range_line :
  let issue := SecurityAnalyzer.hardcoded_credentials None 2 in
  SecurityRepairStrategy.repair password_sample issue = Py.Raise index_error
  /\ RepairResult.success
       (TestDrivenRepairAgent._repair_issue password_sample issue).1 = false
  /\ RepairResult.repaired_code
       (TestDrivenRepairAgent._repair_issue password_sample issue).1
     = password_sample.
Proof. repeat split; reflexivity. Qed.

(** The static agent on the password sample: one issue, score 85. *)
Example static_analysis_of_password_sample :
  let result :=
    (StaticAnalysisAgent.analyze env_plain (BaseAgent.init "StaticAnalysisAgent")
       password_sample None).1 in
  Dict.issues "security_issues" result
  = [SecurityAnalyzer.hardcoded_credentials None 1]
  /\ Dict.get "overall_score" result = Some (PInt 85).
Proof. split; reflexivity. Qed.

(** The repair agent on a one-line assignment with an empty issue list: the
    error map of the outer handler. *)
Example analyze_and_repair_on_assignment :
  (TestDrivenRepairAgent.analyze_and_repair env_plain TestDrivenRepairAgent.init
     "x = 1" (Some [])).1
  = [ ("error", PStr "'TestResults' object has no attribute 'passed_results'");
      ("success", PBool false);
      ("agent", PStr "TestDrivenRepairAgent");
      ("context", PDict [("code_length", PInt 5)]) ].
Proof. reflexivity. Qed.

(* ===================================================================== *)
(** * Part III: further properties of the code *)
(* ===================================================================== *)

(** ** The test runner *)

Section runner.
Variable env : External.t.

Lemma step_counted (code : string) (acc : TestResults.t) (t : TestCase.t) :
  counted acc -> counted (TestRunner.step env code acc t).
Proof.
  unfold counted, TestRunner.step. intros (Hsum & Hp & Hf & He). simpl.
  rewrite length_app. simpl.
  destruct (TestRunner.status_is "passed" _); simpl;
    [|destruct (TestRunner.status_is "failed" _); simpl]; lia.
Qed.

Lemma fold_step_counted (code : string) (tests : list TestCase.t)
  (acc : TestResults.t) :
  counted acc ->
  let r := fold_left (TestRunner.step env code) tests acc in
  counted r
  /\ TestResults.total_tests r = TestResults.total_tests acc
  /\ length (TestResults.test_details r)
     = (length (TestResults.test_details acc) + length tests)%nat.
Proof.
  revert acc. induction tests as [|t tests IH]; intros acc Hacc; simpl.
  - repeat split; try apply Hacc. lia.
  - destruct (IH (TestRunner.step env code acc t) (step_counted code acc t Hacc))
      as (Hc & Ht & Hl).
    split; [exact Hc|]. split; [rewrite Ht; reflexivity|].
    rewrite Hl. unfold TestRunner.step. simpl. rewrite length_app. simpl. lia.
Qed.

Lemma run_tests_total (test_cases : list TestCase.t) (code : string) :
  TestResults.total_tests (TestRunner.run_tests env test_cases code)
  = Z.of_nat (length test_cases).
Proof.
  unfold TestRunner.run_tests.
  match goal with
  | |- context [fold_left _ _ ?a] =>
      assert (Hinit : counted a) by (unfold counted; simpl; lia);
      destruct (fold_step_counted code test_cases a Hinit) as (_ & Ht & _)
  end.
  rewrite Ht. reflexivity.
Qed.

(** X1. [run_tests] keeps the books: the total is the number of test cases,
    there is one detail record per test case, and passed, failed and error
    counts are non-negative and add up to the total. *)
Theorem run_tests_counts (test_cases : list TestCase.t) (code : string) :
  let r := TestRunner.run_tests env test_cases code in
  TestResults.total_tests r = Z.of_nat (length test_cases)
  /\ length (TestResults.test_details r) = length test_cases
  /\ (TestResults.passed_tests r + TestResults.failed_tests r
      + TestResults.error_tests r = TestResults.total_tests r)%Z
  /\ (0 <= TestResults.passed_tests r)%Z
  /\ (0 <= TestResults.failed_tests r)%Z
  /\ (0 <= TestResults.error_tests r)%Z.
Proof.
  unfold TestRunner.run_tests.
  match goal with
  | |- context [fold_left _ _ ?a] =>
      assert (Hinit : counted a) by (unfold counted; simpl; lia);
      destruct (fold_step_counted code test_cases a Hinit)
        as ((Hsum & Hp & Hf & He) & Ht & Hl)
  end.
  simpl in Ht, Hl. cbv zeta. rewrite Ht. split; [reflexivity|].
  split; [exact Hl|]. rewrite Hsum, Hl. repeat split; assumption.
Qed.

(** What one test adds to the counters, when every test of the list ends
    with the same status. *)
Lemma fold_step_uniform (code : string) (passed failed : bool)
  (tests : list TestCase.t) (acc : TestResults.t) :
  Forall (fun t =>
            TestRunner.status_is "passed" (TestRunner._run_single_test env t code)
            = passed
            /\ TestRunner.status_is "failed" (TestRunner._run_single_test env t code)
               = failed) tests ->
  let r := fold_left (TestRunner.step env code) tests acc in
  let n := Z.of_nat (length tests) in
  TestResults.passed_tests r
  = (TestResults.passed_tests acc + if passed then n else 0)%Z
  /\ TestResults.failed_tests r
     = (TestResults.failed_tests acc
        + if passed then 0 else if failed then n else 0)%Z
  /\ TestResults.error_tests r
     = (TestResults.error_tests acc + if passed || failed then 0 else n)%Z.
Proof.
  revert acc. induction tests as [|t tests IH]; intros acc Hall.
  - simpl. destruct passed, failed; simpl; repeat split; lia.
  - apply Forall_cons in Hall as [[Hp Hf] Hall].
    cbn [fold_left]. destruct (IH (TestRunner.step env code acc t) Hall)
      as (H1 & H2 & H3).
    cbv zeta. rewrite H1, H2, H3. unfold TestRunner.step. simpl.
    rewrite Hp, Hf.
    replace (Z.of_nat (S (length tests))) with (Z.of_nat (length tests) + 1)%Z
      by lia.
    destruct passed, failed; simpl; repeat split; lia.
Qed.

Lemma single_test_parsed (t : TestCase.t) (code : string) walk :
  External.ast_parse env code = External.Parsed walk ->
  TestRunner.status_is "passed" (TestRunner._run_single_test env t code) = true.
Proof.
  intros Hparse. unfold TestRunner._run_single_test, TestRunner._execute_unit_test.
  rewrite Hparse. destruct (TestCase.test_type t); reflexivity.
Qed.

Lemma single_test_syntax_error (t : TestCase.t) (code : string) m :
  External.ast_parse env code = External.ParseError (Py.SyntaxError m) ->
  TestCase.test_type t = TestType.UNIT ->
  TestRunner.status_is "passed" (TestRunner._run_single_test env t code) = false
  /\ TestRunner.status_is "failed" (TestRunner._run_single_test env t code) = true.
Proof.
  intros Hparse Hunit.
  unfold TestRunner._run_single_test, TestRunner._execute_unit_test.
  rewrite Hparse, Hunit. split; reflexivity.
Qed.

Lemma run_tests_parsed (test_cases : list TestCase.t) (code : string) walk :
  External.ast_parse env code = External.Parsed walk ->
  let r := TestRunner.run_tests env test_cases code in
  TestResults.passed_tests r = Z.of_nat (length test_cases)
  /\ TestResults.failed_tests r = 0%Z /\ TestResults.error_tests r = 0%Z.
Proof.
  intros Hparse. unfold TestRunner.run_tests.
  match goal with
  | |- context [fold_left _ _ ?a] =>
      destruct (fold_step_uniform code true false test_cases a) as (H1 & H2 & H3)
  end.
  { apply Forall_forall. intros t _. split; [by eapply single_test_parsed|].
    unfold TestRunner._run_single_test, TestRunner._execute_unit_test.
    rewrite Hparse. destruct (TestCase.test_type t); reflexivity. }
  simpl in H1, H2, H3. cbv zeta. rewrite H1, H2, H3. repeat split; lia.
Qed.

Lemma run_tests_syntax_error (test_cases : list TestCase.t) (code : string) m :
  External.ast_parse env code = External.ParseError (Py.SyntaxError m) ->
  all_unit test_cases ->
  let r := TestRunner.run_tests env test_cases code in
  TestResults.failed_tests r = Z.of_nat (length test_cases)
  /\ TestResults.passed_tests r = 0%Z /\ TestResults.error_tests r = 0%Z.
Proof.
  intros Hparse Hunit. unfold TestRunner.run_tests.
  match goal with
  | |- context [fold_left _ _ ?a] =>
      destruct (fold_step_uniform code false true test_cases a) as (H1 & H2 & H3)
  end.
  { unfold all_unit in Hunit. eapply Forall_impl; [exact Hunit|].
    intros t Ht. simpl in Ht. by eapply single_test_syntax_error. }
  simpl in H1, H2, H3. cbv zeta. rewrite H1, H2, H3. repeat split; lia.
Qed.

(** X2. The runner only asks whether the code parses.  When it does, every
    test passes, whatever the test; when [ast.parse] raises a
    [SyntaxError], every unit test fails. *)
Theorem run_tests_follow_the_parser (test_cases : list TestCase.t) (code : string) :
  let r := TestRunner.run_tests env test_cases code in
  (forall walk,
     External.ast_parse env code = External.Parsed walk ->
     TestResults.passed_tests r = Z.of_nat (length test_cases)
     /\ TestResults.failed_tests r = 0%Z /\ TestResults.error_tests r = 0%Z)
  /\ (forall m,
        External.ast_parse env code = External.ParseError (Py.SyntaxError m) ->
        all_unit test_cases ->
        TestResults.failed_tests r = Z.of_nat (length test_cases)
        /\ TestResults.passed_tests r = 0%Z /\ TestResults.error_tests r = 0%Z).
Proof.
  intros r. split.
  - intros walk Hparse. exact (run_tests_parsed test_cases code walk Hparse).
  - intros m Hparse Hunit.
    exact (run_tests_syntax_error test_cases code m Hparse Hunit).
Qed.

End runner.

Lemma run_tests_follow_the_parser_witness :
  TestResults.failed_tests
    (TestRunner.run_tests env_syntax_error
       (TestGenerator.generate_tests env_syntax_error 0 "def f(:").1 "def f(:")
  = 1%Z.
Proof.
  apply (proj2 (run_tests_follow_the_parser env_syntax_error
                  (TestGenerator.generate_tests env_syntax_error 0 "def f(:").1
                  "def f(:") "invalid syntax").
  - reflexivity.
  - repeat constructor.
Defined.

(** ** The test generator *)

Lemma str_take_length (n : nat) (s : string) :
  (String.length (Py.str_take n s) <= n)%nat.
Proof.
  revert s. induction n as [|n IH]; intros s; simpl; [lia|].
  destruct s as [|c r]; simpl; [lia|]. specialize (IH r). lia.
Qed.

Lemma string_length_append (a b : string) :
  String.length (a +:+ b) = (String.length a + String.length b)%nat.
Proof. induction a as [|c a IH]; simpl; [reflexivity|]. by rewrite IH. Qed.

Section generator.
Variable env : External.t.

Lemma generic_test_generated
  (test_counter : Z) (code : string) (e : Py.exception) :
  External.ast_parse env code = External.ParseError e ->
  TestGenerator.generate_tests env test_counter code
  = ([(TestGenerator._generate_generic_test test_counter code).1],
     (test_counter + 1)%Z).
Proof.
  intros Hparse.
  unfold TestGenerator.generate_tests, TestGenerator.collect. rewrite Hparse.
  reflexivity.
Qed.

(** X3. Code that [ast.parse] rejects gets exactly one test, the generic
    one: a unit test from the template, whose code sample is the code itself
    when it has at most 100 characters and never has more than 103; the
    counter moves on by one. *)
Theorem unparseable_code_gets_one_generic_test
  (test_counter : Z) (code : string) (e : Py.exception) :
  External.ast_parse env code = External.ParseError e ->
  exists t,
    TestGenerator.generate_tests env test_counter code = ([t], (test_counter + 1)%Z)
    /\ TestCase.generated_by t = "template"
    /\ TestCase.test_type t = TestType.UNIT
    /\ TestCase.id t = "generic_test_" +:+ Py.str_of_Z (test_counter + 1)
    /\ (String.length (code_sample_of t) <= 103)%nat
    /\ ((String.length code <= 100)%nat -> code_sample_of t = code).
Proof.
  intros Hparse.
  exists (TestGenerator._generate_generic_test test_counter code).1.
  split; [exact (generic_test_generated test_counter code e Hparse)|].
  assert (Hsample :
    code_sample_of (TestGenerator._generate_generic_test test_counter code).1
    = if (100 <? String.length code)%nat
      then Py.str_take 100 code +:+ "..." else code) by reflexivity.
  rewrite Hsample. do 3 (split; [reflexivity|]).
  destruct (Nat.ltb_spec 100 (String.length code)) as [Hlong|Hshort].
  - split; [|lia]. rewrite string_length_append.
    pose proof (str_take_length 100 code).
    change (String.length "...") with 3%nat. lia.
  - split; [lia|reflexivity].
Qed.

Lemma visit_fold (walk : list External.ast_node)
  (test_cases : list TestCase.t) (counter : Z) :
  let out := fold_left TestGenerator.visit walk (test_cases, counter) in
  out.2 = (counter + Z.of_nat (function_defs walk))%Z
  /\ (all_unit test_cases -> all_unit out.1).
Proof.
  revert test_cases counter.
  induction walk as [|n walk IH]; intros test_cases counter.
  - simpl. split; [unfold function_defs; simpl; lia|tauto].
  - cbn [fold_left]. destruct n;
      try (destruct (IH test_cases counter) as [H1 H2]; split;
           [exact H1|exact H2]).
    + cbn [TestGenerator.visit].
      destruct (TestGenerator._generate_function_test counter name args)
        as [tc c'] eqn:Htc.
      unfold TestGenerator._generate_function_test in Htc.
      injection Htc as <- <-.
      match goal with
      | |- context [fold_left _ _ (?l, ?c)] => destruct (IH l c) as [H1 H2]
      end.
      cbv zeta in *. split.
      * rewrite H1. unfold function_defs. simpl. lia.
      * intros Hall. apply H2. unfold all_unit.
        apply Forall_app. split; [exact Hall|]. repeat constructor.
    + cbn [TestGenerator.visit].
      match goal with
      | |- context [fold_left _ _ (?l, ?c)] => destruct (IH l c) as [H1 H2]
      end.
      cbv zeta in *. split; [exact H1|].
      intros Hall. apply H2. unfold all_unit.
      apply Forall_app. split; [exact Hall|]. repeat constructor.
Qed.

Lemma generated_tests_are_unit (test_counter : Z) (code : string) :
  all_unit (TestGenerator.generate_tests env test_counter code).1.
Proof.
  rewrite generate_tests_is_take. unfold all_unit. apply Forall_take.
  unfold TestGenerator.collect.
  destruct (External.ast_parse env code) as [walk|e].
  - apply (visit_fold walk [] test_counter). constructor.
  - simpl. repeat constructor.
Qed.

(** X4. On code that parses, the generator's counter advances by the number
    of function definitions in the tree: class definitions do not count, and
    the definitions whose tests the cap drops do. *)
Theorem test_counter_counts_function_defs
  (test_counter : Z) (code : string) (walk : list External.ast_node) :
  External.ast_parse env code = External.Parsed walk ->
  (TestGenerator.generate_tests env test_counter code).2
  = (test_counter + Z.of_nat (function_defs walk))%Z.
Proof.
  intros Hparse. unfold TestGenerator.generate_tests, TestGenerator.collect.
  rewrite Hparse.
  pose proof (visit_fold walk [] test_counter) as [H _].
  destruct (fold_left TestGenerator.visit walk ([], test_counter)) as [tests c].
  exact H.
Qed.

(** X5. In the first step of [analyze_and_repair], where the generated
    tests are run on the code they were generated from: the run reports a
    failed test exactly when [ast.parse] raises a [SyntaxError], and then one
    test and one failure; on code that parses every generated test passes. *)
Theorem initial_run_fails_only_on_syntax_error (test_counter : Z) (code : string) :
  let test_cases := (TestGenerator.generate_tests env test_counter code).1 in
  let r := TestRunner.run_tests env test_cases code in
  ((0 < TestResults.failed_tests r)%Z
   <-> exists m, External.ast_parse env code = External.ParseError (Py.SyntaxError m))
  /\ ((0 < TestResults.failed_tests r)%Z ->
      TestResults.total_tests r = 1%Z /\ TestResults.failed_tests r = 1%Z)
  /\ (forall walk,
        External.ast_parse env code = External.Parsed walk ->
        TestResults.passed_tests r = TestResults.total_tests r).
Proof.
  intros test_cases r.
  pose proof (run_tests_total env test_cases code) as Htotal.
  pose proof (run_tests_parsed env test_cases code) as Hparsed.
  pose proof (run_tests_syntax_error env test_cases code) as Hsyntax.
  fold r in Htotal, Hparsed, Hsyntax.
  assert (Hcases :
    (exists walk, External.ast_parse env code = External.Parsed walk
                  /\ TestResults.failed_tests r = 0%Z
                  /\ TestResults.passed_tests r = TestResults.total_tests r)
    \/ (exists m, External.ast_parse env code = External.ParseError (Py.SyntaxError m)
                  /\ TestResults.total_tests r = 1%Z
                  /\ TestResults.failed_tests r = 1%Z)
    \/ (exists e, External.ast_parse env code = External.ParseError e
                  /\ (forall m, e <> Py.SyntaxError m)
                  /\ TestResults.failed_tests r = 0%Z)).
  { destruct (External.ast_parse env code) as [walk|e] eqn:Hparse.
    - left. exists walk. destruct (Hparsed walk eq_refl) as (Hp & Hf & _).
      rewrite Htotal, Hp. auto.
    - pose proof (generic_test_generated test_counter code e Hparse) as Hgen.
      set (t := (TestGenerator._generate_generic_test test_counter code).1) in *.
      assert (Hunit : TestCase.test_type t = TestType.UNIT) by reflexivity.
      assert (Htests : test_cases = [t]) by (subst test_cases; by rewrite Hgen).
      assert (He : (exists m, e = Py.SyntaxError m) \/ forall m, e <> Py.SyntaxError m).
      { destruct e; try (right; intros m; discriminate). left. eauto. }
      destruct He as [[m ->] | Hother].
      + right. left. exists m. split; [reflexivity|].
        destruct (Hsyntax m eq_refl) as (Hf & _).
        { rewrite Htests. repeat constructor. }
        rewrite Htotal, Hf, Htests. auto.
      + right. right. exists e. split; [reflexivity|]. split; [exact Hother|].
        subst r. rewrite Htests. unfold TestRunner.run_tests. simpl.
        unfold TestRunner.step, TestRunner._run_single_test,
          TestRunner._execute_unit_test. rewrite Hunit, Hparse.
        destruct e; try reflexivity. exfalso. by eapply Hother. }
  split; [split|split].
  - intros Hpos.
    destruct Hcases as [(w & _ & Hf & _) | [(m & Hm & _) | (e & _ & _ & Hf)]];
      [lia | eauto | lia].
  - intros [m Hm].
    destruct Hcases as [(w & Hw & _) | [(m' & _ & _ & Hf) | (e & He & Hne & _)]].
    + congruence.
    + lia.
    + rewrite Hm in He. injection He as <-. exfalso. by eapply Hne.
  - intros Hpos.
    destruct Hcases as [(w & _ & Hf & _) | [(m & _ & Ht & Hf) | (e & _ & _ & Hf)]];
      [lia | auto | lia].
  - intros walk Hw.
    destruct Hcases as [(w & _ & _ & Hp) | [(m & Hm & _) | (e & He & _)]];
      [exact Hp | congruence | congruence].
Qed.

End generator.

Lemma unparseable_code_gets_one_generic_test_witness :
  exists t,
    TestGenerator.generate_tests env_syntax_error 0 "def f(:" = ([t], 1%Z)
    /\ TestCase.generated_by t = "template"
    /\ TestCase.test_type t = TestType.UNIT
    /\ TestCase.id t = "generic_test_1"
    /\ (String.length (code_sample_of t) <= 103)%nat
    /\ ((String.length "def f(:" <= 100)%nat -> code_sample_of t = "def f(:").
Proof.
  apply (unparseable_code_gets_one_generic_test env_syntax_error 0 "def f(:"
           (Py.SyntaxError "invalid syntax")).
  reflexivity.
Defined.

Lemma test_counter_counts_function_defs_witness :
  (TestGenerator.generate_tests env_eighty 0 "def f0(x): pass").2 = 80%Z.
Proof.
  apply (test_counter_counts_function_defs env_eighty 0 "def f0(x): pass"
           eighty_functions).
  reflexivity.
Defined.

(** ** Single repairs *)

Lemma repair_issue_original_code (code : string) (issue : AnalysisResult.t) :
  RepairResult.original_code (TestDrivenRepairAgent._repair_issue code issue).1
  = code.
Proof.
  unfold TestDrivenRepairAgent._repair_issue.
  destruct (TestDrivenRepairAgent.repair_strategies
              (IssueType.value (AnalysisResult.issue_type issue)))
    as [repair|] eqn:Hs; [|reflexivity].
  apply strategy_names in Hs as [[_ ->] | [[_ ->] | [[_ ->] | [_ ->]]]];
    unfold SecurityRepairStrategy.repair, QualityRepairStrategy.repair,
      PerformanceRepairStrategy.repair, LogicRepairStrategy.repair;
    try (destruct (line_at _ _) as [line|e]; simpl; [|reflexivity]);
    repeat match goal with
           | |- context [if ?b then _ else _] => destruct b; simpl
           | |- context [Py.setitem ?l ?i ?x] => destruct (Py.setitem l i x); simpl
           end;
    reflexivity.
Qed.

(** X6. [_repair_issue] always answers with a result for the code it was
    given, whatever the issue (also when its type has no strategy or its line
    number is out of range); a result that does not report success carries
    the code unchanged and lists no fix. *)
Theorem failed_repair_leaves_code (code : string) (issue : AnalysisResult.t) :
  let r := (TestDrivenRepairAgent._repair_issue code issue).1 in
  RepairResult.original_code r = code
  /\ (RepairResult.success r = false ->
      RepairResult.repaired_code r = code /\ RepairResult.applied_fixes r = []).
Proof.
  unfold TestDrivenRepairAgent._repair_issue.
  destruct (TestDrivenRepairAgent.repair_strategies
              (IssueType.value (AnalysisResult.issue_type issue)))
    as [repair|] eqn:Hs; [|simpl; auto].
  apply strategy_names in Hs as [[_ ->] | [[_ ->] | [[_ ->] | [_ ->]]]].
  - unfold SecurityRepairStrategy.repair.
    destruct (line_at _ _) as [line|e]; simpl; [|auto].
    destruct (Py.contains "hardcoded_credentials" _); [|simpl; auto].
    destruct (Py.setitem _ _ _); simpl; [|auto].
    split; [reflexivity|discriminate].
  - unfold QualityRepairStrategy.repair.
    destruct (line_at _ _) as [line|e]; simpl; [|auto].
    destruct (match AnalysisResult.quality_metric issue with
              | Some m => String.eqb m "line_length"
              | None => false
              end); [|simpl; auto].
    destruct (100 <? String.length line)%nat; simpl; [|auto].
    split; [reflexivity|discriminate].
  - unfold PerformanceRepairStrategy.repair.
    destruct (line_at _ _) as [line|e]; simpl; [|auto].
    destruct (Py.contains "string_concatenation" _); [|simpl; auto].
    destruct (Py.contains "+" line && Py.contains "for" line); [|simpl; auto].
    destruct (Py.setitem _ _ _); simpl; [|auto].
    split; [reflexivity|discriminate].
  - simpl. auto.
Qed.

(** ** What the analyzers report and what the strategies repair *)

Lemma security_check_line_cases fp i line issue :
  In issue (SecurityAnalyzer.check_line fp i line) ->
  issue = SecurityAnalyzer.hardcoded_credentials fp i
  \/ issue = SecurityAnalyzer.sql_injection fp i.
Proof.
  unfold SecurityAnalyzer.check_line. intros H.
  apply in_app_or in H as [H | H];
    repeat match type of H with
           | In _ (if ?b then _ else _) => destruct b
           end; simpl in H; try tauto;
    destruct H as [<- | []]; auto.
Qed.

Lemma quality_check_line_cases fp i line issue :
  In issue (QualityAnalyzer.check_line fp i line) ->
  issue = QualityAnalyzer.code_comments fp i line
  \/ issue = QualityAnalyzer.line_length fp i line.
Proof.
  unfold QualityAnalyzer.check_line. intros H.
  apply in_app_or in H as [H | H];
    repeat match type of H with
           | In _ (if ?b then _ else _) => destruct b
           end; simpl in H; try tauto;
    destruct H as [<- | []]; auto.
Qed.

Lemma performance_check_line_cases fp i line issue :
  In issue (PerformanceAnalyzer.check_line fp i line) ->
  issue = PerformanceAnalyzer.string_concatenation fp i.
Proof.
  unfold PerformanceAnalyzer.check_line. intros H.
  repeat match type of H with
         | In _ (if ?b then _ else _) => destruct b
         end; simpl in H; try tauto;
    destruct H as [<- | []]; auto.
Qed.

Lemma reported_issue_cases (code : string) fp issue :
  In issue (reported_issues code fp) ->
  exists i line,
    issue = SecurityAnalyzer.hardcoded_credentials fp i
    \/ issue = SecurityAnalyzer.sql_injection fp i
    \/ issue = QualityAnalyzer.code_comments fp i line
    \/ issue = QualityAnalyzer.line_length fp i line
    \/ issue = PerformanceAnalyzer.string_concatenation fp i.
Proof.
  unfold reported_issues. intros H.
  apply in_app_or in H as [H | H]; [|apply in_app_or in H as [H | H]];
    apply in_flat_map in H as [[i line] [_ H]]; exists i, line.
  - apply security_check_line_cases in H. tauto.
  - apply quality_check_line_cases in H. tauto.
  - apply performance_check_line_cases in H. tauto.
Qed.

(** X7. Of everything the security, quality and performance analyzers
    report, only a long line is ever repaired: the analyzers put the
    vulnerability type and the performance metric in fields, the security and
    performance strategies look for them in the metadata, and nothing repairs
    a to-do comment.  This holds for whatever code the repair is run on. *)
Theorem only_long_lines_are_repaired
  (code : string) (file_path : option string) (issue : AnalysisResult.t)
  (current_code : string) :
  In issue (reported_issues code file_path) ->
  RepairResult.success
    (TestDrivenRepairAgent._repair_issue current_code issue).1 = true ->
  AnalysisResult.quality_metric issue = Some "line_length".
Proof.
  intros Hin.
  apply reported_issue_cases in Hin as (i & line & [-> | [-> | [-> | [-> | ->]]]]);
    unfold TestDrivenRepairAgent._repair_issue; simpl.
  - unfold SecurityRepairStrategy.repair.
    destruct (line_at _ _); simpl; discriminate.
  - unfold SecurityRepairStrategy.repair.
    destruct (line_at _ _); simpl; discriminate.
  - unfold QualityRepairStrategy.repair.
    destruct (line_at _ _); simpl; discriminate.
  - reflexivity.
  - unfold PerformanceRepairStrategy.repair.
    destruct (line_at _ _); simpl; discriminate.
Qed.

Lemma only_long_lines_are_repaired_witness :
  AnalysisResult.quality_metric (QualityAnalyzer.line_length None 1 long_line)
  = Some "line_length".
Proof.
  apply (only_long_lines_are_repaired long_line None
           (QualityAnalyzer.line_length None 1 long_line) long_line).
  - vm_compute. right. left. reflexivity.
  - vm_compute. reflexivity.
Defined.

(** ** The repair loop *)

Lemma attempts_length (issues : list AnalysisResult.t) (code : string) :
  length (attempts code issues) = length issues.
Proof.
  revert code. induction issues as [|i l IH]; intros code; simpl;
    [reflexivity|]. by rewrite IH.
Qed.

(** X8. The loop never accumulates more results than there are issues, every
    accumulated result reports success, and the repaired code of each one is
    the original code of the next. *)
Theorem accumulated_repairs_chain (code : string) (issues : list AnalysisResult.t) :
  let repair_results := accumulated code issues in
  (length repair_results <= length issues)%nat
  /\ Forall succeeded repair_results
  /\ (forall k r r',
        repair_results !! k = Some r -> repair_results !! S k = Some r' ->
        RepairResult.original_code r' = RepairResult.repaired_code r)
  /\ (forall r, head repair_results = Some r -> RepairResult.original_code r = code).
Proof.
  intros repair_results. subst repair_results. unfold accumulated.
  destruct (repair_loop_from issues code [] []) as [Hacc _].
  unfold TestDrivenRepairAgent.repair_loop. rewrite Hacc. simpl.
  split; [|split].
  - rewrite <- (attempts_length issues code). apply length_filter.
  - apply Forall_forall. intros r Hr. by apply list_elem_of_filter in Hr as [Hr _].
  - clear Hacc. revert code.
    assert (Hgen : forall code,
      (forall r, head (filter succeeded (attempts code issues)) = Some r ->
                 RepairResult.original_code r = code)
      /\ (forall k r r',
            filter succeeded (attempts code issues) !! k = Some r ->
            filter succeeded (attempts code issues) !! S k = Some r' ->
            RepairResult.original_code r' = RepairResult.repaired_code r)).
    { induction issues as [|issue rest IH]; intros code.
      - simpl. split; [discriminate|]. intros k r r' H. discriminate.
      - cbn [attempts].
        pose proof (repair_issue_original_code code issue) as Horig.
        set (a := (TestDrivenRepairAgent._repair_issue code issue).1) in *.
        destruct (RepairResult.success a) eqn:Hs.
        + rewrite filter_cons_True by exact Hs.
          destruct (IH (RepairResult.repaired_code a)) as [IHhead IHchain].
          split.
          * intros r [= <-]. exact Horig.
          * intros [|k] r r' Hk Hk'.
            -- simpl in Hk, Hk'. injection Hk as <-.
               apply IHhead. rewrite <- Hk'. by rewrite head_lookup.
            -- simpl in Hk, Hk'. by eapply IHchain.
        + rewrite filter_cons_False by (unfold succeeded; congruence).
          apply (IH code). }
    intros code. split.
    + apply (Hgen code).
    + apply (Hgen code).
Qed.

(** ** Issues synthesized from failing tests *)

Lemma single_test_drops_error (env : External.t) (t : TestCase.t) (code : string) :
  drops_error (TestRunner._run_single_test env t code).
Proof.
  unfold drops_error, TestRunner._run_single_test.
  destruct (match TestCase.test_type t with
            | TestType.UNIT => TestRunner._execute_unit_test env t code
            | _ => _
            end); [reflexivity|discriminate].
Qed.

Lemma identified_from_details (code : string) (r : TestResults.t) :
  Forall drops_error (TestResults.test_details r) ->
  TestDrivenRepairAgent._identify_issues_from_tests code r
  = replicate (length (failed_details (TestResults.test_details r))) unknown_failure.
Proof.
  unfold TestDrivenRepairAgent._identify_issues_from_tests, failed_details.
  induction (TestResults.test_details r) as [|d l IH]; intros Hall;
    [reflexivity|].
  apply Forall_cons in Hall as [Hd Hall]. cbn [flat_map List.filter].
  rewrite (IH Hall).
  destruct (TestRunner.status_is "failed" d) eqn:Hst; [|reflexivity].
  unfold Dict.get_default. rewrite (Hd Hst). reflexivity.
Qed.

Lemma fold_step_details (env : External.t) (code : string)
  (tests : list TestCase.t) (acc : TestResults.t) :
  Forall drops_error (TestResults.test_details acc) ->
  TestResults.failed_tests acc
  = Z.of_nat (length (failed_details (TestResults.test_details acc))) ->
  let r := fold_left (TestRunner.step env code) tests acc in
  Forall drops_error (TestResults.test_details r)
  /\ TestResults.failed_tests r
     = Z.of_nat (length (failed_details (TestResults.test_details r))).
Proof.
  revert acc. induction tests as [|t tests IH]; intros acc Hall Hcount;
    [split; assumption|].
  cbn [fold_left]. apply IH.
  - unfold TestRunner.step. simpl. apply Forall_app. split; [exact Hall|].
    constructor; [apply single_test_drops_error|constructor].
  - unfold TestRunner.step. simpl. unfold failed_details in *.
    rewrite List.filter_app, length_app. simpl.
    destruct (TestRunner.status_is "passed" _) eqn:Hp;
      destruct (TestRunner.status_is "failed" _) eqn:Hf; simpl; try lia.
    exfalso. unfold TestRunner.status_is in Hp, Hf.
    destruct (Dict.get "status" _) as [[| | | |s| | |]|]; try discriminate.
    apply String.eqb_eq in Hp, Hf. congruence.
Qed.

(** X9. The issues synthesized from a test run are all the same: one per
    failed test, of type logic, severity high, on line 0, and with the
    description [Test failed: Unknown error], because the runner keeps the
    parser's message out of the detail record of a failed test. *)
Theorem identified_issues_are_unknown_errors (env : External.t)
  (test_cases : list TestCase.t) (code : string) :
  let r := TestRunner.run_tests env test_cases code in
  TestDrivenRepairAgent._identify_issues_from_tests code r
  = replicate (Z.to_nat (TestResults.failed_tests r)) unknown_failure.
Proof.
  intros r. subst r. unfold TestRunner.run_tests.
  match goal with
  | |- context [fold_left _ _ ?a] =>
      destruct (fold_step_details env code test_cases a) as [Hall Hcount];
        [constructor|reflexivity|]
  end.
  rewrite identified_from_details by exact Hall.
  rewrite Hcount, Nat2Z.id. reflexivity.
Qed.

(** ** What a call of the repair agent leaves behind *)

Lemma fold_logged_books (ws : list BaseAgent.log_record) (b : BaseAgent.t) :
  same_books b (fold_left (fun b w => BaseAgent.logged w b) ws b).
Proof.
  revert b. induction ws as [|w ws IH]; intros b; simpl.
  - repeat split.
  - destruct (IH (BaseAgent.logged w b)) as (H1 & H2 & H3 & H4).
    unfold same_books. rewrite H1, H2, H3, H4. repeat split.
Qed.

Lemma analyze_and_repair_try_books (env : External.t)
  (self : TestDrivenRepairAgent.t) (code : string)
  (issues : option (list AnalysisResult.t)) :
  exists e s,
    TestDrivenRepairAgent.analyze_and_repair_try env self code issues
    = (Py.Raise e, s)
    /\ same_books (TestDrivenRepairAgent.base self) (TestDrivenRepairAgent.base s).
Proof.
  unfold TestDrivenRepairAgent.analyze_and_repair_try.
  destruct (TestGenerator.generate_tests env _ code) as [test_cases counter].
  match goal with
  | |- context [match ?i with None => _ | Some _ => _ end] =>
      destruct i as [l|] eqn:Hi
  end.
  - destruct (TestDrivenRepairAgent.repair_loop code l) as [[c rs] ws].
    rewrite calculate_improvement_raises. eexists. eexists.
    split; [reflexivity|]. simpl.
    match goal with
    | |- same_books _ (fold_left _ _ ?b) =>
        destruct (fold_logged_books ws b) as (H1 & H2 & H3 & H4)
    end.
    unfold same_books. rewrite H1, H2, H3, H4. repeat split.
  - eexists. eexists. split; [reflexivity|]. repeat split.
Qed.

(** X10. Every call of the repair agent's [analyze_and_repair] is booked as
    a failure: exactly one record is appended to the execution history, for
    the operation [test_driven_repair], holding the returned error map and
    [success] false; the metrics [issues_found] and [accuracy_rate] keep the
    values they had before the call. *)
Theorem repair_call_recorded_as_failure (env : External.t)
  (self : TestDrivenRepairAgent.t) (code : string)
  (issues : option (list AnalysisResult.t)) :
  let out := TestDrivenRepairAgent.analyze_and_repair env self code issues in
  let before := TestDrivenRepairAgent.base self in
  let after := TestDrivenRepairAgent.base out.2 in
  BaseAgent.execution_history after
  = BaseAgent.execution_history before
    ++ [[ ("operation", PStr "test_driven_repair");
          ("result", PDict out.1);
          ("agent", PStr (BaseAgent.agent before));
          ("success", PBool false) ]]
  /\ BaseAgent.issues_found after = BaseAgent.issues_found before
  /\ BaseAgent.accuracy_rate after = BaseAgent.accuracy_rate before.
Proof.
  unfold TestDrivenRepairAgent.analyze_and_repair.
  destruct (analyze_and_repair_try_books env
              (TestDrivenRepairAgent.with_base BaseAgent.start_execution self)
              code issues) as (e & s & -> & Hh & Hi & Ha & Hn).
  simpl in Hh, Hi, Ha, Hn.
  destruct e; simpl; rewrite Hh, Hi, Ha, Hn; repeat split.
Qed.

(** ** The answer of the repair agent *)

Lemma repair_answer (env : External.t) (self : TestDrivenRepairAgent.t)
  (code : string) (issues : option (list AnalysisResult.t)) :
  let r := (TestDrivenRepairAgent.analyze_and_repair env self code issues).1 in
  r <> []
  /\ Dict.get "repaired_code" r = None
  /\ Dict.get "repair_success" r = None
  /\ Dict.get "applied_repairs" r = None
  /\ Dict.get "improvement_metrics" r = None
  /\ Dict.get "confidence" r = None
  /\ Dict.get "success" r = Some (PBool false).
Proof.
  unfold TestDrivenRepairAgent.analyze_and_repair.
  destruct (analyze_and_repair_try_raises env
              (TestDrivenRepairAgent.with_base BaseAgent.start_execution self)
              code issues) as (e & s & ->).
  destruct e; simpl; repeat split; try reflexivity; discriminate.
Qed.

(** ** Dictionaries *)

Lemma get_set_eq (k : string) (v : pyval) (d : dict) :
  Dict.get k (Dict.set k v d) = Some v.
Proof.
  induction d as [|[k' v'] d IH]; cbn [Dict.get Dict.set].
  - by rewrite String.eqb_refl.
  - destruct (String.eqb k k') eqn:E; cbn [Dict.get Dict.set].
    + by rewrite String.eqb_refl.
    + by rewrite E.
Qed.

Lemma get_set_ne (k k' : string) (v : pyval) (d : dict) :
  String.eqb k k' = false ->
  Dict.get k (Dict.set k' v d) = Dict.get k d.
Proof.
  intros Hne. induction d as [|[k0 v0] d IH]; cbn [Dict.get Dict.set].
  - by rewrite Hne.
  - destruct (String.eqb k' k0) eqn:E; cbn [Dict.get Dict.set].
    + apply String.eqb_eq in E as <-. by rewrite Hne.
    + by rewrite IH.
Qed.

(** ** The static analysis agent *)

Lemma complexity_of_value_value (level : ComplexityLevel.t) :
  StaticAnalysisAgent.complexity_of_value (PInt (ComplexityLevel.value level))
  = Py.Ok level.
Proof. destruct level; reflexivity. Qed.

Section static_agent.
Variable env : External.t.

(** What one round of the loop over the analyzers changes, apart from the
    merged metrics and the list of analyzers used. *)
Lemma run_analyzer_get (code : string) (file_path : option string)
  (results : dict) (name : string) analyze (k : string) :
  StaticAnalysisAgent.enabled name = true ->
  String.eqb k "complexity_metrics" = false ->
  String.eqb k "execution_metadata" = false ->
  Dict.get k (StaticAnalysisAgent.run_analyzer code file_path results (name, analyze))
  = if String.eqb k (name +:+ "_issues")
    then Some (Dict.get_default "issues" (PList []) (analyze code file_path))
    else Dict.get k results.
Proof.
  intros He H1 H2. unfold StaticAnalysisAgent.run_analyzer. rewrite He.
  cbv zeta. rewrite (get_set_ne _ _ _ _ H2), (get_set_ne _ _ _ _ H1).
  destruct (String.eqb k (name +:+ "_issues")) eqn:E.
  - apply String.eqb_eq in E as ->. apply get_set_eq.
  - by apply get_set_ne.
Qed.

Lemma run_analyzers_get (code : string) (file_path : option string)
  (results : dict) (k : string) :
  String.eqb k "complexity_metrics" = false ->
  String.eqb k "execution_metadata" = false ->
  Dict.get k (fold_left (StaticAnalysisAgent.run_analyzer code file_path)
                (StaticAnalysisAgent.analyzers env) results)
  = if String.eqb k "complexity_issues" then Some (PList [])
    else if String.eqb k "performance_issues"
    then Some (PList (map PIssue (PerformanceAnalyzer.issues code file_path)))
    else if String.eqb k "quality_issues"
    then Some (PList (map PIssue (QualityAnalyzer.issues code file_path)))
    else if String.eqb k "security_issues"
    then Some (PList (map PIssue (SecurityAnalyzer.issues code file_path)))
    else Dict.get k results.
Proof.
  intros H1 H2. unfold StaticAnalysisAgent.analyzers. cbn [fold_left].
  rewrite (run_analyzer_get code file_path _ "complexity" _ k eq_refl H1 H2).
  rewrite (run_analyzer_get code file_path _ "performance" _ k eq_refl H1 H2).
  rewrite (run_analyzer_get code file_path _ "quality" _ k eq_refl H1 H2).
  rewrite (run_analyzer_get code file_path _ "security" _ k eq_refl H1 H2).
  change ("complexity" +:+ "_issues") with "complexity_issues".
  change ("performance" +:+ "_issues") with "performance_issues".
  change ("quality" +:+ "_issues") with "quality_issues".
  change ("security" +:+ "_issues") with "security_issues".
  destruct (String.eqb k "complexity_issues"); [|reflexivity].
  unfold ComplexityAnalyzer.analyze.
  destruct (External.ast_parse env code); reflexivity.
Qed.

(** The [try] block of [analyze] on non-empty code: no step raises. *)
Lemma analyze_try_ok (self : BaseAgent.t) (target : string)
  (context : option dict) (code : string) (file_path : option string) :
  analysis_source env target context = Some (code, file_path) ->
  code <> EmptyString ->
  let security := SecurityAnalyzer.issues code file_path in
  let quality := QualityAnalyzer.issues code file_path in
  let performance := PerformanceAnalyzer.issues code file_path in
  let total := Z.of_nat (length security + length quality + length performance) in
  let score :=
    Z.max 0 (100 - (penalty 5 security + penalty 2 quality
                    + penalty 3 performance)) in
  exists results,
    StaticAnalysisAgent.analyze_try env self target context
    = Py.Ok (results,
             BaseAgent.record_execution
               (BaseAgent.set_issues_found total self) "static_analysis"
               [ ("success", PBool true); ("issues_found", PInt total);
                 ("overall_score", PInt score) ])
    /\ Dict.get "security_issues" results = Some (PList (map PIssue security))
    /\ Dict.get "quality_issues" results = Some (PList (map PIssue quality))
    /\ Dict.get "performance_issues" results
       = Some (PList (map PIssue performance))
    /\ Dict.get "overall_score" results = Some (PInt score)
    /\ Dict.get "complexity_level" results
       = Some (PInt (ComplexityLevel.value
                       (StaticAnalysisAgent._assess_complexity env code)))
    /\ Dict.get "file_path" results = Some (Dict.of_opt_str file_path)
    /\ Dict.get "code_size" results = Some (PInt (Z.of_nat (String.length code))).
Proof.
  intros Hsource Hcode security quality performance total score.
  assert (Hvalid : BaseAgent.validate_input code = true)
    by (destruct code; [contradiction|reflexivity]).
  unfold StaticAnalysisAgent.analyze_try.
  match goal with
  | |- context [Py.bind ?m _] => assert (Hm : m = Py.Ok (code, file_path))
  end.
  { unfold analysis_source in Hsource. unfold StaticAnalysisAgent._read_file.
    destruct (External.path_lookup env target) as [|content|error];
      [injection Hsource as <- <-|injection Hsource as <- <-|discriminate];
      reflexivity. }
  rewrite Hm. cbn [Py.bind]. rewrite Hvalid. cbn [negb]. cbv zeta.
  match goal with
  | |- context [fold_left (StaticAnalysisAgent.run_analyzer code file_path) _ ?r] =>
      set (R0 := r);
      set (R1 := fold_left (StaticAnalysisAgent.run_analyzer code file_path)
                   (StaticAnalysisAgent.analyzers env) R0)
  end.
  assert (Hsec : Dict.get "security_issues" R1 = Some (PList (map PIssue security)))
    by (unfold R1; rewrite run_analyzers_get by reflexivity; reflexivity).
  assert (Hqual : Dict.get "quality_issues" R1 = Some (PList (map PIssue quality)))
    by (unfold R1; rewrite run_analyzers_get by reflexivity; reflexivity).
  assert (Hperf : Dict.get "performance_issues" R1
                  = Some (PList (map PIssue performance)))
    by (unfold R1; rewrite run_analyzers_get by reflexivity; reflexivity).
  assert (Hlevel : Dict.get "complexity_level" R1
                   = Some (PInt (ComplexityLevel.value
                                   (StaticAnalysisAgent._assess_complexity env code))))
    by (unfold R1; rewrite run_analyzers_get by reflexivity; reflexivity).
  assert (Hfile : Dict.get "file_path" R1 = Some (Dict.of_opt_str file_path))
    by (unfold R1; rewrite run_analyzers_get by reflexivity; reflexivity).
  assert (Hsize : Dict.get "code_size" R1
                  = Some (PInt (Z.of_nat (String.length code))))
    by (unfold R1; rewrite run_analyzers_get by reflexivity; reflexivity).
  assert (Hscore : StaticAnalysisAgent._calculate_overall_score R1 = Py.Ok score).
  { unfold StaticAnalysisAgent._calculate_overall_score, StaticAnalysisAgent.round2.
    rewrite (issues_at_list _ _ _ Hsec), (issues_at_list _ _ _ Hqual),
      (issues_at_list _ _ _ Hperf). cbn [Py.bind].
    rewrite !add_penalties_penalty. unfold score. do 2 f_equal; lia. }
  rewrite Hscore. cbn [Py.bind].
  set (R2 := Dict.set "overall_score" (PInt score) R1).
  assert (Hsugg : exists l, StaticAnalysisAgent._generate_suggestions R2 = Py.Ok l).
  { unfold StaticAnalysisAgent._generate_suggestions, Dict.subscript, R2.
    rewrite !get_set_ne by reflexivity.
    rewrite Hsec, Hqual, Hperf, Hlevel. cbn [Py.bind].
    rewrite complexity_of_value_value. cbn [Py.bind]. eexists. reflexivity. }
  destruct Hsugg as [suggestions ->]. cbn [Py.bind].
  set (R3 := Dict.set "suggestions" (PList (map PStr suggestions)) R2).
  assert (H3 : forall k, String.eqb k "suggestions" = false ->
                         String.eqb k "overall_score" = false ->
                         Dict.get k R3 = Dict.get k R1)
    by (intros k Hk1 Hk2; unfold R3, R2; by rewrite !get_set_ne).
  assert (Hs3 : Dict.get "overall_score" R3 = Some (PInt score))
    by (unfold R3, R2; rewrite get_set_ne by reflexivity; apply get_set_eq).
  unfold Dict.get_default.
  rewrite !H3 by reflexivity.
  rewrite Hsec, Hqual, Hperf, Hs3.
  cbn [StaticAnalysisAgent.as_list]. rewrite !length_map.
  exists R3. split; [reflexivity|].
  rewrite !H3 by reflexivity.
  repeat split; assumption.
Qed.


(** X12. Empty code is rejected without a trace in the books: the answer is
    the error map of an [AnalysisException] saying [Invalid input code], the
    execution history and the metric stay as they were, and only the log
    shows the call. *)
Theorem rejected_input_is_not_recorded (self : BaseAgent.t)
  (target : string) (context : option dict) (file_path : option string) :
  analysis_source env target context = Some (EmptyString, file_path) ->
  let out := StaticAnalysisAgent.analyze env self target context in
  out.1 = [ ("error", PStr "Invalid input code");
            ("success", PBool false);
            ("agent", PStr (BaseAgent.agent self));
            ("context", PDict [("target", PStr target)]);
            ("error_code", PStr "ANALYSIS_ERROR");
            ("error_type", PStr "AnalysisException") ]
  /\ BaseAgent.execution_history out.2 = BaseAgent.execution_history self
  /\ BaseAgent.issues_found out.2 = BaseAgent.issues_found self
  /\ BaseAgent.log out.2
     = BaseAgent.log self
       ++ [BaseAgent.LogStart; BaseAgent.LogError out.1; BaseAgent.LogEnd].
Proof.
  intros Hsource out. subst out. unfold analysis_source in Hsource.
  unfold StaticAnalysisAgent.analyze, StaticAnalysisAgent.analyze_try,
    StaticAnalysisAgent._read_file.
  destruct (External.path_lookup env target) as [|content|error];
    [injection Hsource as Ht Hf|injection Hsource as Ht Hf|discriminate];
    cbn [Py.bind fst snd]; rewrite Ht; cbn;
    repeat split; by rewrite <- !app_assoc.
Qed.

(** X13. A file that exists and cannot be read is booked as a failed
    execution: the answer is the error map of the [AnalysisException] raised
    by [_read_file], and one record with [success] false is appended to the
    execution history. *)
Theorem unreadable_file_is_recorded (self : BaseAgent.t)
  (target : string) (context : option dict) (error : string) :
  External.path_lookup env target = External.Unreadable error ->
  let out := StaticAnalysisAgent.analyze env self target context in
  out.1 = [ ("error",
             PStr ("Failed to read file " +:+ target +:+ ": " +:+ error));
            ("success", PBool false);
            ("agent", PStr (BaseAgent.agent self));
            ("context", PDict [("target", PStr target)]);
            ("error_code", PStr "ANALYSIS_ERROR");
            ("error_type", PStr "AnalysisException") ]
  /\ BaseAgent.execution_history out.2
     = BaseAgent.execution_history self
       ++ [[ ("operation", PStr "static_analysis");
             ("result", PDict out.1);
             ("agent", PStr (BaseAgent.agent self));
             ("success", PBool false) ]]
  /\ BaseAgent.issues_found out.2 = BaseAgent.issues_found self.
Proof.
  intros Hpath out. subst out.
  unfold StaticAnalysisAgent.analyze, StaticAnalysisAgent.analyze_try,
    StaticAnalysisAgent._read_file.
  rewrite Hpath. cbn. repeat split.
Qed.

End static_agent.


Lemma rejected_input_is_not_recorded_witness :
  BaseAgent.execution_history
    (StaticAnalysisAgent.analyze env_plain
       (BaseAgent.init "StaticAnalysisAgent") EmptyString None).2
  = [].
Proof.
  apply (rejected_input_is_not_recorded env_plain
           (BaseAgent.init "StaticAnalysisAgent") EmptyString None None).
  reflexivity.
Defined.

Lemma unreadable_file_is_recorded_witness :
  BaseAgent.issues_found
    (StaticAnalysisAgent.analyze env_unreadable
       (BaseAgent.init "StaticAnalysisAgent") "secret.py" None).2
  = 0%Z.
Proof.
  apply (unreadable_file_is_recorded env_unreadable
           (BaseAgent.init "StaticAnalysisAgent") "secret.py" None
           "Permission denied").
  reflexivity.
Defined.

(** ** Lines of text *)

Lemma append_cons (c : ascii) (a b : string) :
  String c a +:+ b = String c (a +:+ b).
Proof. reflexivity. Qed.

Lemma split_nl_newline_free (s : string) :
  newline_free s = true -> Py.split_nl s = [s].
Proof.
  induction s as [|c s IH]; cbn [Py.split_nl newline_free]; intros H;
    [reflexivity|].
  apply andb_prop in H as [Hc Hs]. apply negb_true_iff in Hc.
  rewrite Hc, (IH Hs). reflexivity.
Qed.

Lemma split_nl_app (l rest : string) :
  newline_free l = true ->
  Py.split_nl (l +:+ String Py.nl rest) = l :: Py.split_nl rest.
Proof.
  induction l as [|c l IH]; cbn [newline_free]; intros H.
  - reflexivity.
  - apply andb_prop in H as [Hc Hl]. apply negb_true_iff in Hc.
    rewrite append_cons. cbn [Py.split_nl]. rewrite Hc, (IH Hl). reflexivity.
Qed.

Lemma split_nl_all_newline_free (s : string) :
  Forall (fun l => newline_free l = true) (Py.split_nl s).
Proof.
  induction s as [|c s IH]; cbn [Py.split_nl].
  - repeat constructor.
  - destruct (Ascii.eqb c Py.nl) eqn:E; [by constructor|].
    destruct (Py.split_nl s) as [|l ls].
    + repeat constructor. cbn [newline_free]. by rewrite E.
    + apply Forall_cons in IH as [Hl Hls]. constructor; [|exact Hls].
      cbn [newline_free]. by rewrite E, Hl.
Qed.

Lemma split_join (ls : list string) :
  ls <> [] -> Forall (fun l => newline_free l = true) ls ->
  Py.split_nl (Py.join_nl ls) = ls.
Proof.
  induction ls as [|l ls IH]; [contradiction|]. intros _ Hall.
  apply Forall_cons in Hall as [Hl Hls]. destruct ls as [|l' ls'].
  - by apply split_nl_newline_free.
  - change (Py.join_nl (l :: l' :: ls'))
      with (l +:+ String Py.nl (Py.join_nl (l' :: ls'))).
    rewrite (split_nl_app _ _ Hl). f_equal. by apply IH.
Qed.

Lemma join_split (s : string) : Py.join_nl (Py.split_nl s) = s.
Proof.
  induction s as [|c s IH]; cbn [Py.split_nl]; [reflexivity|].
  pose proof (split_nl_nonempty s) as Hne.
  destruct (Ascii.eqb c Py.nl) eqn:E.
  - apply Ascii.eqb_eq in E as ->.
    destruct (Py.split_nl s) as [|l ls]; [contradiction|].
    change (Py.join_nl (EmptyString :: l :: ls))
      with (String Py.nl (Py.join_nl (l :: ls))).
    by rewrite IH.
  - destruct (Py.split_nl s) as [|l ls]; [contradiction|].
    destruct ls as [|l' ls'].
    + cbn in *. by rewrite IH.
    + change (Py.join_nl (String c l :: l' :: ls'))
        with (String c (Py.join_nl (l :: l' :: ls'))).
      by rewrite IH.
Qed.

Lemma newline_free_app (a b : string) :
  newline_free a = true -> newline_free b = true ->
  newline_free (a +:+ b) = true.
Proof.
  intros Ha Hb. induction a as [|c a IH]; [exact Hb|].
  rewrite append_cons. cbn [newline_free] in *.
  apply andb_prop in Ha as [Hc Ha]. by rewrite Hc, (IH Ha).
Qed.

Lemma newline_free_take (n : nat) (s : string) :
  newline_free s = true -> newline_free (Py.str_take n s) = true.
Proof.
  revert s. induction n as [|n IH]; intros [|c s] H;
    cbn [Py.str_take newline_free] in *; try reflexivity.
  apply andb_prop in H as [Hc Hs]. by rewrite Hc, (IH s Hs).
Qed.

Lemma newline_free_drop (n : nat) (s : string) :
  newline_free s = true -> newline_free (Py.str_drop n s) = true.
Proof.
  revert s. induction n as [|n IH]; intros [|c s] H;
    cbn [Py.str_drop newline_free] in *; try assumption; try reflexivity.
  apply andb_prop in H as [Hc Hs]. by apply IH.
Qed.

Lemma newline_free_lstrip (s : string) :
  newline_free s = true -> newline_free (Py.lstrip s) = true.
Proof.
  induction s as [|c s IH]; cbn [Py.lstrip]; intros H; [reflexivity|].
  destruct (Py.isspace c); [|exact H].
  cbn [newline_free] in H. apply andb_prop in H as [_ Hs]. by apply IH.
Qed.

Lemma newline_free_rstrip (s : string) :
  newline_free s = true -> newline_free (Py.rstrip s) = true.
Proof.
  induction s as [|c s IH]; cbn [Py.rstrip newline_free]; intros H;
    [reflexivity|].
  apply andb_prop in H as [Hc Hs]. specialize (IH Hs).
  destruct (Py.rstrip s) as [|c' r'].
  - destruct (Py.isspace c); cbn [newline_free]; [reflexivity|].
    by rewrite Hc.
  - cbn [newline_free] in *. by rewrite Hc, IH.
Qed.

Lemma newline_free_blanks (n : nat) :
  newline_free (Py.str_repeat " "%char n) = true.
Proof. induction n as [|n IH]; [reflexivity|]. cbn [Py.str_repeat newline_free]. by rewrite IH. Qed.

Lemma str_take_length_le (n : nat) (s : string) :
  (n <= String.length s)%nat -> String.length (Py.str_take n s) = n.
Proof.
  revert s. induction n as [|n IH]; intros [|c s] H; simpl in *; try lia.
  by rewrite IH by lia.
Qed.

Lemma slice_assign_one {A} (l new : list A) (n : Z) :
  (1 <= n <= Z.of_nat (length l))%Z ->
  Py.slice_assign l (n - 1) n new
  = take (Z.to_nat (n - 1)) l ++ new ++ drop (Z.to_nat n) l.
Proof.
  intros Hn. unfold Py.slice_assign, Py.clamp.
  destruct (Z.ltb_spec (n - 1) 0); [lia|].
  destruct (Z.ltb_spec n 0); [lia|].
  repeat f_equal; lia.
Qed.

(** ** The quality strategy on a long line *)

(** The two lines that replace a long line. *)
Lemma quality_repair_long_line
  (code : string) (issue : AnalysisResult.t) (line : string) :
  let lines := Py.split_nl code in
  let n := AnalysisResult.line_number issue in
  AnalysisResult.quality_metric issue = Some "line_length" ->
  (1 <= n <= Z.of_nat (length lines))%Z ->
  lines !! Z.to_nat (n - 1) = Some line ->
  (100 < String.length line)%nat ->
  exists r,
    QualityRepairStrategy.repair code issue = Py.Ok r
    /\ RepairResult.success r = true
    /\ RepairResult.repair_strategy r = "quality_formatting"
    /\ RepairResult.repaired_code r
       = Py.join_nl
           (Py.slice_assign lines (n - 1) n
              [ Py.str_take 80 line +:+ " \";
                Py.str_repeat " "%char
                  (String.length line - String.length (Py.lstrip line))
                +:+ Py.strip (Py.str_drop 80 line) ]).
Proof.
  intros lines n Hmetric Hn Hline Hlong.
  assert (Hat : line_at lines n = Py.Ok line).
  { unfold line_at, Py.getitem.
    destruct (Z.leb_spec 0 (n - 1)); [|lia].
    destruct (Z.ltb_spec (n - 1) (Z.of_nat (length lines))); [|lia].
    cbn [andb]. by rewrite Hline. }
  eexists. split.
  { unfold QualityRepairStrategy.repair. fold lines. fold n.
    rewrite Hat. cbn [Py.bind]. rewrite Hmetric.
    change (String.eqb "line_length" "line_length") with true. cbv iota.
    destruct (Nat.ltb_spec 100 (String.length line)) as [_|Hshort]; [|lia].
    reflexivity. }
  repeat split.
Qed.

(** The lines of the code after a line was replaced by two. *)
Lemma split_after_replacement (code : string) (n : Z) (line : string) :
  let lines := Py.split_nl code in
  (1 <= n <= Z.of_nat (length lines))%Z ->
  lines !! Z.to_nat (n - 1) = Some line ->
  let first := Py.str_take 80 line +:+ " \" in
  let second :=
    Py.str_repeat " "%char (String.length line - String.length (Py.lstrip line))
    +:+ Py.strip (Py.str_drop 80 line) in
  Py.split_nl (Py.join_nl (Py.slice_assign lines (n - 1) n [first; second]))
  = take (Z.to_nat (n - 1)) lines ++ [first; second] ++ drop (Z.to_nat n) lines.
Proof.
  intros lines Hn Hline first second.
  pose proof (split_nl_all_newline_free code) as Hall. fold lines in Hall.
  assert (Hfree : newline_free line = true).
  { rewrite Forall_forall in Hall. apply Hall.
    eapply list_elem_of_lookup_2. exact Hline. }
  rewrite slice_assign_one by exact Hn. apply split_join.
  - intros Hnil. apply app_eq_nil in Hnil as [_ Hnil]. discriminate.
  - apply Forall_app. split; [by apply Forall_take|].
    constructor; [|constructor; [|by apply Forall_drop]].
    + apply newline_free_app; [by apply newline_free_take|reflexivity].
    + apply newline_free_app; [apply newline_free_blanks|].
      apply newline_free_rstrip, newline_free_lstrip.
      by apply newline_free_drop.
Qed.

(** X14. For a [line_length] issue on a line of the code that has more than
    100 characters, the quality strategy succeeds and replaces that line by
    two: the first 80 characters followed by a blank and a backslash (82
    characters), and the stripped rest behind the indentation of the original
    line.  Every other line is left as it was, so the repaired code has one
    line more. *)
Theorem long_line_is_split
  (code : string) (issue : AnalysisResult.t) (line : string) :
  let lines := Py.split_nl code in
  let n := AnalysisResult.line_number issue in
  AnalysisResult.quality_metric issue = Some "line_length" ->
  (1 <= n <= Z.of_nat (length lines))%Z ->
  lines !! Z.to_nat (n - 1) = Some line ->
  (100 < String.length line)%nat ->
  exists r first second,
    QualityRepairStrategy.repair code issue = Py.Ok r
    /\ RepairResult.success r = true
    /\ Py.split_nl (RepairResult.repaired_code r)
       = take (Z.to_nat (n - 1)) lines ++ [first; second]
         ++ drop (Z.to_nat n) lines
    /\ first = Py.str_take 80 line +:+ " \"
    /\ String.length first = 82%nat
    /\ second
       = Py.str_repeat " "%char
           (String.length line - String.length (Py.lstrip line))
         +:+ Py.strip (Py.str_drop 80 line)
    /\ length (Py.split_nl (RepairResult.repaired_code r)) = S (length lines).
Proof.
  intros lines n Hmetric Hn Hline Hlong.
  destruct (quality_repair_long_line code issue line Hmetric Hn Hline Hlong)
    as (r & Hr & Hok & _ & Hcode).
  pose proof (split_after_replacement code n line Hn Hline) as Hsplit.
  cbv zeta in Hsplit. fold lines n in Hcode. fold lines in Hsplit.
  exists r. eexists. eexists.
  split; [exact Hr|]. split; [exact Hok|].
  rewrite Hcode, Hsplit.
  split; [reflexivity|]. split; [reflexivity|]. split.
  { rewrite string_length_append, str_take_length_le by lia. reflexivity. }
  split; [reflexivity|].
  rewrite !length_app, length_take, length_drop. simpl. lia.
Qed.

(** X15. Every long-line issue the quality analyzer reports is repaired
    when [_repair_issue] is run on the code it was found in: the result
    reports success from the formatting strategy, and the repaired code has
    exactly one line more than the code. *)
Theorem reported_long_lines_are_repaired
  (code : string) (file_path : option string) (issue : AnalysisResult.t) :
  In issue (QualityAnalyzer.issues code file_path) ->
  AnalysisResult.quality_metric issue = Some "line_length" ->
  let r := (TestDrivenRepairAgent._repair_issue code issue).1 in
  RepairResult.success r = true
  /\ RepairResult.repair_strategy r = "quality_formatting"
  /\ length (Py.split_nl (RepairResult.repaired_code r))
     = S (length (Py.split_nl code)).
Proof.
  intros Hin Hmetric.
  unfold QualityAnalyzer.issues in Hin.
  apply in_flat_map in Hin as [[i line] [Henum Hissue]].
  apply enumerate_lookup in Henum as [Hrange Hline].
  assert (Hshape : issue = QualityAnalyzer.line_length file_path i line
                   /\ (100 < String.length line)%nat).
  { unfold QualityAnalyzer.check_line in Hissue.
    apply in_app_or in Hissue as [Hissue | Hissue].
    - destruct (existsb _ _); [|contradiction].
      destruct Hissue as [<- | []]. discriminate Hmetric.
    - destruct (Nat.ltb_spec 100 (String.length line)); [|contradiction].
      destruct Hissue as [<- | []]. auto. }
  destruct Hshape as [-> Hlong].
  destruct (quality_repair_long_line code
              (QualityAnalyzer.line_length file_path i line) line)
    as (r & Hr & Hok & Hstrategy & Hcode);
    [reflexivity | cbn; lia | exact Hline | exact Hlong |].
  pose proof (split_after_replacement code i line) as Hsplit.
  cbv zeta in Hsplit. cbn [AnalysisResult.line_number QualityAnalyzer.line_length] in Hcode.
  unfold TestDrivenRepairAgent._repair_issue.
  cbn [AnalysisResult.issue_type QualityAnalyzer.line_length IssueType.value].
  change (TestDrivenRepairAgent.repair_strategies "quality")
    with (Some QualityRepairStrategy.repair).
  cbv iota. rewrite Hr. cbn [fst].
  split; [exact Hok|]. split; [exact Hstrategy|].
  rewrite Hcode, Hsplit by (assumption || lia).
  rewrite !length_app, length_take, length_drop. simpl. lia.
Qed.

Lemma long_line_is_split_witness :
  exists r,
    QualityRepairStrategy.repair long_line
      (QualityAnalyzer.line_length None 1 long_line) = Py.Ok r
    /\ length (Py.split_nl (RepairResult.repaired_code r)) = 2%nat.
Proof.
  destruct (long_line_is_split long_line
              (QualityAnalyzer.line_length None 1 long_line) long_line)
    as (r & first & second & Hr & _ & _ & _ & _ & _ & Hlen).
  - reflexivity.
  - vm_compute. split; discriminate.
  - reflexivity.
  - vm_compute. lia.
  - exists r. split; [exact Hr|exact Hlen].
Defined.

Lemma reported_long_lines_are_repaired_witness :
  RepairResult.success
    (TestDrivenRepairAgent._repair_issue long_line
       (QualityAnalyzer.line_length None 1 long_line)).1 = true.
Proof.
  apply (reported_long_lines_are_repaired long_line None
           (QualityAnalyzer.line_length None 1 long_line)).
  - vm_compute. right. left. reflexivity.
  - reflexivity.
Defined.

(** ** The security strategy on a line without the word *)

Lemma setitem_getitem {A} (l : list A) (i : Z) (x : A) :
  Py.getitem l i = Some x -> Py.setitem l i x = Some l.
Proof.
  unfold Py.getitem, Py.setitem.
  destruct ((0 <=? i)%Z && (i <? Z.of_nat (length l))%Z).
  - intros H. by rewrite list_insert_id.
  - destruct ((- Z.of_nat (length l) <=? i)%Z && (i <? 0)%Z); [|discriminate].
    intros H. by rewrite list_insert_id.
Qed.

Lemma prefix_drop (sub s : string) (k : nat) :
  Py.contains sub s = false -> String.prefix sub (Py.str_drop k s) = false.
Proof.
  revert s. induction k as [|k IH]; intros s H.
  - destruct s; cbn [Py.str_drop Py.contains] in *;
      by apply orb_false_elim in H as [H _].
  - destruct s as [|c s]; cbn [Py.str_drop Py.contains] in *.
    + by apply orb_false_elim in H as [H _].
    + apply orb_false_elim in H as [_ H]. by apply IH.
Qed.

Lemma match_password_none (s : string) :
  Py.contains "password" s = false -> Re.match_password s = None.
Proof.
  intros H. unfold Re.match_password.
  generalize (String.length (Py.span Py.isword s).1). intros k.
  induction k as [|k IH]; cbn [Re.match_password_from];
    unfold Re.match_password_tail; rewrite (prefix_drop _ _ _ H);
    [reflexivity|exact IH].
Qed.

Lemma sub_password_unchanged (s : string) :
  Py.contains "password" s = false -> Re.sub_password s = s.
Proof.
  unfold Re.sub_password. induction s as [|c s IH]; intros H; [reflexivity|].
  cbn [Re.sub_password_scan]. rewrite (match_password_none _ H).
  cbn [Py.contains] in H. apply orb_false_elim in H as [_ H].
  by rewrite (IH H).
Qed.

(** X16. When the metadata of the issue names hardcoded credentials, the
    security strategy reports a successful replacement whatever the line
    holds: on a line without the lower-case word [password] the result has
    [success] true, names the fix and the required environment variable, and
    its repaired code is the code it was given. *)
Theorem security_repair_reports_success_without_change
  (code : string) (issue : AnalysisResult.t) (line : string) :
  engages "security" issue = true ->
  line_at (Py.split_nl code) (AnalysisResult.line_number issue) = Py.Ok line ->
  Py.contains "password" line = false ->
  exists r,
    SecurityRepairStrategy.repair code issue = Py.Ok r
    /\ RepairResult.success r = true
    /\ RepairResult.validation_passed r = true
    /\ RepairResult.applied_fixes r
       = ["Replaced hardcoded password with environment variable"]
    /\ RepairResult.repaired_code r = code.
Proof.
  intros Hengaged Hat Hword.
  assert (Hmeta : Py.contains "hardcoded_credentials"
                    (default EmptyString
                       (AnalysisResult.metadata issue !! "vulnerability_type"))
                  = true).
  { unfold engages in Hengaged. cbn [String.eqb Ascii.eqb Bool.eqb] in Hengaged.
    destruct (AnalysisResult.metadata issue !! "vulnerability_type");
      [exact Hengaged|discriminate]. }
  assert (Hget : Py.getitem (Py.split_nl code) (AnalysisResult.line_number issue - 1)
                 = Some line).
  { unfold line_at in Hat.
    destruct (Py.getitem _ _); [by injection Hat as ->|discriminate]. }
  eexists. split.
  { unfold SecurityRepairStrategy.repair. rewrite Hat. cbn [Py.bind].
    rewrite Hmeta, (sub_password_unchanged _ Hword), (setitem_getitem _ _ _ Hget).
    reflexivity. }
  cbn. repeat split. apply join_split.
Qed.

Lemma security_repair_reports_success_without_change_witness :
  exists r,
    SecurityRepairStrategy.repair "PASSWORD = 'admin'" credentials_issue = Py.Ok r
    /\ RepairResult.success r = true
    /\ RepairResult.validation_passed r = true
    /\ RepairResult.applied_fixes r
       = ["Replaced hardcoded password with environment variable"]
    /\ RepairResult.repaired_code r = "PASSWORD = 'admin'".
Proof.
  apply (security_repair_reports_success_without_change
           "PASSWORD = 'admin'" credentials_issue "PASSWORD = 'admin'");
    reflexivity.
Defined.

(** ** The configuration manager *)

Lemma post_init_well_formed (cwd : string) (c : AgentConfig.t) :
  well_formed c = true -> AgentConfig.__post_init__ cwd c = c.
Proof.
  unfold well_formed. intros H.
  apply andb_prop in H as [H Hthreshold].
  apply andb_prop in H as [H Htimeout].
  apply andb_prop in H as [Hdir Hlevel].
  destruct c. unfold AgentConfig.__post_init__. simpl in *.
  rewrite Hlevel, Hthreshold.
  apply negb_true_iff in Hdir. rewrite Hdir.
  replace (timeout <=? 0)%Z with false
    by (symmetry; apply Z.leb_gt; by apply Z.ltb_lt).
  reflexivity.
Qed.

Lemma post_init_is_well_formed (cwd : string) (c : AgentConfig.t) :
  cwd <> EmptyString -> well_formed (AgentConfig.__post_init__ cwd c) = true.
Proof.
  intros Hcwd. unfold well_formed, AgentConfig.__post_init__. simpl.
  rewrite !andb_true_iff. split; [split; [split|]|].
  - destruct (String.eqb_spec (AgentConfig.working_directory c) EmptyString)
      as [_|Hne]; apply negb_true_iff; by apply String.eqb_neq.
  - destruct (AgentConfig.level_is_valid (AgentConfig.log_level c)) eqn:E;
      [exact E|reflexivity].
  - destruct (Z.leb_spec (AgentConfig.timeout c) 0); [reflexivity|].
    by apply Z.ltb_lt.
  - destruct (AgentConfig.in_unit_interval
                (AgentConfig.repair_confidence_threshold c)) eqn:E;
      [exact E|reflexivity].
Qed.

(** An instance whose attributes have the annotated types, seen as an
    instance with attributes of any type. *)
Lemma typed_has_the_fields (c : AgentConfig.t) :
  has_the_fields (AgentConfig.__dict__ c).
Proof. reflexivity. Qed.

Lemma typed_meets_post_init (c : AgentConfig.t) :
  meets_post_init (AgentConfig.__dict__ c) = well_formed c.
Proof.
  unfold meets_post_init, well_formed.
  change (Dict.get "working_directory" (AgentConfig.__dict__ c))
    with (Some (PStr (AgentConfig.working_directory c))).
  change (Dict.get "log_level" (AgentConfig.__dict__ c))
    with (Some (PStr (AgentConfig.log_level c))).
  change (Dict.get "timeout" (AgentConfig.__dict__ c))
    with (Some (PInt (AgentConfig.timeout c))).
  change (Dict.get "repair_confidence_threshold" (AgentConfig.__dict__ c))
    with (Some (PFloat (AgentConfig.repair_confidence_threshold c))).
  cbn [Dict.truthy AgentConfig.Instance.in_valid_levels
       AgentConfig.Instance.le_zero AgentConfig.Instance.within_unit_interval].
  do 2 f_equal. by rewrite Z.ltb_antisym.
Qed.

(** On such an instance the two readings of [__post_init__] agree. *)
Lemma post_init_agrees (cwd : string) (c : AgentConfig.t) :
  AgentConfig.Instance.__post_init__ cwd (AgentConfig.__dict__ c)
  = Py.Ok (AgentConfig.__dict__ (AgentConfig.__post_init__ cwd c)).
Proof.
  destruct c. unfold AgentConfig.__post_init__.
  match goal with
  | |- _ = Py.Ok (AgentConfig.__dict__ ?r) =>
      let r' := eval simpl in r in change r with r'
  end.
  unfold AgentConfig.Instance.__post_init__, AgentConfig.Instance.getattr,
    AgentConfig.__dict__ at 1.
  cbv zeta.
  match goal with
  | |- context [AgentConfig.__dict__ ?r] =>
      let d := eval cbv beta iota delta
                 [AgentConfig.__dict__ AgentConfig.name AgentConfig.version
                  AgentConfig.enabled AgentConfig.log_level AgentConfig.timeout
                  AgentConfig.max_memory AgentConfig.max_cpu_usage
                  AgentConfig.max_file_size AgentConfig.supported_languages
                  AgentConfig.working_directory
                  AgentConfig.enable_security_analysis
                  AgentConfig.enable_quality_analysis
                  AgentConfig.enable_performance_analysis
                  AgentConfig.enable_complexity_analysis
                  AgentConfig.enable_auto_repair
                  AgentConfig.repair_confidence_threshold
                  AgentConfig.max_repair_attempts
                  AgentConfig.enable_test_generation AgentConfig.test_framework
                  AgentConfig.test_timeout AgentConfig.max_test_cases
                  AgentConfig.ai_provider AgentConfig.ai_model
                  AgentConfig.ai_api_key AgentConfig.ai_temperature
                  AgentConfig.ai_max_tokens AgentConfig.output_format
                  AgentConfig.output_directory AgentConfig.create_report
                  AgentConfig.verbose_output]
               in (AgentConfig.__dict__ r) in
      change (AgentConfig.__dict__ r) with d
  end.
  cbn [AgentConfig.name AgentConfig.version
                  AgentConfig.enabled AgentConfig.log_level AgentConfig.timeout
                  AgentConfig.max_memory AgentConfig.max_cpu_usage
                  AgentConfig.max_file_size AgentConfig.supported_languages
                  AgentConfig.working_directory
                  AgentConfig.enable_security_analysis
                  AgentConfig.enable_quality_analysis
                  AgentConfig.enable_performance_analysis
                  AgentConfig.enable_complexity_analysis
                  AgentConfig.enable_auto_repair
                  AgentConfig.repair_confidence_threshold
                  AgentConfig.max_repair_attempts
                  AgentConfig.enable_test_generation AgentConfig.test_framework
                  AgentConfig.test_timeout AgentConfig.max_test_cases
                  AgentConfig.ai_provider AgentConfig.ai_model
                  AgentConfig.ai_api_key AgentConfig.ai_temperature
                  AgentConfig.ai_max_tokens AgentConfig.output_format
                  AgentConfig.output_directory AgentConfig.create_report
                  AgentConfig.verbose_output].
  evaluate_dicts. cbn [Py.bind Dict.truthy].
  destruct (String.eqb working_directory EmptyString); cbn [negb];
    evaluate_dicts; cbn [Py.bind AgentConfig.Instance.in_valid_levels];
    destruct (AgentConfig.level_is_valid log_level);
    evaluate_dicts; cbn [Py.bind AgentConfig.Instance.le_zero];
    destruct (timeout <=? 0)%Z;
    evaluate_dicts; cbn [Py.bind AgentConfig.Instance.within_unit_interval];
    destruct (AgentConfig.in_unit_interval repair_confidence_threshold);
    evaluate_dicts; reflexivity.
Qed.

(** The instance [load_config] falls back to is the one its call of
    [AgentConfig] with four keyword arguments builds. *)
Lemma default_config_is_constructed (w : ConfigManager.world) :
  AgentConfig.Instance.__init__ (ConfigManager.cwd w)
    [ ("name", PStr "DebugAgent"); ("version", PStr "1.0.0");
      ("enabled", PBool true); ("log_level", PStr "INFO") ]
  = Py.Ok (AgentConfig.__dict__ (default_config w)).
Proof.
  unfold default_config.
  rewrite <- post_init_agrees. reflexivity.
Qed.

Lemma default_config_serializable (w : ConfigManager.world) :
  Json.serializable (PDict (AgentConfig.__dict__ (default_config w))) = true.
Proof. vm_compute. reflexivity. Qed.

Lemma keys_after_set (k : string) (v x : pyval) (d : dict) :
  Dict.get k d = Some x -> map fst (Dict.set k v d) = map fst d.
Proof.
  induction d as [|[k' v'] d IH]; cbn [Dict.get Dict.set map fst];
    [discriminate|].
  destruct (String.eqb_spec k k') as [->|Hk]; [reflexivity|].
  intros H. cbn [map fst]. by rewrite IH.
Qed.

(** One step of [__post_init__]: the attribute [k] is replaced unless it is
    good. *)
Lemma replaced_unless (k : string) (good : bool) (v x : pyval) (d : dict) :
  Dict.get k d = Some x ->
  let d' := if good then d else Dict.set k v d in
  map fst d' = map fst d
  /\ Dict.get k d' = Some (if good then x else v)
  /\ forall k', String.eqb k' k = false -> Dict.get k' d' = Dict.get k' d.
Proof.
  intros Hk. destruct good; cbn zeta; [by repeat split|].
  split; [by apply (keys_after_set k v x)|].
  split; [apply get_set_eq|]. intros k' Hne. by apply get_set_ne.
Qed.

Lemma post_init_result (cwd : string) (self out : dict) :
  cwd <> EmptyString ->
  AgentConfig.Instance.__post_init__ cwd self = Py.Ok out ->
  map fst out = map fst self /\ meets_post_init out = true.
Proof.
  intros Hcwd. unfold AgentConfig.Instance.__post_init__,
    AgentConfig.Instance.getattr. cbv zeta.
  destruct (Dict.get "working_directory" self) as [dir|] eqn:Edir;
    [|discriminate].
  cbn [Py.bind].
  destruct (replaced_unless "working_directory" (Dict.truthy dir) (PStr cwd)
              dir self Edir) as (Hkeys1 & Hdir1 & Hrest1).
  set (s1 := if Dict.truthy dir then self else _) in *.
  destruct (Dict.get "log_level" s1) as [level|] eqn:Elevel; [|discriminate].
  cbn [Py.bind].
  destruct (replaced_unless "log_level"
              (AgentConfig.Instance.in_valid_levels level) (PStr "INFO")
              level s1 Elevel) as (Hkeys2 & Hlevel2 & Hrest2).
  set (s2 := if AgentConfig.Instance.in_valid_levels level then s1 else _) in *.
  destruct (Dict.get "timeout" s2) as [timeout|] eqn:Etimeout; [|discriminate].
  cbn [Py.bind].
  destruct (AgentConfig.Instance.le_zero timeout) as [too_small|] eqn:Ele;
    [|discriminate].
  cbn [Py.bind].
  destruct (replaced_unless "timeout" (negb too_small) (PInt 300) timeout s2
              Etimeout) as (Hkeys3 & Htimeout3 & Hrest3).
  replace (if too_small then Dict.set "timeout" (PInt 300) s2 else s2)
    with (if negb too_small then s2 else Dict.set "timeout" (PInt 300) s2)
    by (by destruct too_small).
  set (s3 := if negb too_small then s2 else _) in *.
  destruct (Dict.get "repair_confidence_threshold" s3) as [threshold|]
    eqn:Ethreshold; [|discriminate].
  cbn [Py.bind].
  destruct (AgentConfig.Instance.within_unit_interval threshold) as [inside|]
    eqn:Einside; [|discriminate].
  cbn [Py.bind].
  destruct (replaced_unless "repair_confidence_threshold" inside (PFloat 0.7)
              threshold s3 Ethreshold) as (Hkeys4 & Hthreshold4 & Hrest4).
  set (s4 := if inside then s3 else _) in *.
  intros [= <-]. split; [congruence|].
  unfold meets_post_init.
  rewrite Hthreshold4.
  rewrite (Hrest4 "timeout"), Htimeout3 by reflexivity.
  rewrite (Hrest4 "log_level"), (Hrest3 "log_level"), Hlevel2 by reflexivity.
  rewrite (Hrest4 "working_directory"), (Hrest3 "working_directory"),
    (Hrest2 "working_directory"), Hdir1 by reflexivity.
  rewrite !andb_true_iff. split; [split; [split|]|].
  - destruct (Dict.truthy dir) eqn:E; [exact E|]. cbn [Dict.truthy].
    apply negb_true_iff. by apply String.eqb_neq.
  - by destruct (AgentConfig.Instance.in_valid_levels level) eqn:E.
  - destruct too_small; cbn [negb]; [reflexivity|]. by rewrite Ele.
  - destruct inside; [by rewrite Einside|reflexivity].
Qed.

Lemma init_result (cwd : string) (kwargs out : dict) :
  cwd <> EmptyString ->
  AgentConfig.Instance.__init__ cwd kwargs = Py.Ok out ->
  has_the_fields out /\ meets_post_init out = true.
Proof.
  intros Hcwd. unfold AgentConfig.Instance.__init__.
  destruct (List.find _ kwargs); [discriminate|].
  destruct (Dict.get "name" kwargs); [|discriminate].
  intros H. apply (post_init_result _ _ _ Hcwd) in H as [Hkeys Hmeets].
  split; [|exact Hmeets]. unfold has_the_fields. rewrite Hkeys.
  rewrite map_map. reflexivity.
Qed.

Lemma load_config_caches (w : ConfigManager.world) (self : ConfigManager.t) :
  ConfigManager._config_cache self = None ->
  exists c,
    ConfigManager.load_config w self = (c, ConfigManager.cached c self)
    /\ (c = AgentConfig.__dict__ (default_config w)
        \/ exists config_data,
             AgentConfig.Instance.__init__ (ConfigManager.cwd w) config_data
             = Py.Ok c).
Proof.
  intros Hcache. unfold ConfigManager.load_config. rewrite Hcache.
  destruct (ConfigManager.files w !! ConfigManager.config_file self)
    as [[config_data|]|]; try (eexists; split; [reflexivity|by left]).
  destruct (Json.serializable (PDict config_data));
    [|eexists; split; [reflexivity|by left]].
  destruct (AgentConfig.Instance.__init__ (ConfigManager.cwd w) config_data)
    as [c|e] eqn:Hinit; [|eexists; split; [reflexivity|by left]].
  exists c. split; [reflexivity|]. right. by exists config_data.
Qed.

(** X17. Whatever the configuration file holds, a manager with an empty
    cache loads an instance that has all the fields and on which
    [__post_init__] finds nothing to replace: the working directory is
    truthy, the log level is one of the five, the confidence threshold is a
    number within [0, 1], and the timeout is a number that is not [<= 0].
    Such a timeout is positive when it is an [int]; it can be a [NaN], which
    a file can hold and no comparison rejects.  The manager caches what it
    returns. *)
Theorem loaded_config_is_well_formed
  (w : ConfigManager.world) (self : ConfigManager.t) :
  ConfigManager.cwd w <> EmptyString ->
  ConfigManager._config_cache self = None ->
  let out := ConfigManager.load_config w self in
  has_the_fields out.1
  /\ meets_post_init out.1 = true
  /\ (forall z, Dict.get "timeout" out.1 = Some (PInt z) -> (0 < z)%Z)
  /\ ConfigManager._config_cache out.2 = Some out.1.
Proof.
  intros Hcwd Hcache. cbv zeta.
  destruct (load_config_caches w self Hcache) as (c & -> & Hc). cbn [fst snd].
  assert (Hgood : has_the_fields c /\ meets_post_init c = true).
  { destruct Hc as [->|[config_data Hinit]].
    - split; [apply typed_has_the_fields|].
      rewrite typed_meets_post_init. by apply post_init_is_well_formed.
    - by apply (init_result _ _ _ Hcwd Hinit). }
  destruct Hgood as [Hfields Hmeets].
  split; [exact Hfields|]. split; [exact Hmeets|]. split; [|reflexivity].
  intros z Hz. unfold meets_post_init in Hmeets. rewrite Hz in Hmeets.
  destruct (Dict.get "working_directory" c); [|discriminate].
  destruct (Dict.get "log_level" c); [|discriminate].
  destruct (Dict.get "repair_confidence_threshold" c); [|discriminate].
  apply andb_prop in Hmeets as [Hmeets _].
  apply andb_prop in Hmeets as [_ Hpositive].
  cbn [AgentConfig.Instance.le_zero] in Hpositive.
  apply negb_true_iff in Hpositive. by apply Z.leb_gt.
Qed.

Lemma loaded_config_is_well_formed_witness :
  meets_post_init
    (ConfigManager.load_config nan_timeout_world (ConfigManager.init None)).1
  = true.
Proof.
  apply (loaded_config_is_well_formed nan_timeout_world (ConfigManager.init None)).
  - discriminate.
  - reflexivity.
Defined.

(** A name and a timeout from the file are kept as they are, also a timeout
    that is a [NaN]: [nan <= 0] is false. *)
Example nan_timeout_is_loaded :
  let loaded :=
    (ConfigManager.load_config nan_timeout_world (ConfigManager.init None)).1 in
  Dict.get "name" loaded = Some (PStr "x")
  /\ Dict.get "timeout" loaded = Some (PFloat nan)
  /\ Dict.get "log_level" loaded = Some (PStr "INFO").
Proof. vm_compute. repeat split. Qed.

(** X18. Once a manager has loaded a configuration it keeps returning that
    instance: a later [load_config] does not look at the file system, so a
    change of the file is not seen until the cache is cleared. *)
Theorem load_config_answers_from_the_cache
  (w later : ConfigManager.world) (self : ConfigManager.t) :
  let first := ConfigManager.load_config w self in
  ConfigManager.load_config later first.2 = first.
Proof.
  cbv zeta.
  destruct (ConfigManager._config_cache self) as [c|] eqn:Hcache.
  - assert (Hfirst : ConfigManager.load_config w self = (c, self))
      by (unfold ConfigManager.load_config; by rewrite Hcache).
    rewrite Hfirst. unfold ConfigManager.load_config. cbn [snd].
    by rewrite Hcache.
  - destruct (load_config_caches w self Hcache) as (c & -> & _). reflexivity.
Qed.

(** X19. [reset_config] resets the cache, not the file: when the file holds
    a saved well-formed configuration (the text [json.dump] has written for
    it), that configuration is loaded again and the file is left as it is,
    whether or not it can be written.  When there is no file, the defaults
    are loaded and cached; they are written to the file when it can be
    opened for writing, and nothing is written when it cannot. *)
Theorem reset_config_keeps_the_saved_file
  (w : ConfigManager.world) (config_manager : ConfigManager.t) :
  (forall config,
     well_formed config = true ->
     Json.serializable (PDict (AgentConfig.__dict__ config)) = true ->
     ConfigManager.files w !! ConfigManager.config_file config_manager
     = Some (ConfigManager.JsonObject (AgentConfig.__dict__ config)) ->
     Config.reset_config w config_manager
     = (w, ConfigManager.cached (AgentConfig.__dict__ config) config_manager))
  /\ (ConfigManager.files w !! ConfigManager.config_file config_manager = None ->
      Config.reset_config w config_manager
      = ((if ConfigManager.writable w (ConfigManager.config_file config_manager)
          then ConfigManager.written (ConfigManager.config_file config_manager)
                 (ConfigManager.JsonObject
                    (AgentConfig.__dict__ (default_config w))) w
          else w),
         ConfigManager.cached (AgentConfig.__dict__ (default_config w))
           config_manager)).
Proof.
  unfold Config.reset_config. split.
  - intros config Hwf Hs Hfile.
    rewrite (load_instance w (ConfigManager.clear_cache config_manager)
               (AgentConfig.__dict__ config));
      [|reflexivity|exact Hfile|apply typed_has_the_fields
       |by rewrite typed_meets_post_init|exact Hs].
    unfold ConfigManager.save_config, ConfigManager.cached,
      ConfigManager.clear_cache, ConfigManager.written.
    cbn [ConfigManager.config_file ConfigManager._config_cache]. rewrite Hs.
    destruct (ConfigManager.writable w _); [|reflexivity].
    rewrite (insert_id _ _ _ Hfile). by destruct w.
  - intros Hfile. unfold ConfigManager.load_config, ConfigManager.clear_cache.
    cbn [ConfigManager._config_cache ConfigManager.config_file].
    rewrite Hfile. fold (default_config w).
    unfold ConfigManager.save_config, ConfigManager.cached.
    cbn [ConfigManager.config_file ConfigManager._config_cache].
    rewrite default_config_serializable.
    by destruct (ConfigManager.writable w _).
Qed.

Lemma reset_config_keeps_the_saved_file_witness :
  Config.reset_config debug_world (ConfigManager.init None)
  = (debug_world,
     ConfigManager.cached (AgentConfig.__dict__ debug_config)
       (ConfigManager.init None)).
Proof.
  apply (proj1 (reset_config_keeps_the_saved_file debug_world
                  (ConfigManager.init None)) debug_config).
  - reflexivity.
  - vm_compute. reflexivity.
  - reflexivity.
Defined.

(** ** The decision engine *)

(** X20. The strategy the decision engine selects depends on the
    complexity level and on the keywords found in the code, and on nothing
    else: very high complexity always gives the test-driven strategy, high
    complexity gives it unless the keywords weigh 8 tenths or more, low and
    medium complexity give the static strategy up to 6 and 2 tenths; in the
    remaining cases the hybrid strategy is selected.  The file path, the
    file type and the dependencies have no influence. *)
Theorem decision_follows_the_table (context : AnalysisContext.t) :
  (DecisionEngine.make_strategy_decision context).1
  = decision_table (AnalysisContext.complexity_level context)
      (severity_points (AnalysisContext.code context)).
Proof.
  unfold DecisionEngine.make_strategy_decision,
    DecisionEngine._extract_decision_factors,
    DecisionEngine._assess_testing_coverage,
    DecisionEngine._assess_potential_issue_severity,
    DecisionEngine.level_ratio, severity_points.
  cbn [fst DecisionEngine.add_keywords fold_left List.filter].
  generalize (DecisionEngine._assess_file_importance
                (AnalysisContext.file_path context)),
    (DecisionEngine._assess_performance_requirements context).
  intros importance performance.
  generalize (Py.lower (AnalysisContext.code context)). intros code_lower.
  generalize (Py.contains "password" code_lower),
    (Py.contains "secret" code_lower), (Py.contains "key" code_lower),
    (Py.contains "token" code_lower), (Py.contains "sql" code_lower),
    (Py.contains "todo" code_lower), (Py.contains "fixme" code_lower),
    (Py.contains "hack" code_lower), (Py.contains "temp" code_lower).
  destruct (AnalysisContext.complexity_level context);
    intros [] [] [] [] [] [] [] [] []; vm_compute; reflexivity.
Qed.
(** ** The coordinator *)

Lemma get_tail_none (k : string) (entry : string * pyval) (entries : dict) :
  Dict.get k (entry :: entries) = None -> Dict.get k entries = None.
Proof.
  destruct entry as [k' v]. cbn [Dict.get].
  destruct (String.eqb k k'); [discriminate|auto].
Qed.

Section coordinator.
Variable env : External.t.

(** The issue lists and the score in whatever the static agent returns: the
    analyzers' lists and an integer score after an analysis, nothing in an
    error map. *)
Lemma analyze_shape (self : BaseAgent.t) (target : string)
  (context : option dict) :
  let r := (StaticAnalysisAgent.analyze env self target context).1 in
  exists security quality performance score,
    StaticAnalysisAgent.as_list (Dict.get_default "security_issues" (PList []) r)
    = map PIssue security
    /\ StaticAnalysisAgent.as_list (Dict.get_default "quality_issues" (PList []) r)
       = map PIssue quality
    /\ StaticAnalysisAgent.as_list (Dict.get_default "performance_issues" (PList []) r)
       = map PIssue performance
    /\ Dict.get_default "overall_score" (PInt 0) r = PInt score.
Proof.
  destruct (analysis_source env target context) as [[code file_path]|] eqn:Hsource.
  - destruct (String.eqb_spec code EmptyString) as [->|Hcode].
    + exists [], [], [], 0%Z. unfold analysis_source in Hsource.
      unfold StaticAnalysisAgent.analyze, StaticAnalysisAgent.analyze_try,
        StaticAnalysisAgent._read_file.
      destruct (External.path_lookup env target) as [|content|error];
        [injection Hsource as Ht Hf|injection Hsource as Ht Hf|discriminate];
        cbn [Py.bind fst snd]; rewrite Ht; cbn; repeat split.
    + destruct (analyze_try_ok env (BaseAgent.start_execution self) target context
                  code file_path Hsource Hcode)
        as (results & Htry & Hsec & Hqual & Hperf & Hscore & _).
      unfold StaticAnalysisAgent.analyze. rewrite Htry. cbn [fst].
      unfold Dict.get_default. rewrite Hsec, Hqual, Hperf, Hscore.
      eexists. eexists. eexists. eexists. repeat split.
  - exists [], [], [], 0%Z. unfold analysis_source in Hsource.
    unfold StaticAnalysisAgent.analyze, StaticAnalysisAgent.analyze_try,
      StaticAnalysisAgent._read_file.
    destruct (External.path_lookup env target) as [|content|error];
      try discriminate. cbn. repeat split.
Qed.

(** The result of the hybrid workflow, entry by entry. *)
Lemma hybrid_answer (self : CoordinatorAgent.t) (context : AnalysisContext.t) :
  let code := AnalysisContext.code context in
  let first_pass :=
    StaticAnalysisAgent.analyze env (CoordinatorAgent.static_agent self) code
      (Some [("file_path", Dict.of_opt_str (AnalysisContext.file_path context))]) in
  let out := Coordinator._execute_hybrid_workflow env self context in
  exists repair_results score,
    out.1
    = [ ("strategy", PStr "HYBRID");
        ("static_analysis_results", PDict
           [ ("initial", PDict first_pass.1); ("final", PNone) ]);
        ("repair_results", repair_results);
        ("final_code", PStr code);
        ("total_issues", PInt (Z.of_nat (length (static_issues first_pass.1))));
        ("overall_success", PBool false);
        ("applied_repairs", PList []);
        ("quality_improvement", PDict
           [ ("issues_identified",
              PInt (Z.of_nat (length (static_issues first_pass.1))));
             ("initial_quality_score", PInt score);
             ("final_quality_score", PInt score);
             ("quality_improvement", PInt 0);
             ("repairs_applied", PInt 0) ]) ]
    /\ CoordinatorAgent.static_agent out.2 = first_pass.2
    /\ (static_issues first_pass.1 = [] ->
        repair_results = PNone
        /\ CoordinatorAgent.repair_agent out.2 = CoordinatorAgent.repair_agent self)
    /\ (static_issues first_pass.1 <> [] ->
        exists r, repair_results = PDict r
                  /\ Dict.get "success" r = Some (PBool false)).
Proof.
  intros code first_pass out. subst out.
  destruct (analyze_shape (CoordinatorAgent.static_agent self) code
              (Some [("file_path", Dict.of_opt_str (AnalysisContext.file_path context))]))
    as (security & quality & performance & score & _ & _ & _ & Hscore).
  fold first_pass in Hscore.
  unfold Coordinator._execute_hybrid_workflow. fold code. fold first_pass.
  unfold static_issues.
  destruct first_pass as [static_result static]. cbn [fst snd] in *.
  rewrite Hscore.
  match goal with
  | |- context [match ?l with [] => _ | _ :: _ => _ end] =>
      destruct l as [|issue rest] eqn:Hissues
  end.
  - rewrite String.eqb_refl.
    cbn [negb fst snd length Nat.ltb Nat.leb CoordinatorAgent.num_sub
         CoordinatorAgent.opt_dict].
    exists PNone, score. rewrite Z.sub_diag.
    split; [reflexivity|]. split; [reflexivity|]. split; [auto|].
    intros Hne. contradiction.
  - match goal with
    | |- context [TestDrivenRepairAgent.analyze_and_repair env ?s ?c ?i] =>
        pose proof (repair_answer env s c i)
          as (Hne & Hcode & Hok & Happlied & _ & _ & Hfail);
        destruct (TestDrivenRepairAgent.analyze_and_repair env s c i)
          as [repair_result repair]
    end.
    cbn [fst snd] in Hne, Hcode, Hok, Happlied, Hfail.
    unfold Dict.get_default. rewrite Hcode.
    rewrite String.eqb_refl. cbn [negb]. cbv beta iota zeta.
    destruct repair_result as [|entry entries]; [contradiction|].
    cbv beta iota. rewrite Hok, Happlied.
    exists (PDict (entry :: entries)), score.
    cbn [CoordinatorAgent.num_sub CoordinatorAgent.opt_dict fst snd length
         StaticAnalysisAgent.as_list Nat.ltb Nat.leb].
    rewrite Z.sub_diag.
    split; [reflexivity|]. split; [reflexivity|]. split; [discriminate|].
    intros _. eexists. split; [reflexivity|exact Hfail].
Qed.

(** [CoordinatorAgent._execute_hybrid_workflow] reads three defaults from
    the map without its first entry; this makes no difference on any input,
    because the map is the repair agent's error map. *)
Lemma hybrid_workflows_agree
  (self : CoordinatorAgent.t) (context : AnalysisContext.t) :
  CoordinatorAgent._execute_hybrid_workflow env self context
  = Coordinator._execute_hybrid_workflow env self context.
Proof.
  unfold CoordinatorAgent._execute_hybrid_workflow,
    Coordinator._execute_hybrid_workflow.
  destruct (StaticAnalysisAgent.analyze env _ _ _) as [static_result static].
  match goal with
  | |- context [match ?l with [] => _ | _ :: _ => _ end] =>
      destruct l as [|issue rest] eqn:Hissues
  end; [by rewrite String.eqb_refl|].
  match goal with
  | |- context [TestDrivenRepairAgent.analyze_and_repair env ?s ?c ?i] =>
      pose proof (repair_answer env s c i)
        as (Hne & Hcode & Hok & Happlied & _);
      destruct (TestDrivenRepairAgent.analyze_and_repair env s c i)
        as [repair_result repair]
  end.
  cbn [fst snd] in Hne, Hcode, Hok, Happlied.
  unfold Dict.get_default. rewrite Hcode.
  rewrite String.eqb_refl. cbn [negb]. cbv beta iota zeta.
  destruct repair_result as [|entry entries]; [contradiction|].
  cbv beta iota.
  rewrite Hok, Happlied, (get_tail_none _ _ _ Hok), (get_tail_none _ _ _ Happlied).
  reflexivity.
Qed.


(** The result of the static-only workflow, entry by entry. *)
Lemma static_only_answer (self : CoordinatorAgent.t) (context : AnalysisContext.t) :
  let code := AnalysisContext.code context in
  let first_pass :=
    StaticAnalysisAgent.analyze env (CoordinatorAgent.static_agent self) code
      (Some [("file_path", Dict.of_opt_str (AnalysisContext.file_path context))]) in
  let out := Coordinator._execute_static_only_workflow env self context in
  exists critical score,
    out.1
    = Py.Ok
        [ ("strategy", PStr "STATIC_ONLY");
          ("static_analysis_results", PDict first_pass.1);
          ("repair_results", PNone);
          ("final_code", PStr code);
          ("total_issues", PInt (Z.of_nat (length (static_issues first_pass.1))));
          ("overall_success", PBool true);
          ("applied_repairs", PList []);
          ("quality_improvement", PDict
             [ ("issues_identified",
                PInt (Z.of_nat (length (static_issues first_pass.1))));
               ("critical_issues", PInt critical);
               ("quality_score", PInt score) ]) ]
    /\ out.2
       = {| CoordinatorAgent.base :=
              BaseAgent.logged (BaseAgent.LogInfo "Executing static-only workflow")
                (CoordinatorAgent.base self);
            CoordinatorAgent.static_agent := first_pass.2;
            CoordinatorAgent.repair_agent := CoordinatorAgent.repair_agent self |}.
Proof.
  intros code first_pass out. subst out.
  destruct (analyze_shape (CoordinatorAgent.static_agent self) code
              (Some [("file_path", Dict.of_opt_str (AnalysisContext.file_path context))]))
    as (security & quality & performance & score & Hsec & Hqual & Hperf & Hscore).
  fold first_pass in Hsec, Hqual, Hperf, Hscore.
  unfold Coordinator._execute_static_only_workflow. fold code. fold first_pass.
  unfold static_issues.
  destruct first_pass as [static_result static]. cbn [fst snd] in *.
  rewrite Hscore, Hsec, Hqual, Hperf, <- !map_app, issue_records_map.
  cbn [Py.bind]. eexists. exists score. split; reflexivity.
Qed.

(** The result of the test-driven workflow, entry by entry. *)
Lemma test_driven_answer (self : CoordinatorAgent.t) (context : AnalysisContext.t) :
  let code := AnalysisContext.code context in
  let repair_pass :=
    TestDrivenRepairAgent.analyze_and_repair env
      (CoordinatorAgent.repair_agent self) code None in
  let out := Coordinator._execute_test_driven_workflow env self context in
  out.1
  = Py.Ok
      [ ("strategy", PStr "TEST_DRIVEN_ONLY");
        ("static_analysis_results", PNone);
        ("repair_results", PDict repair_pass.1);
        ("final_code", PStr code);
        ("total_issues", PInt 0);
        ("overall_success", PBool false);
        ("applied_repairs", PList []);
        ("quality_improvement", PDict
           [ ("repairs_applied", PInt 0);
             ("test_improvement", PDict []);
             ("repair_confidence", PInt 0) ]) ]
  /\ out.2
     = {| CoordinatorAgent.base :=
            BaseAgent.logged (BaseAgent.LogInfo "Executing test-driven workflow")
              (CoordinatorAgent.base self);
          CoordinatorAgent.static_agent := CoordinatorAgent.static_agent self;
          CoordinatorAgent.repair_agent := repair_pass.2 |}.
Proof.
  intros code repair_pass out. subst out.
  pose proof (repair_answer env (CoordinatorAgent.repair_agent self) code None)
    as (_ & Hcode & Hok & Happlied & Hmetrics & Hconfidence & _).
  fold repair_pass in Hcode, Hok, Happlied, Hmetrics, Hconfidence.
  unfold Coordinator._execute_test_driven_workflow. fold code. fold repair_pass.
  destruct repair_pass as [repair_result repair]. cbn [fst snd] in *.
  unfold Dict.get_default.
  rewrite Hcode, Hok, Happlied, Hmetrics, Hconfidence.
  split; reflexivity.
Qed.

(** The reporting part succeeds on a result whose entries have the types
    the workflows give them. *)
Lemma report_ok (strategy : Strategy.t) (analysis_context : AnalysisContext.t)
  (factors : option DecisionEngine.factors) (self : CoordinatorAgent.t)
  (result : dict) (repairs_applied total_issues : Z) (effectiveness : pyval) :
  Coordinator.len (Dict.get_default "applied_repairs" (PList []) result)
  = Py.Ok repairs_applied ->
  Coordinator._assess_strategy_effectiveness result = Py.Ok effectiveness ->
  Dict.get_default "total_issues" (PInt 0) result = PInt total_issues ->
  exists info,
    Coordinator.report strategy analysis_context factors self result
    = (Py.Ok (Dict.set "coordination_info" (PDict info) result),
       Coordinator.with_base
         (fun _ =>
            BaseAgent.record_execution
              (BaseAgent.set_accuracy_rate effectiveness
                 (BaseAgent.set_issues_found total_issues
                    (CoordinatorAgent.base self)))
              "coordination"
              [ ("success", Dict.get_default "overall_success" (PBool false) result);
                ("strategy", PStr (Strategy.value strategy));
                ("issues_found", PInt total_issues);
                ("repairs_applied", PInt repairs_applied) ])
         self)
    /\ Dict.get "strategy_used" info = Some (PStr (Strategy.value strategy)).
Proof.
  intros Hlen Heffect Htotal.
  unfold Coordinator.report, Coordinator._generate_execution_summary.
  rewrite Hlen, Heffect. cbn [Py.bind]. cbv zeta.
  unfold Coordinator._update_metrics, Coordinator.get_of.
  unfold Dict.get_default in *.
  rewrite get_set_eq. rewrite !get_set_ne by reflexivity.
  rewrite Htotal, Hlen. cbn. eexists. split; reflexivity.
Qed.

Variable splitext : string -> string * string.

(** The [try] block of the entry point never raises. *)
Lemma coordinator_try_ok (self : Coordinator.t) (code : string)
  (file_path : option string) (strategy : Strategy.t) :
  let context := Coordinator._create_analysis_context env splitext code file_path in
  let used :=
    match strategy with
    | Strategy.AUTO => (DecisionEngine.make_strategy_decision context).1
    | _ => strategy
    end in
  let succeeded :=
    match used with
    | Strategy.STATIC_ONLY => true
    | _ => false
    end in
  exists result after record,
    Coordinator.analyze_and_repair_try env splitext self code file_path strategy
    = (Py.Ok result, used, after)
    /\ Dict.get "final_code" result = Some (PStr code)
    /\ Dict.get "applied_repairs" result = Some (PList [])
    /\ Dict.get "overall_success" result = Some (PBool succeeded)
    /\ (exists info,
          Dict.get "coordination_info" result = Some (PDict info)
          /\ Dict.get "strategy_used" info = Some (PStr (Strategy.value used)))
    /\ BaseAgent.execution_history (CoordinatorAgent.base (Coordinator.agents after))
       = BaseAgent.execution_history (CoordinatorAgent.base (Coordinator.agents self))
         ++ [record]
    /\ Dict.get "operation" record = Some (PStr "coordination")
    /\ Dict.get "success" record = Some (PBool succeeded).
Proof.
  intros context used succeeded.
  unfold Coordinator.analyze_and_repair_try. fold context.
  set (decided :=
         match strategy with
         | Strategy.AUTO =>
             let '(s, f) := DecisionEngine.make_strategy_decision context in
             (s, Some f)
         | _ => (strategy, Coordinator.last_decision_factors self)
         end).
  assert (Hused : decided.1 = used).
  { subst decided used. destruct strategy; reflexivity. }
  destruct decided as [strategy' factors]. cbn [fst] in Hused. subst strategy'.
  set (selected := Coordinator.with_base _ (Coordinator.agents self)).
  assert (Hhistory : BaseAgent.execution_history (CoordinatorAgent.base selected)
                     = BaseAgent.execution_history
                         (CoordinatorAgent.base (Coordinator.agents self)))
    by reflexivity.
  clearbody selected.
  assert (Hcases : used = Strategy.STATIC_ONLY \/ used = Strategy.TEST_DRIVEN_ONLY
                   \/ (used = Strategy.HYBRID \/ used = Strategy.AUTO))
    by (destruct used; tauto).
  destruct Hcases as [Hu | [Hu | Hu]].
  - subst succeeded. rewrite Hu.
    destruct (static_only_answer selected context)
      as (critical & score & Hresult & Hstate).
    destruct (Coordinator._execute_static_only_workflow env selected context)
      as [workflow after]. cbn [fst snd] in Hresult, Hstate. subst workflow after.
    match goal with
    | |- context [Coordinator.report ?s ?c ?f ?a ?r] =>
        destruct (report_ok s c f a r 0
                    (Z.of_nat (length (static_issues
                       (StaticAnalysisAgent.analyze env
                          (CoordinatorAgent.static_agent selected)
                          (AnalysisContext.code context)
                          (Some [("file_path",
                                  Dict.of_opt_str (AnalysisContext.file_path context))])).1)))
                    (PFloat (DecisionEngine.min1
                       (Py.float_of_Z
                          (Z.of_nat (length (static_issues
                             (StaticAnalysisAgent.analyze env
                                (CoordinatorAgent.static_agent selected)
                                (AnalysisContext.code context)
                                (Some [("file_path",
                                        Dict.of_opt_str
                                          (AnalysisContext.file_path context))])).1)))
                        / 10.0))))
          as (info & -> & Hinfo); try reflexivity
    end.
    eexists. eexists. eexists. split; [reflexivity|].
    rewrite get_set_eq. rewrite !get_set_ne by reflexivity.
    cbn [Coordinator.agents Coordinator.with_base CoordinatorAgent.base
         BaseAgent.record_execution BaseAgent.execution_history
         BaseAgent.set_accuracy_rate BaseAgent.set_issues_found BaseAgent.logged].
    rewrite Hhistory.
    split; [reflexivity|]. split; [reflexivity|]. split; [reflexivity|].
    split; [by exists info|]. split; [reflexivity|]. split; reflexivity.
  - subst succeeded. rewrite Hu.
    destruct (test_driven_answer selected context) as (Hresult & Hstate).
    destruct (Coordinator._execute_test_driven_workflow env selected context)
      as [workflow after]. cbn [fst snd] in Hresult, Hstate. subst workflow after.
    match goal with
    | |- context [Coordinator.report ?s ?c ?f ?a ?r] =>
        destruct (report_ok s c f a r 0 0 (PInt 0))
          as (info & -> & Hinfo); try reflexivity
    end.
    eexists. eexists. eexists. split; [reflexivity|].
    rewrite get_set_eq. rewrite !get_set_ne by reflexivity.
    cbn [Coordinator.agents Coordinator.with_base CoordinatorAgent.base
         BaseAgent.record_execution BaseAgent.execution_history
         BaseAgent.set_accuracy_rate BaseAgent.set_issues_found BaseAgent.logged].
    rewrite Hhistory.
    split; [reflexivity|]. split; [reflexivity|]. split; [reflexivity|].
    split; [by exists info|]. split; [reflexivity|]. split; reflexivity.
  - assert (Hsucceeded : succeeded = false)
      by (subst succeeded; destruct Hu as [-> | ->]; reflexivity).
    rewrite Hsucceeded.
    assert (Hworkflow :
      match used with
      | Strategy.STATIC_ONLY =>
          Coordinator._execute_static_only_workflow env selected context
      | Strategy.TEST_DRIVEN_ONLY =>
          Coordinator._execute_test_driven_workflow env selected context
      | _ =>
          let '(result, after) :=
            Coordinator._execute_hybrid_workflow env selected context in
          (Py.Ok result, after)
      end
      = (Py.Ok (Coordinator._execute_hybrid_workflow env selected context).1,
         (Coordinator._execute_hybrid_workflow env selected context).2))
      by (destruct Hu as [-> | ->];
          by destruct (Coordinator._execute_hybrid_workflow env selected context)).
    rewrite Hworkflow.
    destruct (hybrid_answer selected context)
      as (repair_results & score & Hresult & _).
    assert (Hbase : CoordinatorAgent.base
                      (Coordinator._execute_hybrid_workflow env selected context).2
                    = BaseAgent.logged (BaseAgent.LogInfo "Executing hybrid workflow")
                        (CoordinatorAgent.base selected)).
    { unfold Coordinator._execute_hybrid_workflow.
      repeat match goal with
             | |- context [let '(_, _) := ?x in _] => destruct x
             | |- context [match ?l with [] => _ | _ :: _ => _ end] => destruct l
             | |- context [if ?b then _ else _] => destruct b
             end; reflexivity. }
    destruct (Coordinator._execute_hybrid_workflow env selected context)
      as [result after]. cbn [fst snd] in Hresult, Hbase. subst result.
    match goal with
    | |- context [Coordinator.report ?s ?c ?f ?a ?r] =>
        destruct (report_ok s c f a r 0
                    (Z.of_nat (length (static_issues
                       (StaticAnalysisAgent.analyze env
                          (CoordinatorAgent.static_agent selected)
                          (AnalysisContext.code context)
                          (Some [("file_path",
                                  Dict.of_opt_str (AnalysisContext.file_path context))])).1)))
                    (PFloat 0))
          as (info & -> & Hinfo); try reflexivity
    end.
    { unfold Coordinator._assess_strategy_effectiveness. cbn.
      rewrite Z.sub_diag. reflexivity. }
    eexists. eexists. eexists. split; [reflexivity|].
    rewrite get_set_eq. rewrite !get_set_ne by reflexivity.
    cbn [Coordinator.agents Coordinator.with_base CoordinatorAgent.base
         BaseAgent.record_execution BaseAgent.execution_history
         BaseAgent.set_accuracy_rate BaseAgent.set_issues_found fst snd].
    rewrite Hbase. cbn [BaseAgent.logged BaseAgent.execution_history].
    rewrite Hhistory.
    split; [reflexivity|]. split; [reflexivity|]. split; [reflexivity|].
    split; [by exists info|]. split; [reflexivity|]. split; reflexivity.
Qed.

(** X21. The hybrid workflow never changes the code, with or without
    issues: [final_code] is the input code, [overall_success] is false, no
    repair is listed, the quality improvement is 0, the second static
    analysis never runs and the static agent is left as the first analysis
    left it. *)
Theorem hybrid_never_repairs
  (self : CoordinatorAgent.t) (context : AnalysisContext.t) :
  let code := AnalysisContext.code context in
  let first_pass :=
    StaticAnalysisAgent.analyze env (CoordinatorAgent.static_agent self) code
      (Some [("file_path", Dict.of_opt_str (AnalysisContext.file_path context))]) in
  let out := Coordinator._execute_hybrid_workflow env self context in
  Dict.get "final_code" out.1 = Some (PStr code)
  /\ Dict.get "overall_success" out.1 = Some (PBool false)
  /\ Dict.get "applied_repairs" out.1 = Some (PList [])
  /\ Dict.get "static_analysis_results" out.1
     = Some (PDict [("initial", PDict first_pass.1); ("final", PNone)])
  /\ Dict.get "total_issues" out.1
     = Some (PInt (Z.of_nat (length (static_issues first_pass.1))))
  /\ (exists quality_improvement,
        Dict.get "quality_improvement" out.1 = Some (PDict quality_improvement)
        /\ Dict.get "quality_improvement" quality_improvement = Some (PInt 0)
        /\ Dict.get "repairs_applied" quality_improvement = Some (PInt 0))
  /\ CoordinatorAgent.static_agent out.2 = first_pass.2.
Proof.
  intros code first_pass out.
  destruct (hybrid_answer self context)
    as (repair_results & score & Hresult & Hstatic & _).
  fold code first_pass out in Hresult, Hstatic. rewrite Hresult.
  do 5 (split; [reflexivity|]).
  split; [|exact Hstatic].
  eexists. split; [reflexivity|]. split; reflexivity.
Qed.

(** X22. The static-only workflow reports success whatever the static
    analysis returned, also when that is an error map: [overall_success] is
    true, the code is returned as it was given, nothing is repaired and the
    repair agent is not touched. *)
Theorem static_only_always_reports_success
  (self : CoordinatorAgent.t) (context : AnalysisContext.t) :
  let code := AnalysisContext.code context in
  let first_pass :=
    StaticAnalysisAgent.analyze env (CoordinatorAgent.static_agent self) code
      (Some [("file_path", Dict.of_opt_str (AnalysisContext.file_path context))]) in
  let out := Coordinator._execute_static_only_workflow env self context in
  exists result,
    out.1 = Py.Ok result
    /\ Dict.get "overall_success" result = Some (PBool true)
    /\ Dict.get "final_code" result = Some (PStr code)
    /\ Dict.get "repair_results" result = Some PNone
    /\ Dict.get "applied_repairs" result = Some (PList [])
    /\ Dict.get "static_analysis_results" result = Some (PDict first_pass.1)
    /\ Dict.get "total_issues" result
       = Some (PInt (Z.of_nat (length (static_issues first_pass.1))))
    /\ CoordinatorAgent.static_agent out.2 = first_pass.2
    /\ CoordinatorAgent.repair_agent out.2 = CoordinatorAgent.repair_agent self.
Proof.
  intros code first_pass out.
  destruct (static_only_answer self context)
    as (critical & score & Hresult & Hstate).
  fold code first_pass out in Hresult, Hstate.
  eexists. split; [exact Hresult|]. rewrite Hstate.
  repeat split.
Qed.

(** X23. The test-driven workflow never repairs anything: its result holds
    the repair agent's error map, the input code as [final_code],
    [overall_success] false, no issue and no repair, an empty test
    improvement and the repair confidence 0; the static agent is not
    touched. *)
Theorem test_driven_workflow_repairs_nothing
  (self : CoordinatorAgent.t) (context : AnalysisContext.t) :
  let code := AnalysisContext.code context in
  let repair_pass :=
    TestDrivenRepairAgent.analyze_and_repair env
      (CoordinatorAgent.repair_agent self) code None in
  let out := Coordinator._execute_test_driven_workflow env self context in
  exists result,
    out.1 = Py.Ok result
    /\ Dict.get "final_code" result = Some (PStr code)
    /\ Dict.get "overall_success" result = Some (PBool false)
    /\ Dict.get "total_issues" result = Some (PInt 0)
    /\ Dict.get "applied_repairs" result = Some (PList [])
    /\ Dict.get "repair_results" result = Some (PDict repair_pass.1)
    /\ Dict.get "success" repair_pass.1 = Some (PBool false)
    /\ Dict.get "quality_improvement" result
       = Some (PDict [ ("repairs_applied", PInt 0);
                       ("test_improvement", PDict []);
                       ("repair_confidence", PInt 0) ])
    /\ CoordinatorAgent.static_agent out.2 = CoordinatorAgent.static_agent self
    /\ CoordinatorAgent.repair_agent out.2 = repair_pass.2.
Proof.
  intros code repair_pass out.
  destruct (test_driven_answer self context) as (Hresult & Hstate).
  fold code repair_pass out in Hresult, Hstate.
  pose proof (repair_answer env (CoordinatorAgent.repair_agent self) code None)
    as (_ & _ & _ & _ & _ & _ & Hfail).
  fold repair_pass in Hfail.
  eexists. split; [exact Hresult|]. rewrite Hstate.
  repeat split. exact Hfail.
Qed.

(** X24. Whatever the strategy, the coordinator's [analyze_and_repair]
    raises nowhere and returns the code it was given: [final_code] is the
    input, no repair is listed, and the run is reported and recorded as
    successful exactly when the static-only strategy ran.  The strategy
    named in the coordination info is the one asked for, or the decision
    engine's when [AUTO] was asked for. *)
Theorem coordinator_returns_the_input_code (self : Coordinator.t)
  (code : string) (file_path : option string) (strategy : Strategy.t) :
  let context := Coordinator._create_analysis_context env splitext code file_path in
  let used :=
    match strategy with
    | Strategy.AUTO => (DecisionEngine.make_strategy_decision context).1
    | _ => strategy
    end in
  let succeeded :=
    match used with
    | Strategy.STATIC_ONLY => true
    | _ => false
    end in
  let out := Coordinator.analyze_and_repair env splitext self code file_path strategy in
  let before := CoordinatorAgent.base (Coordinator.agents self) in
  let after := CoordinatorAgent.base (Coordinator.agents out.2) in
  Dict.get "final_code" out.1 = Some (PStr code)
  /\ Dict.get "applied_repairs" out.1 = Some (PList [])
  /\ Dict.get "overall_success" out.1 = Some (PBool succeeded)
  /\ (exists info,
        Dict.get "coordination_info" out.1 = Some (PDict info)
        /\ Dict.get "strategy_used" info = Some (PStr (Strategy.value used)))
  /\ (exists record,
        BaseAgent.execution_history after
        = BaseAgent.execution_history before ++ [record]
        /\ Dict.get "operation" record = Some (PStr "coordination")
        /\ Dict.get "success" record = Some (PBool succeeded)).
Proof.
  intros context used succeeded out before after.
  subst out after. unfold Coordinator.analyze_and_repair.
  match goal with
  | |- context [Coordinator.analyze_and_repair_try env splitext ?s _ _ _] =>
      destruct (coordinator_try_ok s code file_path strategy)
        as (result & state & record & Htry & Hcode & Happlied & Hsuccess
            & Hinfo & Hhistory & Hoperation & Hrecord)
  end.
  fold context used succeeded in Htry, Hsuccess, Hinfo, Hrecord.
  rewrite Htry. cbn [fst snd].
  do 4 (split; [assumption|]).
  exists record. split; [exact Hhistory|]. split; assumption.
Qed.

End coordinator.

(** ** The coordinator's [analyze] *)

(** The coordinator's [analyze] never reaches an analysis: it hands
    the context to [analyze_and_repair] as the strategy, and a context has no
    [value].  With no context, or an empty one, the answer is the error map
    of that [AttributeError], recorded as a failed execution; with a context
    that is not empty the [except] clause raises the same error again and the
    call ends in the exception, with nothing recorded.  The static agent, the
    repair agent and the decision factors are left as they were. *)
Lemma coordinator_analyze_fails (self : Coordinator.t) (target : string)
  (context : option dict) :
  let out := Coordinator.analyze self target context in
  let before := CoordinatorAgent.base (Coordinator.agents self) in
  let after := CoordinatorAgent.base (Coordinator.agents out.2) in
  let message (type : string) := "'" +:+ type +:+ "' object has no attribute 'value'" in
  CoordinatorAgent.static_agent (Coordinator.agents out.2)
  = CoordinatorAgent.static_agent (Coordinator.agents self)
  /\ CoordinatorAgent.repair_agent (Coordinator.agents out.2)
     = CoordinatorAgent.repair_agent (Coordinator.agents self)
  /\ Coordinator.last_decision_factors out.2
     = Coordinator.last_decision_factors self
  /\ match context with
     | Some (_ :: _) =>
         out.1 = Py.Raise (Py.AttributeError (message "dict"))
         /\ BaseAgent.execution_history after
            = BaseAgent.execution_history before
     | _ =>
         exists result,
           out.1 = Py.Ok result
           /\ Dict.get "error" result
              = Some (PStr (message match context with
                                    | None => "NoneType"
                                    | Some _ => "dict"
                                    end))
           /\ Dict.get "success" result = Some (PBool false)
           /\ BaseAgent.execution_history after
              = BaseAgent.execution_history before
                ++ [[ ("operation", PStr "coordination");
                      ("result", PDict result);
                      ("agent", PStr (BaseAgent.agent before));
                      ("success", PBool false) ]]
     end.
Proof.
  intros out before after message. subst out before after message.
  unfold Coordinator.analyze.
  destruct context as [[|entry context]|].
  - do 3 (split; [reflexivity|]). eexists. repeat split.
  - do 3 (split; [reflexivity|]). split; reflexivity.
  - do 3 (split; [reflexivity|]). eexists. repeat split.
Qed.

(** ** The check of the configuration *)

(** X25. [validate_config] and [__post_init__] disagree on the log level
    [CRITICAL]: an instance that went through [__post_init__] passes
    [validate_config] exactly when its name and version are not empty and
    its log level is not [CRITICAL], a level [__post_init__] accepts; an
    invalid level or timeout cannot be met, since [__post_init__] has
    replaced them. *)
Theorem validation_rejects_the_critical_level (cwd : string) (c : AgentConfig.t) :
  let config := AgentConfig.__post_init__ cwd c in
  let result := Validation.validate_config config in
  (ValidationResult.is_valid result = true
   <-> AgentConfig.name c <> EmptyString
       /\ AgentConfig.version c <> EmptyString
       /\ AgentConfig.log_level c <> "CRITICAL")
  /\ (AgentConfig.log_level c = "CRITICAL" ->
      AgentConfig.log_level config = "CRITICAL"
      /\ In "Invalid log level: CRITICAL" (ValidationResult.issues_found result)
      /\ ValidationResult.suggestions result
         = ["Valid log levels: DEBUG, INFO, WARNING, ERROR"]).
Proof.
  intros config result. subst result config.
  unfold Validation.validate_config, AgentConfig.__post_init__,
    AgentConfig.level_is_valid, AgentConfig.valid_levels.
  cbn [AgentConfig.name AgentConfig.version AgentConfig.log_level
       AgentConfig.timeout existsb].
  assert (Htimeout :
    ((if (AgentConfig.timeout c <=? 0)%Z then 300%Z else AgentConfig.timeout c)
     <=? 0)%Z = false).
  { destruct (Z.leb_spec (AgentConfig.timeout c) 0); [reflexivity|].
    apply Z.leb_gt. lia. }
  rewrite Htimeout.
  destruct (String.eqb_spec (AgentConfig.name c) EmptyString) as [Hname|Hname];
    destruct (String.eqb_spec (AgentConfig.version c) EmptyString)
      as [Hversion|Hversion];
    (destruct (String.eqb_spec (AgentConfig.log_level c) "DEBUG") as [Hl|H1];
     [rewrite Hl; settle_validation|]);
    (destruct (String.eqb_spec (AgentConfig.log_level c) "INFO") as [Hl|H2];
     [rewrite Hl; settle_validation|]);
    (destruct (String.eqb_spec (AgentConfig.log_level c) "WARNING") as [Hl|H3];
     [rewrite Hl; settle_validation|]);
    (destruct (String.eqb_spec (AgentConfig.log_level c) "ERROR") as [Hl|H4];
     [rewrite Hl; settle_validation|]);
    (destruct (String.eqb_spec (AgentConfig.log_level c) "CRITICAL") as [Hl|H5];
     [rewrite Hl; settle_validation|]);
    settle_validation.
Qed.
(** ** The long-term memory *)

Lemma insert_last (x : LongTermMemory.MemoryEntry)
  (l : list LongTermMemory.MemoryEntry) :
  forallb (fun y => negb (LongTermMemory.key_lt y x)) l = true ->
  LongTermMemory.insert x l = l ++ [x].
Proof.
  induction l as [|y l IH]; cbn [forallb LongTermMemory.insert]; intros H;
    [reflexivity|].
  apply andb_prop in H as [Hy Hl]. apply negb_true_iff in Hy.
  rewrite Hy, (IH Hl). reflexivity.
Qed.

Lemma ordered_app (l : list LongTermMemory.MemoryEntry)
  (x : LongTermMemory.MemoryEntry) :
  ordered (l ++ [x]) = true ->
  ordered l = true
  /\ forallb (fun y => negb (LongTermMemory.key_lt y x)) l = true.
Proof.
  induction l as [|y l IH]; cbn [app ordered forallb]; intros H; [auto|].
  apply andb_prop in H as [Hy Hl]. rewrite forallb_app in Hy.
  apply andb_prop in Hy as [Hyl Hyx]. cbn [forallb] in Hyx.
  apply andb_prop in Hyx as [Hyx _].
  destruct (IH Hl) as [Hord Hall]. by rewrite Hyl, Hord, Hyx, Hall.
Qed.

Lemma sort_ordered (l : list LongTermMemory.MemoryEntry) :
  ordered l = true -> LongTermMemory.sort l = l.
Proof.
  unfold LongTermMemory.sort.
  induction l as [|x l IH] using rev_ind; intros H; [reflexivity|].
  apply ordered_app in H as [Hord Hall].
  rewrite fold_left_app. cbn [fold_left]. rewrite (IH Hord).
  by apply insert_last.
Qed.

Lemma insert_length (x : LongTermMemory.MemoryEntry)
  (l : list LongTermMemory.MemoryEntry) :
  length (LongTermMemory.insert x l) = S (length l).
Proof.
  induction l as [|y l IH]; cbn [LongTermMemory.insert]; [reflexivity|].
  destruct (LongTermMemory.key_lt y x); cbn [length]; by rewrite ?IH.
Qed.

Lemma sort_length (l : list LongTermMemory.MemoryEntry) :
  length (LongTermMemory.sort l) = length l.
Proof.
  unfold LongTermMemory.sort.
  induction l as [|x l IH] using rev_ind; [reflexivity|].
  rewrite fold_left_app. cbn [fold_left].
  rewrite insert_length, IH, length_app. cbn [length]. lia.
Qed.

(** X26. The long-term memory keeps at most 100 entries of a type, and
    when it is full it keeps the old ones: after
    [_add_to_long_term_memory] every list has at most 100 entries and the
    list of the new entry's type has lost none unless it had 100; and when
    that list holds exactly 100 entries in sorted order, none with a smaller
    key than the new entry, the new entry is dropped and the list stays as
    it was. *)
Theorem full_memory_drops_the_new_entry
  (content type : string) (importance : float) (metadata : dict)
  (self : LongTermMemory.t) :
  let new :=
    {| LongTermMemory.content := content; LongTermMemory.type := type;
       LongTermMemory.metadata := metadata;
       LongTermMemory.importance := importance;
       LongTermMemory.access_count := 0 |} in
  let after :=
    LongTermMemory._add_to_long_term_memory content type importance metadata self in
  (forall other entries,
     after !! other = Some entries -> (length entries <= 100)%nat)
  /\ (exists entries,
        after !! type = Some entries
        /\ length entries
           = Nat.min 100 (S (length (default [] (self !! type)))))
  /\ (forall entries,
        self !! type = Some entries ->
        length entries = 100%nat ->
        ordered entries = true ->
        forallb (fun e => negb (LongTermMemory.key_lt e new)) entries = true ->
        after !! type = Some entries).
Proof.
  intros new after. subst after.
  unfold LongTermMemory._add_to_long_term_memory,
    LongTermMemory._cleanup_low_importance_memory. cbv zeta. fold new.
  split; [|split].
  - intros other entries. rewrite lookup_fmap.
    destruct (_ !! other) as [l|]; cbn; [|discriminate].
    intros [= <-]. rewrite length_take. lia.
  - generalize (default [] (self !! type)). intros old.
    rewrite lookup_fmap, lookup_insert_eq. cbn [fmap option_fmap option_map].
    eexists. split; [reflexivity|].
    rewrite length_take, sort_length, length_app. cbn [length]. lia.
  - intros entries Hlookup Hlength Hordered Hkeys.
    rewrite lookup_fmap, lookup_insert_eq, Hlookup.
    cbn [fmap option_fmap option_map from_option id]. f_equal.
    assert (Hsorted : LongTermMemory.sort (entries ++ [new]) = entries ++ [new]).
    { unfold LongTermMemory.sort. rewrite fold_left_app. cbn [fold_left].
      fold (LongTermMemory.sort entries). rewrite (sort_ordered _ Hordered).
      by apply insert_last. }
    rewrite Hsorted, <- Hlength. apply take_app_length.
Qed.

Lemma full_memory_drops_the_new_entry_witness :
  LongTermMemory._add_to_long_term_memory "Analysis of b.py: {}" "analysis" 0.8
    [("file_path", PStr "b.py"); ("analysis_result", PDict [])] hundred_analyses
  !! "analysis"
  = Some (replicate 100 (analysis_entry "a.py")).
Proof.
  apply (proj2 (proj2 (full_memory_drops_the_new_entry
                         "Analysis of b.py: {}" "analysis" 0.8
                         [("file_path", PStr "b.py"); ("analysis_result", PDict [])]
                         hundred_analyses))).
  - reflexivity.
  - reflexivity.
  - vm_compute. reflexivity.
  - vm_compute. reflexivity.
Defined.
